(** * VoicePay Arc: the voice-command-to-transaction pipeline

    A shallow embedding of the TypeScript sources

      - [lib/api/validation.ts]   (validators, [sanitizeInput])
      - [pages/api/nlp.ts]        (AI-path intent construction, fallback
                                   extractor, the POST /api/nlp handler)
      - [lib/hooks/useVoice.ts]   (the recording hook)
      - [lib/utils.ts]            ([retryWithBackoff])
      - [pages/index.tsx]         ([handleSendTransaction])
      - [lib/blockchain/arc.ts], [lib/demo/mockData.ts] ([validateAmount])

    and, further on, of the other validators of [lib/api/validation.ts]
    (the rate limiter among them), the texts, times and arrays of
    [lib/utils.ts], the handler of [pages/api/voice.ts], the handlers of
    the page [pages/index.tsx], the demo services of
    [lib/demo/mockData.ts] and the filters and pages of
    [lib/hooks/useTransactions.ts].

    JavaScript numbers are IEEE-754 binary64 values, embedded as Rocq's
    primitive floats; JavaScript strings are embedded as [string], read as
    sequences of code units below 256. *)

From Stdlib Require Import ZArith Bool List Ascii String Lia.
From Stdlib Require Import Floats.PrimFloat Floats.FloatOps Floats.SpecFloat.
Import ListNotations.

Local Open Scope string_scope.
Local Open Scope Z_scope.

Set Warnings "-inexact-float,-register-all".

(* ================================================================== *)
(** * The host language: strings                                       *)
(* ================================================================== *)

Module JS.

(** ** Character classes of the regular expressions used in the sources *)

Definition code (c : ascii) : N := N_of_ascii c.

Definition between (lo hi : N) (c : ascii) : bool :=
  (N.leb lo (code c) && N.leb (code c) hi)%bool.

(** [\d] *)
Definition isDigit (c : ascii) : bool := between 48 57 c.

(** [[a-fA-F0-9]] *)
Definition isHex (c : ascii) : bool :=
  (isDigit c || between 97 102 c || between 65 70 c)%bool.

(** [\w], that is [[A-Za-z0-9_]] *)
Definition isWord (c : ascii) : bool :=
  (between 97 122 c || between 65 90 c || isDigit c || N.eqb (code c) 95)%bool.

(** [\s] and the white space removed by [String.prototype.trim]: TAB, LF,
    VT, FF, CR, SPACE and NBSP are the members below 256. *)
Definition isSpace (c : ascii) : bool :=
  (between 9 13 c || N.eqb (code c) 32 || N.eqb (code c) 160)%bool.

(** [[\x00-\x1F\x7F]] *)
Definition isControl (c : ascii) : bool :=
  (N.leb (code c) 31 || N.eqb (code c) 127)%bool.

(** [[<>]] *)
Definition isAngle (c : ascii) : bool :=
  (N.eqb (code c) 60 || N.eqb (code c) 62)%bool.

(** [[$,]] *)
Definition isDollarComma (c : ascii) : bool :=
  (N.eqb (code c) 36 || N.eqb (code c) 44)%bool.

(** ** String methods *)

(** The lower-case form of an ASCII letter. *)
Definition foldChar (c : ascii) : ascii :=
  if between 65 90 c then ascii_of_N (code c + 32) else c.

(** The lower-case form of a code unit below 256: the letters [A-Z] and the
    Latin-1 capitals U+00C0-U+00DE, but for the sign U+00D7. *)
Definition lowerChar (c : ascii) : ascii :=
  if (between 65 90 c || between 192 214 c || between 216 222 c)%bool
  then ascii_of_N (code c + 32) else c.

Fixpoint mapChars (f : ascii -> ascii) (s : string) : string :=
  match s with
  | EmptyString => EmptyString
  | String c r => String (f c) (mapChars f r)
  end.

(** [s.toLowerCase()] *)
Definition toLowerCase (s : string) : string := mapChars lowerChar s.

(** [p] is a prefix of [s] *)
Fixpoint startsWith (p s : string) : bool :=
  match p, s with
  | EmptyString, _ => true
  | String a p', String b s' => (Ascii.eqb a b && startsWith p' s')%bool
  | String _ _, EmptyString => false
  end.

(** Whether the literal [p], of ASCII letters, matches at the head of [s]
    under the [i] flag: a letter of [p] is matched by its two ASCII cases
    and by no other code unit. *)
Definition startsWithCI (p s : string) : bool :=
  startsWith (mapChars foldChar p) (mapChars foldChar s).

(** [s.includes(p)] *)
Fixpoint includes (s p : string) : bool :=
  (startsWith p s ||
   match s with
   | EmptyString => false
   | String _ r => includes r p
   end)%bool.

(** [s.replace(/[class]/g, '')] for a one-character class *)
Fixpoint removeAll (cls : ascii -> bool) (s : string) : string :=
  match s with
  | EmptyString => EmptyString
  | String c r => if cls c then removeAll cls r else String c (removeAll cls r)
  end.

Fixpoint trimStart (s : string) : string :=
  match s with
  | EmptyString => EmptyString
  | String c r => if isSpace c then trimStart r else s
  end.

(** The characters of [s] in reverse order. *)
Fixpoint revOnto (s acc : string) : string :=
  match s with
  | EmptyString => acc
  | String c r => revOnto r (String c acc)
  end.

Definition reverse (s : string) : string := revOnto s EmptyString.

Definition trimEnd (s : string) : string := reverse (trimStart (reverse s)).

(** [s.trim()] *)
Definition trim (s : string) : string := trimEnd (trimStart s).

(** The longest prefix of [s] whose characters are all in [cls], and the
    rest of [s]: what a greedy [[cls]*] consumes. *)
Fixpoint span (cls : ascii -> bool) (s : string) : string * string :=
  match s with
  | EmptyString => (EmptyString, EmptyString)
  | String c r =>
      if cls c then let (a, b) := span cls r in (String c a, b)
      else (EmptyString, s)
  end.

(** [s.split(sep)] for a one-character separator *)
Fixpoint splitOn (sep : ascii) (s : string) : list string :=
  match s with
  | EmptyString => [EmptyString]
  | String c r =>
      if Ascii.eqb c sep then EmptyString :: splitOn sep r
      else match splitOn sep r with
           | [] => [String c EmptyString]
           | h :: t => String c h :: t
           end
  end.

(** [parts.join(sep)] *)
Fixpoint join (sep : string) (parts : list string) : string :=
  match parts with
  | [] => EmptyString
  | [p] => p
  | p :: rest => p ++ sep ++ join sep rest
  end.

(** Group 1 of the first match of [/(\d+(?:\.\d+)?)/]: the first run of
    digits, with the fraction that follows it if there is one. *)
Fixpoint firstNumber (s : string) : option string :=
  match s with
  | EmptyString => None
  | String c r =>
      if isDigit c then
        let (ip, rest) := span isDigit s in
        match rest with
        | String dot r' =>
            if N.eqb (code dot) 46 then
              match span isDigit r' with
              | (EmptyString, _) => Some ip
              | (fp, _) => Some (ip ++ "." ++ fp)
              end
            else Some ip
        | EmptyString => Some ip
        end
      else firstNumber r
  end.

(** Drop the first [n] characters. *)
Fixpoint drop (n : nat) (s : string) : string :=
  match n, s with
  | O, _ => s
  | S _, EmptyString => EmptyString
  | S n', String _ r => drop n' r
  end.

End JS.

(* ================================================================== *)
(** * The host language: numbers                                       *)
(* ================================================================== *)

Module JSNumber.


Definition number := float.

(** The binary64 value nearest to [num / den] (ties to even), for
    [num >= 0] and [den > 0]. *)
Definition roundRatio (num den : Z) : number :=
  if num =? 0 then PrimFloat.zero
  else
    (* scale so that the quotient carries at least 64 significant bits *)
    let k := Z.max 0 (64 + Z.log2 den - Z.log2 num) in
    let q := (num * 2 ^ k) / den in
    let r := (num * 2 ^ k) mod den in
    let sticky := if r =? 0 then 0 else 1 in
    SF2Prim (binary_normalize prec emax (2 * q + sticky) (- k - 1) false).

Definition digitVal (c : ascii) : Z := Z.of_N (JS.code c) - 48.

Fixpoint digitsValue (acc : Z) (s : string) : Z :=
  match s with
  | EmptyString => acc
  | String c r => digitsValue (10 * acc + digitVal c) r
  end.

Definition isSign (c : ascii) : bool :=
  (N.eqb (JS.code c) 43 || N.eqb (JS.code c) 45)%bool.

(** The exponent part [[eE][+-]?\d+] at the head of [s], if there is one. *)
Definition exponentPart (s : string) : Z :=
  match s with
  | String e r =>
      if (N.eqb (JS.code e) 101 || N.eqb (JS.code e) 69)%bool then
        let '(neg, r') :=
          match r with
          | String sg r'' =>
              if isSign sg then (N.eqb (JS.code sg) 45, r'') else (false, r)
          | EmptyString => (false, r)
          end in
        let (ds, _) := JS.span JS.isDigit r' in
        match ds with
        | EmptyString => 0
        | _ => if neg then - digitsValue 0 ds else digitsValue 0 ds
        end
      else 0
  | EmptyString => 0
  end.

(** The value of the longest prefix of [s] that is an unsigned
    [StrDecimalLiteral]; [nan] when no prefix is one. *)
Definition unsignedLiteral (s : string) : number :=
  if JS.startsWith "Infinity" s then PrimFloat.infinity
  else
    let (ip, r1) := JS.span JS.isDigit s in
    let '(fp, r2) :=
      match r1 with
      | String dot r =>
          if N.eqb (JS.code dot) 46 then
            let (f, r') := JS.span JS.isDigit r in
            match ip, f with
            | EmptyString, EmptyString => (EmptyString, r1)
            | _, _ => (f, r')
            end
          else (EmptyString, r1)
      | EmptyString => (EmptyString, r1)
      end in
    match ip, fp with
    | EmptyString, EmptyString => PrimFloat.nan
    | _, _ =>
        let m := digitsValue (digitsValue 0 ip) fp in
        let e := exponentPart r2 - Z.of_nat (String.length fp) in
        if 0 <=? e then roundRatio (m * 10 ^ e) 1
        else roundRatio m (10 ^ (- e))
    end.

(** [parseFloat(s)] *)
Definition parseFloat (s : string) : number :=
  match JS.trimStart s with
  | String sg r =>
      if N.eqb (JS.code sg) 45 then PrimFloat.opp (unsignedLiteral r)
      else if N.eqb (JS.code sg) 43 then unsignedLiteral r
      else unsignedLiteral (String sg r)
  | EmptyString => PrimFloat.nan
  end.


(** ** [Number.prototype.toString] (radix 10) *)

Definition digitChar (d : Z) : ascii := ascii_of_N (Z.to_N (48 + d)).

(** The [k] decimal digits of [s], most significant first. *)
Fixpoint digitsOf (k : nat) (s : Z) : string :=
  match k with
  | O => EmptyString
  | S k' => String (digitChar ((s / 10 ^ Z.of_nat k') mod 10)) (digitsOf k' s)
  end.

Fixpoint stripZeros (s : string) : string :=
  match s with
  | String c (String _ _ as r) => if N.eqb (JS.code c) 48 then stripZeros r else s
  | _ => s
  end.

(** The decimal digits of [z >= 0], without leading zeros. *)
Definition natString (z : Z) : string :=
  stripZeros (digitsOf (Z.to_nat (Z.log2 z / 3 + 1)) z).

Fixpoint zeros (n : nat) : string :=
  match n with O => EmptyString | S n' => String "0" (zeros n') end.

(** [num/den * 10^(-p)] as a fraction *)
Definition scaled (num den p : Z) : Z * Z :=
  if 0 <=? p then (num, den * 10 ^ p) else (num * 10 ^ (- p), den).

(** The [n] with [10^(n-1) <= num/den < 10^n], for [num, den > 0]. *)
Definition decimalExponent (num den : Z) : Z :=
  let est := ((Z.log2 num - Z.log2 den) * 30103) / 100000 in
  let fits n := let (a, b) := scaled num den n in a <? b in
  if fits (est - 1) then est - 1
  else if fits est then est
  else if fits (est + 1) then est + 1
  else est + 2.

(** For [k] digits: the integer [s] nearest to [x / 10^(n-k)] whose decimal
    [s * 10^(n-k)] reads back as [x], if there is one. *)
Definition candidate (x : number) (num den n : Z) (k : nat) : option Z :=
  let p := n - Z.of_nat k in
  let (a, b) := scaled num den p in
  let lo := a / b in
  let hi := lo + 1 in
  let back s :=
    let v := if 0 <=? p then roundRatio (s * 10 ^ p) 1
             else roundRatio s (10 ^ (- p)) in
    PrimFloat.eqb v x in
  let loFirst := 2 * (a mod b) <=? b in
  let ok s := ((10 ^ (Z.of_nat k - 1) <=? s) && back s)%bool in
  if loFirst then
    if ok lo then Some lo else if ok hi then Some hi else None
  else
    if ok hi then Some hi else if ok lo then Some lo else None.

(** The shortest digit string that reads back as [x]: its digits [s], their
    number [k] and the decimal exponent [n]. *)
Fixpoint shortest (x : number) (num den n : Z) (fuel : nat) (k : nat)
  : Z * nat * Z :=
  match candidate x num den n k with
  | Some s =>
      if s =? 10 ^ Z.of_nat k then (10 ^ (Z.of_nat k - 1), k, n + 1)
      else (s, k, n)
  | None =>
      match fuel with
      | O => (let (a, b) := scaled num den (n - Z.of_nat k) in a / b, k, n)
      | S fuel' => shortest x num den n fuel' (S k)
      end
  end.

Definition formatDigits (ds : string) (k : nat) (n : Z) : string :=
  if ((Z.of_nat k <=? n) && (n <=? 21))%bool then
    ds ++ zeros (Z.to_nat (n - Z.of_nat k))
  else if ((0 <? n) && (n <=? 21))%bool then
    String.substring 0 (Z.to_nat n) ds ++ "." ++ JS.drop (Z.to_nat n) ds
  else if ((-6 <? n) && (n <=? 0))%bool then
    "0." ++ zeros (Z.to_nat (- n)) ++ ds
  else
    let e := n - 1 in
    let sg := if e <? 0 then "-" else "+" in
    let mant := match ds with
                | String d EmptyString => ds
                | String d r => String d ("." ++ r)
                | EmptyString => ds
                end in
    mant ++ "e" ++ sg ++ natString (Z.abs e).

Definition positiveToString (x : number) : string :=
  match Prim2SF x with
  | S754_finite _ m e =>
      let '(num, den) := if 0 <=? e then (Zpos m * 2 ^ e, 1)
                         else (Zpos m, 2 ^ (- e)) in
      let n := decimalExponent num den in
      let '(s, k, n') := shortest x num den n 17 1 in
      formatDigits (digitsOf k s) k n'
  | _ => "0"
  end.

(** [x.toString()] *)
Definition toString (x : number) : string :=
  if PrimFloat.is_nan x then "NaN"
  else if PrimFloat.is_zero x then "0"
  else if PrimFloat.is_infinity x then
    if PrimFloat.ltb x PrimFloat.zero then "-Infinity" else "Infinity"
  else if PrimFloat.ltb x PrimFloat.zero then
    "-" ++ positiveToString (PrimFloat.opp x)
  else positiveToString x.

(** [x.toFixed(f)] for [0 <= f <= 100]; outside that range the method raises
    a [RangeError], rendered as [None]. *)
Definition toFixed (x : number) (f : Z) : option string :=
  if ((f <? 0) || (100 <? f))%bool then None
  else if negb (PrimFloat.is_finite x) then Some (toString x)
  else if PrimFloat.leb 1e21 (PrimFloat.abs x) then Some (toString x)
  else
    let body (m : positive) (e : Z) :=
      let '(num, den) := if 0 <=? e then (Zpos m * 2 ^ e, 1)
                         else (Zpos m, 2 ^ (- e)) in
      (* nearest integer to x * 10^f, the larger one on a tie *)
      let n := (2 * num * 10 ^ f + den) / (2 * den) in
      let ds := natString n in
      let ds := zeros (Z.to_nat f + 1 - String.length ds) ++ ds in
      let k := String.length ds in
      if f =? 0 then ds
      else String.substring 0 (k - Z.to_nat f) ds ++ "."
           ++ JS.drop (k - Z.to_nat f) ds in
    match Prim2SF x with
    | S754_finite sg m e => Some ((if sg then "-" else "") ++ body m e)
    | _ => Some (if f =? 0 then "0" else "0." ++ zeros (Z.to_nat f))
    end.

(** The number that an integer literal denotes. *)
Definition ofZ (z : Z) : number :=
  if z <? 0 then PrimFloat.opp (roundRatio (- z) 1) else roundRatio z 1.

(** Truthiness of a number: [0], [-0] and [NaN] are falsy. *)
Definition truthy (x : number) : bool :=
  negb (PrimFloat.is_nan x || PrimFloat.is_zero x).

End JSNumber.

(* ================================================================== *)
(** * The host language: JSON values                                   *)
(* ================================================================== *)

Module JSValue.
Import JSNumber.

(** The values [JSON.parse] produces, and [undefined], which reading an
    absent property gives. *)
Inductive JValue :=
| JUndefined
| JNull
| JBool (b : bool)
| JNum (x : number)
| JStr (s : string)
| JArr (items : list JValue)
| JObj (fields : list (string * JValue)).

(** The own property [k] of an object whose properties, of distinct names,
    are [fields]. *)
Fixpoint lookup (k : string) (fields : list (string * JValue)) : option JValue :=
  match fields with
  | [] => None
  | (k', v) :: rest => if String.eqb k k' then Some v else lookup k rest
  end.

(** [v.k] for a property name [k] that no prototype defines and that is not
    an index or ["length"] (the names the sources read are of this kind):
    [None] is the [TypeError] raised on [null] and [undefined]. *)
Definition get (v : JValue) (k : string) : option JValue :=
  match v with
  | JUndefined | JNull => None
  | JObj fields => Some (match lookup k fields with
                         | Some x => x
                         | None => JUndefined
                         end)
  | _ => Some JUndefined
  end.

(** Truthiness. *)
Definition truthy (v : JValue) : bool :=
  match v with
  | JUndefined | JNull => false
  | JBool b => b
  | JNum x => JSNumber.truthy x
  | JStr s => negb (String.eqb s "")
  | JArr _ | JObj _ => true
  end.

(** [a || b] *)
Definition or (a b : JValue) : JValue := if truthy a then a else b.

(** [v !== false] *)
Definition notFalse (v : JValue) : bool :=
  match v with
  | JBool false => false
  | _ => true
  end.

(** [ToString(v)].  An object is rendered by [Object.prototype.toString]
    unless it has an own property ["toString"], which for a parsed JSON
    value is never callable: the conversion then finds no primitive and
    raises a [TypeError] ([None]).  An array joins the renderings of its
    items, [null] and [undefined] giving the empty string. *)
Fixpoint toString (v : JValue) : option string :=
  match v with
  | JUndefined => Some "undefined"
  | JNull => Some "null"
  | JBool true => Some "true"
  | JBool false => Some "false"
  | JNum x => Some (JSNumber.toString x)
  | JStr s => Some s
  | JArr items =>
      (fix joinItems (xs : list JValue) : option string :=
         match xs with
         | [] => Some ""
         | x :: rest =>
             let item := match x with
                         | JUndefined | JNull => Some ""
                         | _ => toString x
                         end in
             match item, rest with
             | None, _ => None
             | Some a, [] => Some a
             | Some a, _ =>
                 match joinItems rest with
                 | Some b => Some (a ++ "," ++ b)
                 | None => None
                 end
             end
         end) items
  | JObj fields =>
      match lookup "toString" fields with
      | Some _ => None
      | None => Some "[object Object]"
      end
  end.

End JSValue.

(* ================================================================== *)
(** * [lib/blockchain/types.ts]                                        *)
(* ================================================================== *)

Module Types.
Import JSNumber.

(** [Participant] *)
Record Participant := mkParticipant {
  identifier : string;
  participantAmount : option number;
  address : option string
}.

(** [PaymentIntent].  The record is generic in the types of [action],
    [recipient] and [participants]: the declared interface instantiates them
    as below, while the AI path of [pages/api/nlp.ts] stores whatever JSON
    the collaborator sent.  [parsedAt], a time stamp, is left out. *)
Record Intent (A R P : Type) := mkIntent {
  action : A;
  amount : number;
  currency : string;
  recipient : R;
  participants : P;
  confirmationRequired : bool;
  originalCommand : option string;
  isValid : bool;
  validationErrors : option (list string)
}.

Arguments mkIntent {A R P}.
Arguments action {A R P}.
Arguments amount {A R P}.
Arguments currency {A R P}.
Arguments recipient {A R P}.
Arguments participants {A R P}.
Arguments confirmationRequired {A R P}.
Arguments originalCommand {A R P}.
Arguments isValid {A R P}.
Arguments validationErrors {A R P}.

(** [PaymentAction] is a union of string literals; at run time an action is
    a string. *)
Definition PaymentAction := string.

Definition PaymentIntent :=
  Intent PaymentAction (option string) (option (list Participant)).

(** [VoiceProcessingState] *)
Inductive VoiceProcessingState :=
| idle | requesting | listening | processing
| confirming | executing | complete | error.

End Types.

(* ================================================================== *)
(** * The [ethers] library and the process environment                *)
(* ================================================================== *)

(** What the sources use of [ethers]: [isAddress] and [getAddress], which
    raises on a malformed address ([None]). *)
Class Ethers := {
  isAddress : string -> bool;
  getAddress : string -> option string
}.

(** [ethers.ZeroAddress] *)
Definition ZeroAddress : string := "0x0000000000000000000000000000000000000000".

(** The environment variables read by the validators. *)
Record ProcessEnv := mkEnv {
  NEXT_PUBLIC_MIN_USDC_AMOUNT : option string;
  NEXT_PUBLIC_MAX_USDC_AMOUNT : option string;
  NEXT_PUBLIC_DEMO_MODE : option string
}.

(** [process.env.X || dflt]: an unset or empty variable gives the default. *)
Definition envOr (v : option string) (dflt : string) : string :=
  match v with
  | Some (String _ _ as s) => s
  | _ => dflt
  end.

(* ================================================================== *)
(** * [lib/api/validation.ts]                                          *)
(* ================================================================== *)

Module Validation.
Import JSNumber Types.

Section WithHost.
Context {eth : Ethers}.
Variable env : ProcessEnv.

Record AddressValidation := mkAddressValidation {
  addressValid : bool;
  addressError : option string;
  checksumAddress : option string
}.

Definition validateAddress (address : string) : AddressValidation :=
  if negb (isAddress address) then
    mkAddressValidation false (Some "Invalid address format") None
  else
    match getAddress address with
    | Some checksum => mkAddressValidation true None (Some checksum)
    | None => mkAddressValidation false (Some "Invalid Ethereum address") None
    end.

Definition validateRecipientAddress (address : string) : bool :=
  addressValid (validateAddress address).

Definition isZeroAddress (address : string) : bool :=
  (String.eqb address ZeroAddress
   || String.eqb address "0x0000000000000000000000000000000000000000")%bool.

Record AmountOptions := mkAmountOptions {
  optMinAmount : option number;
  optMaxAmount : option number;
  optMaxDecimals : option Z
}.

Definition noOptions : AmountOptions := mkAmountOptions None None None.

Record AmountValidation := mkAmountValidation {
  amountValid : bool;
  amountError : option string;
  normalized : option string
}.

Definition invalidAmount (msg : string) : AmountValidation :=
  mkAmountValidation false (Some msg) None.

(** [amount: string | number] *)
Inductive StringOrNumber :=
| IsString (s : string)
| IsNumber (x : number).

Definition validateUSDCAmount (amount : StringOrNumber) (options : AmountOptions)
  : AmountValidation :=
  let amountStr := match amount with
                   | IsNumber x => toString x
                   | IsString s => s
                   end in
  let cleaned := JS.removeAll JS.isDollarComma (JS.trim amountStr) in
  let numAmount := parseFloat cleaned in
  if PrimFloat.is_nan numAmount then invalidAmount "Invalid amount format"
  else if PrimFloat.leb numAmount 0%float then
    invalidAmount "Amount must be greater than zero"
  else
    let minAmount :=
      match optMinAmount options with
      | Some m => m
      | None => parseFloat (envOr (NEXT_PUBLIC_MIN_USDC_AMOUNT env) "0.01")
      end in
    if PrimFloat.ltb numAmount minAmount then
      invalidAmount ("Amount must be at least " ++ toString minAmount ++ " USDC")
    else
      let maxAmount :=
        match optMaxAmount options with
        | Some m => m
        | None => parseFloat (envOr (NEXT_PUBLIC_MAX_USDC_AMOUNT env) "10000")
        end in
      if PrimFloat.ltb maxAmount numAmount then
        invalidAmount ("Amount cannot exceed " ++ toString maxAmount ++ " USDC")
      else
        let maxDecimals := match optMaxDecimals options with
                           | Some d => d
                           | None => 6
                           end in
        let decimalParts := JS.splitOn "." cleaned in
        let tooMany :=
          match decimalParts with
          | _ :: frac :: _ => maxDecimals <? Z.of_nat (String.length frac)
          | _ => false
          end in
        if tooMany then
          invalidAmount ("Amount cannot have more than "
                         ++ toString (ofZ maxDecimals)
                         ++ " decimal places")
        else
          match toFixed numAmount (Z.min maxDecimals 6) with
          | Some n => mkAmountValidation true None (Some n)
          | None => invalidAmount "Invalid amount"
          end.

Record IntentValidation := mkIntentValidation {
  valid : bool;
  errors : list string
}.

Definition validActions : list PaymentAction :=
  ["send"; "request"; "split"; "pay_bill"; "check_balance"; "view_history";
   "cancel"].

Definition actionsRequiringAmount : list PaymentAction :=
  ["send"; "split"; "pay_bill"].

(** [xs.includes(a)] on an array of strings *)
Definition arrayIncludes (xs : list string) (a : string) : bool :=
  existsb (String.eqb a) xs.

(** [a || b] on strings *)
Definition orString (a : option string) (b : string) : string :=
  match a with
  | Some (String _ _ as s) => s
  | _ => b
  end.

(** The errors pushed by the amount rule. *)
Definition amountErrors (intent : PaymentIntent) : list string :=
  if arrayIncludes actionsRequiringAmount (action intent) then
    ((if (negb (truthy (amount intent))
          || PrimFloat.leb (amount intent) 0%float)%bool
      then ["Amount is required and must be greater than zero"] else [])
     ++
     (let amountValidation :=
        validateUSDCAmount (IsNumber (amount intent)) noOptions in
      if negb (amountValid amountValidation)
      then [orString (amountError amountValidation) "Invalid amount"]
      else []))%list
  else [].

(** The errors pushed by the recipient rule. *)
Definition recipientErrors (intent : PaymentIntent) : list string :=
  if String.eqb (action intent) "send" then
    match recipient intent with
    | Some (String _ _ as r) =>
        ((let addressValidation := validateAddress r in
          if negb (addressValid addressValidation)
          then [orString (addressError addressValidation)
                         "Invalid recipient address"]
          else [])
         ++
         (if isZeroAddress r then ["Cannot send to zero address"] else []))%list
    | _ => ["Recipient address is required for send action"]
    end
  else [].

(** The errors pushed for the participants of a split, one per participant
    whose supplied address is malformed. *)
Fixpoint participantErrors (ps : list Participant) : list string :=
  match ps with
  | [] => []
  | p :: rest =>
      ((match address p with
        | Some (String _ _ as a) =>
            if negb (addressValid (validateAddress a))
            then [("Invalid address for participant: " ++ identifier p)%string]
            else []
        | _ => []
        end) ++ participantErrors rest)%list
  end.

Definition splitErrors (intent : PaymentIntent) : list string :=
  if String.eqb (action intent) "split" then
    ((match participants intent with
      | None | Some [] => ["Participants are required for split action"]
      | Some ps =>
          if (Nat.ltb (List.length ps) 2)
          then ["Split action requires at least 2 participants"] else []
      end)
     ++
     (match participants intent with
      | Some ps => participantErrors ps
      | None => []
      end))%list
  else [].

(** [validatePaymentIntent]: the [errors] array after all the pushes, in
    the order of the source. *)
Definition validatePaymentIntent (intent : PaymentIntent) : IntentValidation :=
  let errors :=
    ((if negb (arrayIncludes validActions (action intent))
      then ["Invalid payment action"] else [])
     ++ amountErrors intent
     ++ recipientErrors intent
     ++ splitErrors intent
     ++ (if negb (String.eqb (currency intent) "USDC")
         then ["Only USDC is supported"] else []))%list in
  mkIntentValidation (Nat.eqb (List.length errors) 0) errors.

(** ** Balance validation *)

Record BalanceValidation := mkBalanceValidation {
  sufficient : bool;
  balanceError : option string
}.

(** [x.toFixed(2)] inside a template string; the call cannot raise. *)
Definition fixed2 (x : number) : string :=
  match toFixed x 2 with Some s => s | None => "" end.

Definition validateSufficientBalance
  (balance amount : string) (includeGasBuffer : bool) : BalanceValidation :=
  let balanceNum := parseFloat balance in
  let amountNum := parseFloat amount in
  if (PrimFloat.is_nan balanceNum || PrimFloat.is_nan amountNum)%bool then
    mkBalanceValidation false (Some "Invalid balance or amount")
  else
    let buffer := if includeGasBuffer then 0.01%float else 0%float in
    let required := PrimFloat.add amountNum buffer in
    if PrimFloat.ltb balanceNum required then
      mkBalanceValidation false
        (Some ("Insufficient balance. Required: " ++ fixed2 required
               ++ " USDC, Available: " ++ fixed2 balanceNum ++ " USDC"))
    else mkBalanceValidation true None.

(** ** General utilities *)

Definition sanitizeInput (input : string) : string :=
  JS.removeAll JS.isControl (JS.removeAll JS.isAngle (JS.trim input)).

End WithHost.
End Validation.

(* ================================================================== *)
(** * [lib/demo/mockData.ts]                                           *)
(* ================================================================== *)

Module Demo.
Import JSNumber Types.

Definition DEMO_BALANCE : string := "1234.56".

(** [isDemoMode()] *)
Definition isDemoMode (env : ProcessEnv) : bool :=
  match NEXT_PUBLIC_DEMO_MODE env with
  | Some v => String.eqb v "true"
  | None => false
  end.

Definition mockIntent (a : PaymentAction) (amt : number)
  (to : option string) (confirm : bool) (command : string) : PaymentIntent :=
  mkIntent a amt "USDC" to None confirm (Some command) true None.

(** [MOCK_VOICE_COMMANDS]: the transcript and the intent of each entry. *)
Definition MOCK_VOICE_COMMANDS : list (string * PaymentIntent) :=
  [ ("Send 50 USDC to Alice",
     mockIntent "send" 50%float
       (Some "0x1234567890123456789012345678901234567890") true
       "Send 50 USDC to Alice");
    ("What's my balance?",
     mockIntent "check_balance" 0%float None false "What's my balance?");
    ("Show transaction history",
     mockIntent "view_history" 0%float None false "Show transaction history");
    ("Transfer 100 USDC to Bob",
     mockIntent "send" 100%float
       (Some "0x9876543210987654321098765432109876543210") true
       "Transfer 100 USDC to Bob") ].

(** [DemoNLPService.parseTextIntent] *)
Definition parseTextIntent (text : string) : PaymentIntent :=
  let lowerText := JS.toLowerCase text in
  if JS.includes lowerText "balance" then
    mockIntent "check_balance" 0%float None false text
  else if (JS.includes lowerText "history"
           || JS.includes lowerText "transaction")%bool then
    mockIntent "view_history" 0%float None false text
  else
    (* [text.match(/(\d+(?:\.\d+)?)/)] *)
    let amount := match JS.firstNumber text with
                  | Some m => parseFloat m
                  | None => 10%float
                  end in
    mockIntent "send" amount
      (Some "0x1234567890123456789012345678901234567890") true text.

(** [DemoNLPService.processIntent]: the [intent] of the result, whose
    [success] is always [true]. *)
Definition processIntent (text : string) : PaymentIntent :=
  match find (fun cmd => String.eqb (JS.toLowerCase (fst cmd))
                                    (JS.toLowerCase text))
             MOCK_VOICE_COMMANDS with
  | Some cmd => snd cmd
  | None => parseTextIntent text
  end.

(** [DemoArcService.validateAmount]: the error, if any. *)
Definition validateAmount (amount : string) : option string :=
  let num := parseFloat amount in
  if PrimFloat.is_nan num then Some "Invalid amount"
  else if PrimFloat.leb num 0%float then Some "Amount must be greater than 0"
  else if PrimFloat.ltb (parseFloat DEMO_BALANCE) num
  then Some "Insufficient balance"
  else None.

End Demo.

(* ================================================================== *)
(** * [pages/api/nlp.ts]                                               *)
(* ================================================================== *)

Module Nlp.
Import JSNumber JSValue Types.

(** ** The AI path: [extractIntent] *)

(** What the call to the AI collaborator and the parsing of its answer
    come to: the call raises, the answer holds no JSON, or it parses to
    [intentData]. *)
Inductive AIAnswer :=
| AIRaises (message : string)
| AIUnparsable
| AIParsed (intentData : JValue).

(** The intent the AI path builds, whose [action], [recipient] and
    [participants] hold whatever [intentData] does. *)
Definition AnyIntent := Intent JValue JValue JValue.

(** Lines 124-138: the object built from [intentData].  [None] is a
    [TypeError]: reading a property of [null], or converting an [amount]
    that has no primitive value. *)
Definition constructIntent (intentData : JValue) (text : string)
  : option AnyIntent :=
  match get intentData "action", get intentData "amount",
        get intentData "recipient", get intentData "participants",
        get intentData "confirmationRequired" with
  | Some a, Some amt, Some r, Some ps, Some c =>
      match JSValue.toString amt with
      | Some amtText =>
          let parsed := parseFloat amtText in
          Some (mkIntent
                  (JSValue.or a (JStr "send"))
                  (if JSNumber.truthy parsed then parsed else 0%float)
                  "USDC"
                  (JSValue.or r JUndefined)
                  (JSValue.or ps JUndefined)
                  (notFalse c)
                  (Some text)
                  true
                  (Some []))
      | None => None
      end
  | _, _, _, _, _ => None
  end.

(** [extractIntent]: the message of the error raised, or the intent. *)
Definition extractIntent (answer : AIAnswer) (text : string)
  : string + AnyIntent :=
  match answer with
  | AIRaises message => inl message
  | AIUnparsable => inl "Failed to extract intent from AI response"
  | AIParsed intentData =>
      match constructIntent intentData text with
      | Some intent => inr intent
      | None => inl "TypeError"
      end
  end.

(** ** The fallback path: [extractIntentFallback] *)

(** [text.match(/(\d+(?:\.\d+)?)\s*(?:usdc|dollars?|usd)?/i)], group 1.  The
    match starts at the first digit of [text]; what follows the number is
    optional and outside the group. *)
Definition amountMatch (text : string) : option string :=
  JS.firstNumber text.

(** One of the keywords (up to case), then [\s+], then [\w+], at the head
    of [s]: the word, and the length of the whole match. *)
Fixpoint keywordThenWord (keywords : list string) (s : string)
  : option (string * nat) :=
  match keywords with
  | [] => None
  | kw :: others =>
      if JS.startsWithCI kw s then
        let (spaces, r) := JS.span JS.isSpace (JS.drop (String.length kw) s) in
        let (word, _) := JS.span JS.isWord r in
        match spaces, word with
        | String _ _, String _ _ =>
            Some (word, (String.length kw + String.length spaces
                         + String.length word)%nat)
        | _, _ => keywordThenWord others s
        end
      else keywordThenWord others s
  end.

(** All the matches of [/(?:kw1|kw2)\s+(\w+)/gi], left to right and not
    overlapping: the word of each.  [skip] counts the characters of the
    last match still to be passed over. *)
Fixpoint allKeywordWords (keywords : list string) (skip : nat) (s : string)
  : list string :=
  match s with
  | EmptyString => []
  | String _ r =>
      match skip with
      | S k => allKeywordWords keywords k r
      | O =>
          match keywordThenWord keywords s with
          | Some (word, n) => word :: allKeywordWords keywords (Nat.pred n) r
          | None => allKeywordWords keywords O r
          end
      end
  end.

(** The first match of [/(?:kw1|kw2)\s+(\w+)/i]: group 1. *)
Fixpoint firstKeywordWord (keywords : list string) (s : string)
  : option string :=
  match keywordThenWord keywords s with
  | Some (word, _) => Some word
  | None =>
      match s with
      | EmptyString => None
      | String _ r => firstKeywordWord keywords r
      end
  end.

(** Exactly [n] characters of [[a-fA-F0-9]] at the head of [s]. *)
Fixpoint hexRun (n : nat) (s : string) : option string :=
  match n with
  | O => Some EmptyString
  | S n' =>
      match s with
      | String c r =>
          if JS.isHex c then
            match hexRun n' r with
            | Some h => Some (String c h)
            | None => None
            end
          else None
      | EmptyString => None
      end
  end.

(** [text.match(/0x[a-fA-F0-9]{40}/)]: the first match. *)
Fixpoint addressMatch (s : string) : option string :=
  match (if JS.startsWith "0x" s then hexRun 40 (JS.drop 2 s) else None) with
  | Some h => Some ("0x" ++ h)
  | None =>
      match s with
      | EmptyString => None
      | String _ r => addressMatch r
      end
  end.

Definition fallbackIntent (a : PaymentAction) (amt : number)
  (to : option string) (ps : option (list Participant)) (confirm : bool)
  (text : string) : PaymentIntent :=
  mkIntent a amt "USDC" to ps confirm (Some text) true None.

Definition extractIntentFallback (text : string) : PaymentIntent :=
  let lowerText := JS.toLowerCase text in
  if (JS.includes lowerText "balance" || JS.includes lowerText "how much")%bool
  then fallbackIntent "check_balance" 0%float None None false text
  else if (JS.includes lowerText "history"
           || JS.includes lowerText "transaction")%bool
  then fallbackIntent "view_history" 0%float None None false text
  else if JS.includes lowerText "cancel"
  then fallbackIntent "cancel" 0%float None None true text
  else
    let amount := match amountMatch text with
                  | Some m => parseFloat m
                  | None => 0%float
                  end in
    if JS.includes lowerText "split" then
      let participants :=
        map (fun name => mkParticipant name None None)
            (allKeywordWords ["with"; "and"] O text) in
      fallbackIntent "split" amount None
        (match participants with [] => None | _ => Some participants end)
        true text
    else
      let recipient :=
        match addressMatch text with
        | Some a => Some a
        | None => firstKeywordWord ["to"; "for"] text
        end in
      if (JS.includes lowerText "send" || JS.includes lowerText "transfer"
          || JS.includes lowerText "pay")%bool
      then
        let action := if JS.includes lowerText "bill" then "pay_bill"
                      else "send" in
        fallbackIntent action amount recipient None true text
      else
        fallbackIntent "send" amount recipient None true text.

(** ** The handler of [POST /api/nlp] *)

Record NLPResponse := mkNLPResponse {
  success : bool;
  intent : option PaymentIntent;
  responseError : option string;
  errorCode : option string
}.

(** [res.status(n).json(r)] *)
Record Reply := mkReply {
  status : Z;
  json : NLPResponse
}.

Definition failure (n : Z) (message codeName : string) : Reply :=
  mkReply n (mkNLPResponse false None (Some message) (Some codeName)).

(** The calls the handler makes into the intent pipeline, in order. *)
Inductive Call :=
| CallDemoProcessIntent (text : string)
| CallExtractIntent (text : string)
| CallExtractIntentFallback (text : string)
| CallValidatePaymentIntent (intent : PaymentIntent).

(** The outer [catch]: the reply for an error with the given message. *)
Definition onHandlerError (message : string) : Reply :=
  if JS.includes message "credentials" then
    failure 500 "NLP service configuration error" "API_CONFIGURATION_ERROR"
  else if JS.includes message "rate limit" then
    failure 429 "Too many requests. Please try again later."
            "RATE_LIMIT_EXCEEDED"
  else failure 500 "Failed to process intent" "NLP_PROCESSING_FAILED".

Section Handler.
Context {eth : Ethers}.
Variable env : ProcessEnv.

(** [extractIntent], the AI path, read at its declared result type: the
    message of the error it raises, or the intent. *)
Variable extractIntentAI : string -> string + PaymentIntent.

(** Lines 319-331: validate the intent, record the verdict on it, reply. *)
Definition validateAndReply (i : PaymentIntent) : Reply :=
  let validation := Validation.validatePaymentIntent env i in
  let i' :=
    if negb (Validation.valid validation) then
      mkIntent (action i) (amount i) (currency i) (recipient i)
               (participants i) (confirmationRequired i) (originalCommand i)
               false (Some (Validation.errors validation))
    else i in
  mkReply 200 (mkNLPResponse true (Some i') None None).

(** [handler(req, res)]: the reply, and the calls made on the way.
    [method] is [req.method] and [body] is [req.body]. *)
Definition handler (method : string) (body : JValue) : Reply * list Call :=
  if negb (String.eqb method "POST") then
    (failure 405 "Method not allowed" "METHOD_NOT_ALLOWED", [])
  else
    match get body "text" with
    | None =>
        (* destructuring [null] or [undefined] raises inside the [try] *)
        (onHandlerError "Cannot destructure property 'text' of 'req.body'", [])
    | Some (JStr (String _ _ as text)) =>
        let sanitizedText := Validation.sanitizeInput text in
        if Nat.eqb (String.length sanitizedText) 0 then
          (failure 400 "Invalid text input" "INVALID_TEXT", [])
        else if Demo.isDemoMode env then
          (mkReply 200 (mkNLPResponse true
                          (Some (Demo.processIntent sanitizedText)) None None),
           [CallDemoProcessIntent sanitizedText])
        else
          match extractIntentAI sanitizedText with
          | inr i =>
              (validateAndReply i,
               [CallExtractIntent sanitizedText; CallValidatePaymentIntent i])
          | inl _ =>
              let i := extractIntentFallback sanitizedText in
              (validateAndReply i,
               [CallExtractIntent sanitizedText;
                CallExtractIntentFallback sanitizedText;
                CallValidatePaymentIntent i])
          end
    | Some _ =>
        (failure 400 "Text is required" "MISSING_TEXT", [])
    end.

End Handler.
End Nlp.

(* ================================================================== *)
(** * [lib/utils.ts]                                                   *)
(* ================================================================== *)

Module Utils.

(** What [retryWithBackoff] does to the outside, in order. *)
Inductive Step :=
| Attempt                (* [await fn()] *)
| Sleep (ms : Z).        (* [await sleep(ms)] *)

(** How the returned promise settles.  [Rejected None] is the rejection
    with [undefined] that [throw lastError!] makes when [lastError] was
    never assigned. *)
Inductive Settled (T E : Type) :=
| Resolved (value : T)
| Rejected (reason : option E).

Arguments Resolved {T E}.
Arguments Rejected {T E}.

Section Retry.
Context {W T E : Type}.

(** [fn]: from the state of the world to the error it raises or the value
    it returns, and the state it leaves. *)
Variable fn : W -> (E + T) * W.

(** The [for] loop, entered with counter [i], [remaining] iterations to
    go and the current [lastError]. *)
Fixpoint retryLoop (maxRetries delay : Z) (remaining : nat) (i : Z)
  (lastError : option E) (w : W) : Settled T E * list Step * W :=
  match remaining with
  | O => (Rejected lastError, [], w)
  | S remaining' =>
      match fn w with
      | (inr value, w') => (Resolved value, [Attempt], w')
      | (inl err, w') =>
          let pause := if i <? maxRetries - 1
                       then [Sleep (delay * 2 ^ i)] else [] in
          let '(result, steps, w'') :=
            retryLoop maxRetries delay remaining' (i + 1) (Some err) w' in
          (result, (Attempt :: pause ++ steps)%list, w'')
      end
  end.

(** [retryWithBackoff(fn, maxRetries, delay)], for integral arguments. *)
Definition retryWithBackoff (maxRetries delay : Z) (w : W)
  : Settled T E * list Step * W :=
  retryLoop maxRetries delay (Z.to_nat maxRetries) 0 None w.

(** [fn] raises whenever it is called. *)
Definition alwaysRaises : Prop :=
  forall w, exists err w', fn w = (inl err, w').

Definition attempts (steps : list Step) : nat :=
  List.length (filter (fun s => match s with Attempt => true | _ => false end)
                       steps).

Definition sleeps (steps : list Step) : list Z :=
  flat_map (fun s => match s with Sleep ms => [ms] | _ => [] end) steps.

End Retry.
End Utils.

(* ================================================================== *)
(** * [lib/blockchain/arc.ts] and [pages/index.tsx]                    *)
(* ================================================================== *)

Module Arc.
Import JSNumber.

(** [ArcService.validateAmount]: the error, if any. *)
Definition validateAmount (env : ProcessEnv) (amount : string) : option string :=
  let numAmount := parseFloat amount in
  if PrimFloat.is_nan numAmount then Some "Invalid amount format"
  else if PrimFloat.leb numAmount 0%float
  then Some "Amount must be greater than zero"
  else
    let minAmount := parseFloat (envOr (NEXT_PUBLIC_MIN_USDC_AMOUNT env) "0.01") in
    if PrimFloat.ltb numAmount minAmount
    then Some ("Amount must be at least " ++ toString minAmount ++ " USDC")
    else
      let maxAmount :=
        parseFloat (envOr (NEXT_PUBLIC_MAX_USDC_AMOUNT env) "10000") in
      if PrimFloat.ltb maxAmount numAmount
      then Some ("Amount cannot exceed " ++ toString maxAmount ++ " USDC")
      else None.

End Arc.

Module Home.
Import JSNumber Types.

(** The [arcService] of the page: the real service or the demo one. *)
Inductive Service := RealArcService | DemoArcService.

Definition serviceValidateAmount (env : ProcessEnv) (svc : Service)
  (amount : string) : option string :=
  match svc with
  | RealArcService => Arc.validateAmount env amount
  | DemoArcService => Demo.validateAmount amount
  end.

(** How [handleSendTransaction] goes, up to its call of
    [arcService.sendUSDC]. *)
Inductive SendOutcome :=
| Refused (message : string)       (* early [return] after [setError] *)
| Aborted (message : string)       (* raised inside the [try], before sending *)
| Submitted (to amount : string).  (* [arcService.sendUSDC(to, amount)] *)

(** [handleSendTransaction(intent)], with [arcService] and the [usdc]
    field of the [balance] state. *)
Definition handleSendTransaction (env : ProcessEnv)
  (arcService : option Service) (balanceUsdc : string) (i : PaymentIntent)
  : SendOutcome :=
  match arcService with
  | None => Refused "Wallet not initialized"
  | Some svc =>
      match recipient i with
      | Some (String _ _ as to) =>
          if (negb (truthy (amount i)) || PrimFloat.leb (amount i) 0%float)%bool
          then Refused "Valid amount is required"
          else
            match serviceValidateAmount env svc (toString (amount i)) with
            | Some e => Aborted (Validation.orString (Some e) "Invalid amount")
            | None =>
                let currentBalance := parseFloat balanceUsdc in
                if PrimFloat.ltb currentBalance (amount i)
                then Aborted "Insufficient balance"
                else Submitted to (toString (amount i))
            end
      | _ => Refused "Recipient address is required"
      end
  end.

End Home.

(* ================================================================== *)
(** * [lib/hooks/useVoice.ts]                                          *)
(* ================================================================== *)

Module UseVoice.
Import JSNumber Types.

(** ** Data *)

Record VoiceCommand := mkVoiceCommand {
  id : string;
  commandTranscript : string;
  commandIntent : option PaymentIntent;   (* [null] on a failed command *)
  timestamp : Z;
  commandSuccess : bool
}.

Record UseVoiceOptions := mkOptions {
  maxRecordingDuration : Z;
  minRecordingDuration : Z;
  autoRetry : bool;
  maxRetries : Z;
  onSuccess : bool;     (* whether the callback was supplied *)
  onError : bool
}.

(** The defaults, with the two environment variables unset. *)
Definition defaultOptions : UseVoiceOptions :=
  mkOptions 10000 1000 false 3 false false.

(** [new Blob(chunks, { type })]; a chunk is known by its size. *)
Record Blob := mkBlob {
  blobChunks : list Z;
  blobType : string
}.

(** What a callback sees of the component's state: the values of the
    render in which it was created.  [useCallback] recreates each callback
    whenever one of these changes, so a callback invoked from outside holds
    the values of the latest render, while a closure it created earlier
    (an event handler of the recorder, a timer) keeps the ones it had. *)
Record Seen := mkSeen {
  seenState : VoiceProcessingState;
  seenTranscript : option string;
  seenRecordingTime : Z
}.

(** The [MediaRecorder] of a session, with what its [onstop] handler closes
    over. *)
Record MediaRecorder := mkRecorder {
  mimeType : string;
  recording : bool;          (* [state === 'recording'] *)
  closure : Seen
}.

(** The interval started by [startRecording]; [time] is its local counter. *)
Record RecordingTimer := mkTimer { time : Z }.

(** The state variables and the refs of the hook.  Of a ref to an object
    of the browser the record keeps whether it holds one ([streamRef],
    [audioContextRef], [analyserRef], [animationFrameRef]) or what the code
    reads of the object ([mediaRecorderRef], [recordingTimerRef]).  An
    object whose ref is assigned anew is no longer seen in the record:
    [Segments.Mounted] keeps account of those. *)
Record Hook := mkHook {
  state : VoiceProcessingState;
  transcript : option string;
  intent : option PaymentIntent;
  error : option string;
  recordingTime : Z;
  audioLevel : number;
  hasPermission : option bool;
  commandHistory : list VoiceCommand;
  mediaRecorderRef : option MediaRecorder;
  audioChunksRef : list Z;
  streamRef : bool;           (* a stream is held *)
  audioContextRef : bool;
  analyserRef : bool;
  animationFrameRef : bool;
  recordingTimerRef : option RecordingTimer;
  retryCountRef : Z;
  lastAudioBlobRef : option Blob
}.

Definition initial : Hook :=
  mkHook idle None None None 0 0%float None [] None [] false false false false
         None 0 None.

(** The values a callback created in the current render holds. *)
Definition seen (h : Hook) : Seen :=
  mkSeen (state h) (transcript h) (recordingTime h).

Inductive Timeout :=
| BackToIdle          (* [() => setState('idle')] *)
| AutoStop            (* the stop at [maxRecordingDuration] *)
| RetryPipeline.      (* the auto-retry of [processAudioBlob] *)

(** What the hook does to the outside. *)
Inductive Effect :=
| GetUserMedia
| StopTracks
| CloseAudioContext
| CancelAnimationFrame
| ClearInterval
| RecorderStart
| RecorderStop
| InvokeProcessAudioBlob (blob : Blob)
| SetTimeout (what : Timeout) (ms : Z)
| NotifySuccess (text : string) (i : PaymentIntent)
| NotifyError (message : string).

(** ** State setters *)

Definition setState (s : VoiceProcessingState) (h : Hook) : Hook :=
  mkHook s (transcript h) (intent h) (error h) (recordingTime h) (audioLevel h)
    (hasPermission h) (commandHistory h) (mediaRecorderRef h) (audioChunksRef h)
    (streamRef h) (audioContextRef h) (analyserRef h) (animationFrameRef h)
    (recordingTimerRef h) (retryCountRef h) (lastAudioBlobRef h).

Definition setTranscript (t : option string) (h : Hook) : Hook :=
  mkHook (state h) t (intent h) (error h) (recordingTime h) (audioLevel h)
    (hasPermission h) (commandHistory h) (mediaRecorderRef h) (audioChunksRef h)
    (streamRef h) (audioContextRef h) (analyserRef h) (animationFrameRef h)
    (recordingTimerRef h) (retryCountRef h) (lastAudioBlobRef h).

Definition setIntent (i : option PaymentIntent) (h : Hook) : Hook :=
  mkHook (state h) (transcript h) i (error h) (recordingTime h) (audioLevel h)
    (hasPermission h) (commandHistory h) (mediaRecorderRef h) (audioChunksRef h)
    (streamRef h) (audioContextRef h) (analyserRef h) (animationFrameRef h)
    (recordingTimerRef h) (retryCountRef h) (lastAudioBlobRef h).

Definition setError (e : option string) (h : Hook) : Hook :=
  mkHook (state h) (transcript h) (intent h) e (recordingTime h) (audioLevel h)
    (hasPermission h) (commandHistory h) (mediaRecorderRef h) (audioChunksRef h)
    (streamRef h) (audioContextRef h) (analyserRef h) (animationFrameRef h)
    (recordingTimerRef h) (retryCountRef h) (lastAudioBlobRef h).

Definition setRecordingTime (t : Z) (h : Hook) : Hook :=
  mkHook (state h) (transcript h) (intent h) (error h) t (audioLevel h)
    (hasPermission h) (commandHistory h) (mediaRecorderRef h) (audioChunksRef h)
    (streamRef h) (audioContextRef h) (analyserRef h) (animationFrameRef h)
    (recordingTimerRef h) (retryCountRef h) (lastAudioBlobRef h).

Definition setAudioLevel (l : number) (h : Hook) : Hook :=
  mkHook (state h) (transcript h) (intent h) (error h) (recordingTime h) l
    (hasPermission h) (commandHistory h) (mediaRecorderRef h) (audioChunksRef h)
    (streamRef h) (audioContextRef h) (analyserRef h) (animationFrameRef h)
    (recordingTimerRef h) (retryCountRef h) (lastAudioBlobRef h).

Definition setHasPermission (p : option bool) (h : Hook) : Hook :=
  mkHook (state h) (transcript h) (intent h) (error h) (recordingTime h)
    (audioLevel h) p (commandHistory h) (mediaRecorderRef h) (audioChunksRef h)
    (streamRef h) (audioContextRef h) (analyserRef h) (animationFrameRef h)
    (recordingTimerRef h) (retryCountRef h) (lastAudioBlobRef h).

(** [setCommandHistory(f)], with the functional update [f]. *)
Definition setCommandHistory (f : list VoiceCommand -> list VoiceCommand)
  (h : Hook) : Hook :=
  mkHook (state h) (transcript h) (intent h) (error h) (recordingTime h)
    (audioLevel h) (hasPermission h) (f (commandHistory h)) (mediaRecorderRef h)
    (audioChunksRef h) (streamRef h) (audioContextRef h) (analyserRef h)
    (animationFrameRef h) (recordingTimerRef h) (retryCountRef h)
    (lastAudioBlobRef h).

(** Assignment to the refs, all at once. *)
Definition setRefs (rec : option MediaRecorder) (chunks : list Z)
  (stream ctx analyser frame : bool) (timer : option RecordingTimer)
  (retries : Z) (last : option Blob) (h : Hook) : Hook :=
  mkHook (state h) (transcript h) (intent h) (error h) (recordingTime h)
    (audioLevel h) (hasPermission h) (commandHistory h) rec chunks stream ctx
    analyser frame timer retries last.

(** ** The history update: [[cmd, ...prev].slice(0, 10)] *)

Definition pushCommand (cmd : VoiceCommand) (prev : list VoiceCommand)
  : list VoiceCommand :=
  firstn 10 (cmd :: prev).

(** The history after the commands [cmds] were pushed onto [prev], the
    first of [cmds] first. *)
Definition pushAll (cmds prev : list VoiceCommand) : list VoiceCommand :=
  fold_left (fun acc cmd => pushCommand cmd acc) cmds prev.

(** ** [cleanupResources] *)

Definition cleanupResources (h : Hook) : Hook * list Effect :=
  let effects :=
    ((if streamRef h then [StopTracks] else [])
     ++ (if audioContextRef h then [CloseAudioContext] else [])
     ++ (if animationFrameRef h then [CancelAnimationFrame] else [])
     ++ (match recordingTimerRef h with
         | Some _ => [ClearInterval]
         | None => []
         end))%list in
  (setAudioLevel 0%float
     (setRefs None [] false false false false None
              (retryCountRef h) (lastAudioBlobRef h) h),
   effects).

(** The refs of a recording are cleared: the hook refers to no stream,
    audio context, analyser, animation frame, timer or recorder, and holds
    no chunk.  This speaks of the refs only: not of a stream or a timer
    whose ref was assigned anew before it was let go, nor of a call that
    still awaits [getUserMedia] ([Segments.Mounted] has those). *)
Definition released (h : Hook) : Prop :=
  streamRef h = false /\ audioContextRef h = false
  /\ analyserRef h = false /\ animationFrameRef h = false
  /\ recordingTimerRef h = None /\ mediaRecorderRef h = None
  /\ audioChunksRef h = [].

(** ** [analyzeAudioLevel] *)

(** [Math.min(a, b)] on numbers *)
Definition mathMin (a b : number) : number :=
  if (PrimFloat.is_nan a || PrimFloat.is_nan b)%bool then PrimFloat.nan
  else if PrimFloat.ltb b a then b else a.

(** One run of [analyzeAudioLevel], [data] being what the analyser wrote
    into [dataArray]. *)
Definition analyzeAudioLevel (data : list Z) (h : Hook) : Hook :=
  if negb (analyserRef h) then h
  else
    let average :=
      PrimFloat.div (ofZ (fold_left Z.add data 0))
                    (ofZ (Z.of_nat (List.length data))) in
    let normalizedLevel := mathMin (PrimFloat.div average 128%float) 1%float in
    let h' := setAudioLevel normalizedLevel h in
    setRefs (mediaRecorderRef h') (audioChunksRef h') (streamRef h')
            (audioContextRef h') (analyserRef h') true (recordingTimerRef h')
            (retryCountRef h') (lastAudioBlobRef h') h'.

(** ** [processAudioBlob] *)

(** How a [fetch] and the reading of its JSON body end. *)
Inductive Fetched (A : Type) :=
| FetchRejected (message : string)
| FetchReplied (ok : bool) (data : A).

Arguments FetchRejected {A}.
Arguments FetchReplied {A}.

(** The body of a reply of [/api/voice], as far as it is read. *)
Record VoiceData := mkVoiceData {
  voiceSuccess : bool;
  voiceTranscript : option string;
  voiceError : option string
}.

(** The body of a reply of [/api/nlp], as far as it is read. *)
Record NlpData := mkNlpData {
  nlpSuccess : bool;
  nlpIntent : option PaymentIntent;
  nlpError : option string
}.

(** What the outside answers during one run of [processAudioBlob]. *)
Record PipelineIO := mkIO {
  voiceReply : Fetched VoiceData;
  nlpReply : Fetched NlpData;
  now : Z                         (* [Date.now()] *)
}.

(** [err.message || dflt] and the like *)
Definition orElse (a : option string) (dflt : string) : string :=
  match a with
  | Some (String _ _ as s) => s
  | _ => dflt
  end.

(** How the [try] block ends. *)
Inductive TryResult :=
| RaisedEarly (message : string)                 (* before [setTranscript] *)
| RaisedLate (text message : string)             (* after it *)
| Completed (text : string) (i : PaymentIntent).

Definition tryPipeline (io : PipelineIO) : TryResult :=
  match voiceReply io with
  | FetchRejected m => RaisedEarly m
  | FetchReplied false errorData =>
      RaisedEarly (orElse (voiceError errorData) "Transcription failed")
  | FetchReplied true transcriptData =>
      match voiceSuccess transcriptData, voiceTranscript transcriptData with
      | true, Some (String _ _ as transcribedText) =>
          match nlpReply io with
          | FetchRejected m => RaisedLate transcribedText m
          | FetchReplied false errorData =>
              RaisedLate transcribedText
                (orElse (nlpError errorData) "Intent extraction failed")
          | FetchReplied true nlpData =>
              match nlpSuccess nlpData, nlpIntent nlpData with
              | true, Some extractedIntent =>
                  if negb (isValid extractedIntent) then
                    RaisedLate transcribedText
                      (orElse (match validationErrors extractedIntent with
                               | Some es => Some (JS.join ", " es)
                               | None => None
                               end)
                              "Invalid command")
                  else Completed transcribedText extractedIntent
              | _, _ =>
                  RaisedLate transcribedText "Failed to extract payment intent"
              end
          end
      | _, _ => RaisedEarly "No speech detected in audio"
      end
  end.

Definition setRetryCount (n : Z) (h : Hook) : Hook :=
  setRefs (mediaRecorderRef h) (audioChunksRef h) (streamRef h)
          (audioContextRef h) (analyserRef h) (animationFrameRef h)
          (recordingTimerRef h) n (lastAudioBlobRef h) h.

(** The [catch] block, for an error with message [message]; [cl] holds the
    values the running [processAudioBlob] closed over. *)
Definition pipelineCatch (o : UseVoiceOptions) (cl : Seen) (io : PipelineIO)
  (message : string) (h : Hook) : Hook * list Effect :=
  let errorMessage := orElse (Some message) "Failed to process voice command" in
  let h1 := setState Types.error (setError (Some errorMessage) h) in
  let h2 :=
    match seenTranscript cl with
    | Some (String _ _ as t) =>
        let failedCommand :=
          mkVoiceCommand (toString (ofZ (now io))) t None (now io) false in
        setCommandHistory (pushCommand failedCommand) h1
    | _ => h1
    end in
  let notify := if onError o then [NotifyError errorMessage] else [] in
  if (autoRetry o && (retryCountRef h2 <? maxRetries o))%bool then
    (setRetryCount (retryCountRef h2 + 1) h2,
     (notify ++ [SetTimeout RetryPipeline 1000])%list)
  else
    (h2, (notify ++ [SetTimeout BackToIdle 3000])%list).

(** The start of [processAudioBlob(blob)], up to its first [await]. *)
Definition processAudioBlobBegin (blob : Blob) (h : Hook) : Hook * list Effect :=
  (setError None (setState processing h), [InvokeProcessAudioBlob blob]).

(** The rest of [processAudioBlob], once the outside has answered. *)
Definition processAudioBlobSettle (o : UseVoiceOptions) (cl : Seen)
  (io : PipelineIO) (h : Hook) : Hook * list Effect :=
  match tryPipeline io with
  | RaisedEarly m => pipelineCatch o cl io m h
  | RaisedLate text m => pipelineCatch o cl io m (setTranscript (Some text) h)
  | Completed text i =>
      let h1 := setState complete
                  (setIntent (Some i) (setTranscript (Some text) h)) in
      let newCommand :=
        mkVoiceCommand (toString (ofZ (now io))) text (Some i) (now io) true in
      let h2 := setRetryCount 0 (setCommandHistory (pushCommand newCommand) h1) in
      (h2, ((if onSuccess o then [NotifySuccess text i] else [])
            ++ [SetTimeout BackToIdle 2000])%list)
  end.

(** ** [startRecording] and the handlers it installs *)

(** How [getUserMedia] ends: with a stream, [opusSupported] telling the
    answer of [MediaRecorder.isTypeSupported], or with the rejection named
    [name]. *)
Inductive MicResult :=
| Granted (opusSupported : bool)
| MicFailed (name : string).

Definition micErrorMessage (name : string) : string :=
  if (String.eqb name "NotAllowedError"
      || String.eqb name "PermissionDeniedError")%bool
  then "Microphone access denied. Please allow microphone access."
  else if (String.eqb name "NotFoundError"
           || String.eqb name "DevicesNotFoundError")%bool
  then "No microphone found. Please connect a microphone."
  else if (String.eqb name "NotReadableError"
           || String.eqb name "TrackStartError")%bool
  then "Microphone is already in use by another application."
  else "Failed to start recording".

(** [startRecording()], the instance that closes over [cl], in a run where
    [getUserMedia] answers before anything else happens: the code up to
    the [await] and the code that follows it are run as one
    ([Segments.startRecordingCall] and [Segments.startRecordingGranted],
    [Segments.startRecordingRefused] have them apart).  [levels] is what
    the analyser reports to the first [analyzeAudioLevel].  The refs are
    assigned whatever they held. *)
Definition startRecording (o : UseVoiceOptions) (cl : Seen) (mic : MicResult)
  (levels : list Z) (h : Hook) : Hook * list Effect :=
  match seenState cl with
  | idle | Types.error =>
      let h1 := setRecordingTime 0
                  (setIntent None
                     (setTranscript None
                        (setError None (setState requesting h)))) in
      match mic with
      | Granted opusSupported =>
          let h2 := setHasPermission (Some true) h1 in
          (* stream, audio context and analyser *)
          let h3 := setRefs (mediaRecorderRef h2) (audioChunksRef h2) true true
                            true (animationFrameRef h2) (recordingTimerRef h2)
                            (retryCountRef h2) (lastAudioBlobRef h2) h2 in
          let h4 := analyzeAudioLevel levels h3 in
          let mime := if opusSupported then "audio/webm;codecs=opus"
                      else "audio/webm" in
          let recorder := mkRecorder mime true cl in
          let h5 := setRefs (Some recorder) [] (streamRef h4)
                            (audioContextRef h4) (analyserRef h4)
                            (animationFrameRef h4) (Some (mkTimer 0))
                            (retryCountRef h4) (lastAudioBlobRef h4)
                            (setState listening h4) in
          (h5, [GetUserMedia; RecorderStart;
                SetTimeout AutoStop (maxRecordingDuration o)])
      | MicFailed name =>
          let errorMessage := micErrorMessage name in
          let h2 :=
            if (String.eqb name "NotAllowedError"
                || String.eqb name "PermissionDeniedError")%bool
            then setHasPermission (Some false) h1 else h1 in
          let h3 := setState Types.error (setError (Some errorMessage) h2) in
          let (h4, freed) := cleanupResources h3 in
          (h4, ([GetUserMedia]
                ++ (if onError o then [NotifyError errorMessage] else [])
                ++ freed ++ [SetTimeout BackToIdle 3000])%list)
      end
  | _ => (h, [])
  end.

(** [mediaRecorder.ondataavailable] *)
Definition ondataavailable (size : Z) (h : Hook) : Hook :=
  if 0 <? size then
    setRefs (mediaRecorderRef h) (audioChunksRef h ++ [size])%list (streamRef h)
            (audioContextRef h) (analyserRef h) (animationFrameRef h)
            (recordingTimerRef h) (retryCountRef h) (lastAudioBlobRef h) h
  else h.

(** The callback of the recording timer. *)
Definition tick (h : Hook) : Hook :=
  match recordingTimerRef h with
  | Some t =>
      let time' := time t + 1 in
      setRecordingTime time'
        (setRefs (mediaRecorderRef h) (audioChunksRef h) (streamRef h)
                 (audioContextRef h) (analyserRef h) (animationFrameRef h)
                 (Some (mkTimer time')) (retryCountRef h) (lastAudioBlobRef h) h)
  | None => h
  end.

(** [mediaRecorder.onstop], the handler of [recorder]. *)
Definition onstop (o : UseVoiceOptions) (recorder : MediaRecorder) (h : Hook)
  : Hook * list Effect :=
  let audioBlob := mkBlob (audioChunksRef h) (mimeType recorder) in
  let h1 := setRefs (mediaRecorderRef h) (audioChunksRef h) (streamRef h)
                    (audioContextRef h) (analyserRef h) (animationFrameRef h)
                    (recordingTimerRef h) (retryCountRef h) (Some audioBlob) h in
  if seenRecordingTime (closure recorder) * 1000 <? minRecordingDuration o then
    let h2 := setState Types.error
                (setError (Some "Recording is too short. Please speak longer.")
                          h1) in
    let (h3, freed) := cleanupResources h2 in
    (h3, (freed ++ [SetTimeout BackToIdle 3000])%list)
  else
    let (h2, started) := processAudioBlobBegin audioBlob h1 in
    let (h3, freed) := cleanupResources h2 in
    (h3, (started ++ freed)%list).

(** ** [stopRecording], [cancelRecording], [clearError], [clearHistory] *)

Definition stopRecording (h : Hook) : Hook * list Effect :=
  let '(recorder, e1) :=
    match mediaRecorderRef h with
    | Some r => if recording r
                then (Some (mkRecorder (mimeType r) false (closure r)),
                      [RecorderStop])
                else (Some r, [])
    | None => (None, [])
    end in
  let e2 := match recordingTimerRef h with
            | Some _ => [ClearInterval]
            | None => []
            end in
  let e3 := if animationFrameRef h then [CancelAnimationFrame] else [] in
  (setAudioLevel 0%float
     (setRefs recorder (audioChunksRef h) (streamRef h) (audioContextRef h)
              (analyserRef h) false None (retryCountRef h)
              (lastAudioBlobRef h) h),
   (e1 ++ e2 ++ e3)%list).

Definition cancelRecording (h : Hook) : Hook * list Effect :=
  cleanupResources
    (setRecordingTime 0
       (setIntent None (setTranscript None (setError None (setState idle h))))).

Definition clearError (cl : Seen) (h : Hook) : Hook :=
  let h1 := setError None h in
  match seenState cl with
  | Types.error => setState idle h1
  | _ => h1
  end.

Definition clearHistory (h : Hook) : Hook :=
  setCommandHistory (fun _ => []) h.

(** [retry()], up to the first [await] of the [processAudioBlob] it may
    start; [mic] and [levels] serve the [startRecording] it may call. *)
Definition retry (o : UseVoiceOptions) (cl : Seen) (mic : MicResult)
  (levels : list Z) (h : Hook) : Hook * list Effect :=
  match lastAudioBlobRef h with
  | Some b => processAudioBlobBegin b (setRetryCount 0 h)
  | None => startRecording o cl mic levels h
  end.

(** ** The hook as a transition system *)

(** What happens to the hook.  [EvStartRecording], [EvRetry],
    [EvStopRecording] and [EvPipelineSettles] each stand for two pieces of
    code that run one after the other with nothing in between: a call and
    what follows its [await], or a call and the event it brings about.
    [Segments.Moment] takes them apart. *)
Inductive Event :=
| EvStartRecording (mic : MicResult) (levels : list Z)
    (* the user calls [startRecording], and [getUserMedia] answers *)
| EvDataAvailable (size : Z)
| EvTick
| EvFrame (levels : list Z)
| EvStopRecording
    (* [stopRecording()], called by the user or by the auto-stop timer,
       followed at once by the [stop] event of the recorder it stopped *)
| EvPipelineSettles (cl : Seen) (io : PipelineIO)
    (* a running [processAudioBlob], created in a render that saw [cl],
       gets its answers *)
| EvRetryFires
    (* the auto-retry timer *)
| EvBackToIdle
    (* a [setTimeout(() => setState('idle'), ...)] fires *)
| EvCancelRecording
| EvRetry (mic : MicResult) (levels : list Z)
| EvClearError
| EvClearHistory.

(** One transition.  Every run of these transitions from the mount is a
    run of [Segments.proceed], in which the pieces of code come one by
    one. *)
Definition step (o : UseVoiceOptions) (ev : Event) (h : Hook)
  : Hook * list Effect :=
  match ev with
  | EvStartRecording mic levels => startRecording o (seen h) mic levels h
  | EvDataAvailable size => (ondataavailable size h, [])
  | EvTick => (tick h, [])
  | EvFrame levels => (analyzeAudioLevel levels h, [])
  | EvStopRecording =>
      let (h1, e1) := stopRecording h in
      match mediaRecorderRef h with
      | Some r =>
          if recording r then
            let (h2, e2) := onstop o r h1 in (h2, (e1 ++ e2)%list)
          else (h1, e1)
      | None => (h1, e1)
      end
  | EvPipelineSettles cl io => processAudioBlobSettle o cl io h
  | EvRetryFires =>
      match lastAudioBlobRef h with
      | Some b => processAudioBlobBegin b h
      | None => (h, [])
      end
  | EvBackToIdle => (setState idle h, [])
  | EvCancelRecording => cancelRecording h
  | EvRetry mic levels => retry o (seen h) mic levels h
  | EvClearError => (clearError (seen h) h, [])
  | EvClearHistory => (clearHistory h, [])
  end.

(** The hook after a sequence of events, and all it did. *)
Fixpoint run (o : UseVoiceOptions) (evs : list Event) (h : Hook)
  : Hook * list Effect :=
  match evs with
  | [] => (h, [])
  | ev :: rest =>
      let (h1, e1) := step o ev h in
      let (h2, e2) := run o rest h1 in
      (h2, (e1 ++ e2)%list)
  end.

End UseVoice.

(* ================================================================== *)
(** * Inputs used in the examples                                      *)
(* ================================================================== *)

Module Examples.
Import JSNumber JSValue Types.

(** An [Ethers] that accepts exactly ["0x"] followed by 40 hexadecimal
    digits and returns the address as it is (no checksum casing). *)
Definition hexOnly : Ethers :=
  {| isAddress s :=
       (JS.startsWith "0x" s
        && match Nlp.hexRun 40 (JS.drop 2 s) with
           | Some _ => Nat.eqb (String.length s) 42
           | None => false
           end)%bool;
     getAddress s := Some s |}.

(** No environment variable set. *)
Definition noEnv : ProcessEnv := mkEnv None None None.

Definition someAddress : string := "0x1234567890123456789012345678901234567890".

Definition sendCommand : string :=
  "Send 50 USDC to 0x1234567890123456789012345678901234567890".

Definition balanceCommand : string := "What's my balance?".

(** A [send] intent as the extractors build it. *)
Definition sendIntent (amt : number) (to : option string) : PaymentIntent :=
  mkIntent "send" amt "USDC" to None true None true None.

(** An AI path that always raises. *)
Definition aiDown : string -> string + PaymentIntent :=
  fun _ => inl "Cloudflare AI credentials not configured".

(** An operation that always fails, counting its calls. *)
Definition alwaysFails : nat -> (string + unit) * nat :=
  fun calls => (inl "boom", S calls).

(** A microphone that is granted. *)
Definition granted : UseVoice.Event :=
  UseVoice.EvStartRecording (UseVoice.Granted true) [10; 20].

(** A first recording of two seconds, stopped, and the return to [idle]. *)
Definition firstRecording : list UseVoice.Event :=
  [granted; UseVoice.EvTick; UseVoice.EvTick; UseVoice.EvStopRecording;
   UseVoice.EvBackToIdle].

(** The hook after the first recording. *)
Definition afterFirstRecording : UseVoice.Hook :=
  fst (UseVoice.run UseVoice.defaultOptions firstRecording UseVoice.initial).

(** A second recording, stopped before its timer ticks once. *)
Definition shortRecording : list UseVoice.Event :=
  [granted; UseVoice.EvDataAvailable 5; UseVoice.EvStopRecording].

Definition command (n : Z) : UseVoice.VoiceCommand :=
  UseVoice.mkVoiceCommand (JSNumber.toString (ofZ n)) "Send 50 USDC to Alice"
    None n false.

(** A [send] of nothing to the zero address. *)
Definition zeroSend : PaymentIntent := sendIntent 0%float (Some ZeroAddress).



(** A text of white space, angle brackets and a TAB. *)
Definition blankText : string :=
  " <" ++ String (ascii_of_N 9) "> ".

(** Fifteen commands, numbered in the order they are pushed. *)
Definition fifteen : list UseVoice.VoiceCommand :=
  map command [1; 2; 3; 4; 5; 6; 7; 8; 9; 10; 11; 12; 13; 14; 15].

(** A hook that is recording. *)
Definition whileListening : UseVoice.Hook :=
  fst (UseVoice.run UseVoice.defaultOptions [granted; UseVoice.EvTick]
         UseVoice.initial).

End Examples.

(* ================================================================== *)
(** * [lib/utils.ts]: texts, times and arrays                          *)
(* ================================================================== *)

Module UtilsMore.
Import JSNumber Utils.

(** The attempts of [retryWithBackoff] and the pauses between them: [n]
    attempts, the first pause being [delay * 2 ^ i] and each next one twice
    as long. *)
Fixpoint scheduleFrom (delay i : Z) (n : nat) : list Step :=
  match n with
  | O => []
  | S O => [Attempt]
  | S n' => Attempt :: Sleep (delay * 2 ^ i) :: scheduleFrom delay (i + 1) n'
  end.

(** The first [n] characters. *)
Fixpoint take (n : nat) (s : string) : string :=
  match n, s with
  | O, _ => EmptyString
  | S _, EmptyString => EmptyString
  | S n', String c r => String c (take n' r)
  end.

(** A relative index of [slice], brought into [0 .. len]. *)
Definition clampIndex (len i : Z) : Z :=
  if i <? 0 then Z.max (len + i) 0 else Z.min i len.

(** [s.slice(b, e)], for integral [b] and [e] *)
Definition slice (s : string) (b e : Z) : string :=
  let len := Z.of_nat (String.length s) in
  let from := clampIndex len b in
  let to := clampIndex len e in
  if from <? to then take (Z.to_nat (to - from)) (JS.drop (Z.to_nat from) s)
  else EmptyString.

(** [s.slice(b)] *)
Definition sliceFrom (s : string) (b : Z) : string :=
  slice s b (Z.of_nat (String.length s)).

(** [formatAddress(address, startLength, endLength)] *)
Definition formatAddress (address : string) (startLength endLength : Z)
  : string :=
  match address with
  | EmptyString => ""
  | _ =>
      if Z.of_nat (String.length address) <=? startLength + endLength
      then address
      else slice address 0 startLength ++ "..."
           ++ sliceFrom address (- endLength)
  end.

(** [truncate(text, maxLength)] *)
Definition truncate (text : string) (maxLength : Z) : string :=
  if Z.of_nat (String.length text) <=? maxLength then text
  else slice text 0 (maxLength - 3) ++ "...".

(** What [formatTimestamp] tells: the unit it chose and the count. *)
Inductive RelativeTime :=
| JustNow
| MinutesAgo (n : Z)
| HoursAgo (n : Z)
| DaysAgo (n : Z)
| WeeksAgo (n : Z)
| MonthsAgo (n : Z)
| YearsAgo (n : Z).

(** The choice [formatTimestamp] makes for [diff], the milliseconds from the
    time stamp to now.  [Math.floor(diff / d)] is the quotient rounded
    down, the floating-point division of two integers below [2^53] having
    the integer part of the exact one. *)
Definition relativeTime (diff : Z) : RelativeTime :=
  let minutes := diff / 60000 in
  let hours := diff / 3600000 in
  let days := diff / 86400000 in
  let weeks := diff / 604800000 in
  let months := diff / 2592000000 in
  let years := diff / 31536000000 in
  if minutes <? 1 then JustNow
  else if minutes <? 60 then MinutesAgo minutes
  else if hours <? 24 then HoursAgo hours
  else if days <? 7 then DaysAgo days
  else if weeks <? 4 then WeeksAgo weeks
  else if months <? 12 then MonthsAgo months
  else YearsAgo years.

(** The template strings of [formatTimestamp]. *)
Definition renderRelativeTime (r : RelativeTime) : string :=
  match r with
  | JustNow => "Just now"
  | MinutesAgo n => toString (ofZ n) ++ "m ago"
  | HoursAgo n => toString (ofZ n) ++ "h ago"
  | DaysAgo n => toString (ofZ n) ++ "d ago"
  | WeeksAgo n => toString (ofZ n) ++ "w ago"
  | MonthsAgo n => toString (ofZ n) ++ "mo ago"
  | YearsAgo n => toString (ofZ n) ++ "y ago"
  end.

(** [formatTimestamp(timestamp)], called at the time [now]; both times in
    milliseconds. *)
Definition formatTimestamp (timestamp now : Z) : string :=
  renderRelativeTime (relativeTime (now - timestamp)).

(** [unique(array)], that is [Array.from(new Set(array))], for an array of
    strings: a [Set] keeps the first of equal values, in insertion order.
    [seen] holds the values inserted so far, the last one first. *)
Fixpoint uniqueFrom (seen : list string) (array : list string) : list string :=
  match array with
  | [] => rev seen
  | x :: rest =>
      if existsb (String.eqb x) seen then uniqueFrom seen rest
      else uniqueFrom (x :: seen) rest
  end.

Definition unique (array : list string) : list string := uniqueFrom [] array.

End UtilsMore.

(* ================================================================== *)
(** * [lib/api/validation.ts]: the other validators                    *)
(* ================================================================== *)

Module ValidationMore.
Import JSNumber.

(** [/^0x[a-fA-F0-9]{n}$/.test(s)] *)
Definition isPrefixedHex (n : nat) (s : string) : bool :=
  (JS.startsWith "0x" s
   && match Nlp.hexRun n (JS.drop 2 s) with
      | Some _ => Nat.eqb (String.length s) (2 + n)
      | None => false
      end)%bool.

(** [validateTransactionHash(hash)] *)
Definition validateTransactionHash (hash : string) : bool :=
  isPrefixedHex 64 hash.

(** [DemoArcService.isValidAddress(address)], of [lib/demo/mockData.ts] *)
Definition demoIsValidAddress (address : string) : bool :=
  isPrefixedHex 40 address.

(** The first match of [/kw\s+(\w+)/i], group 1, for each of [keywords] in
    turn: the first keyword that matches anywhere decides. *)
Fixpoint firstOfPatterns (keywords : list string) (command : string)
  : option string :=
  match keywords with
  | [] => None
  | kw :: others =>
      match Nlp.firstKeywordWord [kw] command with
      | Some name => Some name
      | None => firstOfPatterns others command
      end
  end.

(** [extractRecipientFromCommand(command)] *)
Definition extractRecipientFromCommand (command : string) : option string :=
  match Nlp.addressMatch command with
  | Some a => Some a
  | None => firstOfPatterns ["to"; "for"; "recipient"] command
  end.

(** ** [validateVoiceCommand] *)

(** [s.replace(/\s+/g, ' ')]: every run of white space becomes one space.
    [inRun] tells that the character before was white space. *)
Fixpoint collapseSpaces (inRun : bool) (s : string) : string :=
  match s with
  | EmptyString => EmptyString
  | String c r =>
      if JS.isSpace c then
        if inRun then collapseSpaces true r
        else String " " (collapseSpaces true r)
      else String c (collapseSpaces false r)
  end.

(** [/p/i.test(s)] for a literal [p] of ASCII letters *)
Fixpoint includesCI (s p : string) : bool :=
  (JS.startsWithCI p s ||
   match s with
   | EmptyString => false
   | String _ r => includesCI r p
   end)%bool.

Definition commandPatterns : list string :=
  ["send"; "transfer"; "pay"; "split"; "balance"; "history"; "transaction";
   "cancel"].

Record CommandValidation := mkCommandValidation {
  commandValid : bool;
  commandError : option string;
  commandNormalized : option string
}.

(** [validateVoiceCommand(command)] *)
Definition validateVoiceCommand (command : string) : CommandValidation :=
  let normalized := collapseSpaces false (JS.trim command) in
  if (String.length normalized <? 3)%nat then
    mkCommandValidation false (Some "Command is too short") None
  else if (500 <? String.length normalized)%nat then
    mkCommandValidation false (Some "Command is too long") None
  else
    let hasValidPattern :=
      existsb (fun pattern => includesCI normalized pattern) commandPatterns in
    if negb hasValidPattern then
      mkCommandValidation false
        (Some "Command does not contain a recognized action") None
    else mkCommandValidation true None (Some normalized).

(** Every white-space character of [s] is a space that does not follow
    another white-space character; [afterSpace] tells what came before. *)
Fixpoint singleSpaced (afterSpace : bool) (s : string) : bool :=
  match s with
  | EmptyString => true
  | String c r =>
      if JS.isSpace c then
        (Ascii.eqb c " " && negb afterSpace && singleSpaced true r)%bool
      else singleSpaced false r
  end.

(** [s] does not begin with white space. *)
Definition headClean (s : string) : bool :=
  match s with
  | EmptyString => true
  | String c _ => negb (JS.isSpace c)
  end.

(** [s] does not end with white space. *)
Fixpoint endsClean (s : string) : bool :=
  match s with
  | EmptyString => true
  | String c EmptyString => negb (JS.isSpace c)
  | String _ r => endsClean r
  end.

(** ** [checkRateLimit] *)

(** An entry of [rateLimitMap]. *)
Record RateEntry := mkRateEntry {
  count : Z;
  resetTime : Z
}.

(** [rateLimitMap], a [Map] from identifiers to entries, known by what
    [get] returns. *)
Definition RateMap := string -> option RateEntry.

Definition emptyRateMap : RateMap := fun _ => None.

(** [map.set(k, e)] *)
Definition rateSet (k : string) (e : RateEntry) (m : RateMap) : RateMap :=
  fun k' => if String.eqb k' k then Some e else m k'.

(** [map.delete(k)] *)
Definition rateDelete (k : string) (m : RateMap) : RateMap :=
  fun k' => if String.eqb k' k then None else m k'.

Record RateResult := mkRateResult {
  allowed : bool;
  remaining : Z;
  resultResetTime : Z
}.

(** [checkRateLimit(identifier, maxRequests, windowMs)], called at the time
    [now] with the module's map [m]: the result and the map afterwards. *)
Definition checkRateLimit (identifier : string) (maxRequests windowMs : Z)
  (now : Z) (m : RateMap) : RateResult * RateMap :=
  let m1 := match m identifier with
            | Some limit => if resetTime limit <? now
                            then rateDelete identifier m else m
            | None => m
            end in
  let entry := match m1 identifier with
               | Some e => e
               | None => mkRateEntry 0 (now + windowMs)
               end in
  if maxRequests <=? count entry then
    (mkRateResult false 0 (resetTime entry), m1)
  else
    let entry' := mkRateEntry (count entry + 1) (resetTime entry) in
    (mkRateResult true (maxRequests - count entry') (resetTime entry'),
     rateSet identifier entry' m1).

(** Calls of [checkRateLimit] for one identifier at the times [times], one
    after the other: whether each was allowed, and the map at the end. *)
Fixpoint checkAll (identifier : string) (maxRequests windowMs : Z)
  (times : list Z) (m : RateMap) : list bool * RateMap :=
  match times with
  | [] => ([], m)
  | now :: rest =>
      let (r, m') := checkRateLimit identifier maxRequests windowMs now m in
      let (rs, m'') := checkAll identifier maxRequests windowMs rest m' in
      (allowed r :: rs, m'')
  end.

End ValidationMore.

(* ================================================================== *)
(** * [pages/api/nlp.ts]: names                                        *)
(* ================================================================== *)

Module NlpView.

(** What a group [(\w+)] holds: a word, that is one character of [\w] or
    more. *)
Definition isName (w : string) : Prop :=
  w <> EmptyString
  /\ Forall (fun c => JS.isWord c = true) (list_ascii_of_string w).

End NlpView.

(* ================================================================== *)
(** * [pages/api/voice.ts]                                             *)
(* ================================================================== *)

Module Voice.
Import JSNumber.

Record VoiceResponse := mkVoiceResponse {
  success : bool;
  transcript : option string;
  confidence : option number;
  duration : option number;
  responseError : option string;
  errorCode : option string
}.

(** [res.status(n).json(r)] *)
Record Reply := mkReply {
  status : Z;
  json : VoiceResponse
}.

Definition failure (n : Z) (message codeName : string) : Reply :=
  mkReply n (mkVoiceResponse false None None None (Some message)
                             (Some codeName)).

(** How [parseForm] ends: it rejects, or it gives the [filepath] of the
    uploaded audio file, if one was uploaded. *)
Inductive FormOutcome :=
| FormRejected (message : string)
| FormParsed (audio : option string).

(** What the outside gives to one run of the handler. *)
Record World := mkWorld {
  ELEVENLABS_API_KEY : option string;
  demoPick : nat;                   (* the index drawn by [Math.random] *)
  form : FormOutcome;
  readFile : option string;         (* the error of [readFileSync], if any *)
  speechToText : string + option string;
      (* the call to ElevenLabs: the error it raises, or [response.data.text] *)
  processingTime : Z                (* milliseconds spent in the call *)
}.

(** [transcribeAudio(audioBuffer)]: the message of the error raised, or the
    text. *)
Definition transcribeAudio (w : World) : string + string :=
  match ELEVENLABS_API_KEY w with
  | Some (String _ _) =>
      match speechToText w with
      | inl message => inl message
      | inr (Some text) => inr text
      | inr None => inr ""
      end
  | _ => inl "ELEVENLABS_API_KEY is not configured"
  end.

(** The [catch] of the handler. *)
Definition onHandlerError (message : string) : Reply :=
  if JS.includes message "API key" then
    failure 500 "Voice service configuration error" "API_KEY_ERROR"
  else if JS.includes message "rate limit" then
    failure 429 "Too many requests. Please try again later."
            "RATE_LIMIT_EXCEEDED"
  else if JS.includes message "timeout" then
    failure 408 "Request timeout. Please try again." "REQUEST_TIMEOUT"
  else failure 500 "Failed to process voice command" "VOICE_PROCESSING_FAILED".

(** [handler(req, res)] of [POST /api/voice] *)
Definition handler (env : ProcessEnv) (w : World) (method : string) : Reply :=
  if negb (String.eqb method "POST") then
    failure 405 "Method not allowed" "METHOD_NOT_ALLOWED"
  else if Demo.isDemoMode env then
    match nth_error Demo.MOCK_VOICE_COMMANDS (demoPick w) with
    | Some randomCommand =>
        mkReply 200 (mkVoiceResponse true (Some (fst randomCommand))
                       (Some 0.95%float) (Some 1.2%float) None None)
    | None =>
        onHandlerError "Cannot read properties of undefined"
    end
  else
    match form w with
    | FormRejected message => onHandlerError message
    | FormParsed None =>
        failure 400 "No audio file provided" "MISSING_AUDIO_FILE"
    | FormParsed (Some filepath) =>
        match readFile w with
        | Some message => onHandlerError message
        | None =>
            match transcribeAudio w with
            | inl message => onHandlerError message
            | inr EmptyString =>
                failure 400 "No speech detected in audio" "NO_SPEECH_DETECTED"
            | inr transcriptText =>
                mkReply 200
                  (mkVoiceResponse true (Some transcriptText) (Some 0.95%float)
                     (Some (PrimFloat.div (ofZ (processingTime w)) 1000%float))
                     None None)
            end
        end
    end.

End Voice.

(* ================================================================== *)
(** * [pages/index.tsx]: the page and its handlers                     *)
(* ================================================================== *)

Module HomePage.
Import JSNumber Types Home.

(** A [Transaction], as far as the page fills it in. *)
Record Transaction := mkTransaction {
  txId : string;
  txHash : string;
  txFrom : string;
  txTo : string;
  txAmount : string;
  txStatus : string
}.

(** The state variables of [Home] that the handlers below read or write;
    of [isLoading] only the [transaction] flag, of [balance] only [usdc]. *)
Record Page := mkPage {
  arcService : option Service;
  balanceUsdc : string;                       (* [balance.usdc] *)
  transactions : list Transaction;
  walletAddress : string;
  loadingTransaction : bool;                  (* [isLoading.transaction] *)
  error : string;
  success : string;
  currentCommand : option (string * PaymentIntent);
  showConfirmation : bool
}.

(** The state of the first render. *)
Definition firstRender : Page :=
  mkPage None "0" [] "" false "" "" None false.

(** What the ledger answers to the calls of one [handleSendTransaction]:
    [sendUSDC] raises, [waitForTransaction] raises, or the transfer with
    hash [hash] is confirmed. *)
Inductive LedgerRun :=
| SendRaises (message : string)
| WaitRaises (hash message : string)
| Confirmed (hash : string).

(** What the service answers during one handler. *)
Record Ledger := mkLedger {
  sendRun : LedgerRun;
  balanceReply : option string;               (* [getWalletBalance().usdc] *)
  transactionsReply : option (list Transaction)   (* [getTransactions()] *)
}.

(** The calls made to the service. *)
Inductive LedgerCall :=
| CallSendUSDC (to amount : string)
| CallWaitForTransaction (hash : string)
| CallGetWalletBalance
| CallGetTransactions.

Definition setError (e : string) (p : Page) : Page :=
  mkPage (arcService p) (balanceUsdc p) (transactions p) (walletAddress p)
         (loadingTransaction p) e (success p) (currentCommand p)
         (showConfirmation p).

Definition setSuccess (s : string) (p : Page) : Page :=
  mkPage (arcService p) (balanceUsdc p) (transactions p) (walletAddress p)
         (loadingTransaction p) (error p) s (currentCommand p)
         (showConfirmation p).

Definition setCurrentCommand (c : option (string * PaymentIntent)) (p : Page)
  : Page :=
  mkPage (arcService p) (balanceUsdc p) (transactions p) (walletAddress p)
         (loadingTransaction p) (error p) (success p) c (showConfirmation p).

Definition setShowConfirmation (b : bool) (p : Page) : Page :=
  mkPage (arcService p) (balanceUsdc p) (transactions p) (walletAddress p)
         (loadingTransaction p) (error p) (success p) (currentCommand p) b.

Definition setLoadingTransaction (b : bool) (p : Page) : Page :=
  mkPage (arcService p) (balanceUsdc p) (transactions p) (walletAddress p)
         b (error p) (success p) (currentCommand p) (showConfirmation p).

Definition setBalance (usdc : string) (p : Page) : Page :=
  mkPage (arcService p) usdc (transactions p) (walletAddress p)
         (loadingTransaction p) (error p) (success p) (currentCommand p)
         (showConfirmation p).

Definition setTransactions (txs : list Transaction) (p : Page) : Page :=
  mkPage (arcService p) (balanceUsdc p) txs (walletAddress p)
         (loadingTransaction p) (error p) (success p) (currentCommand p)
         (showConfirmation p).

(** [loadBalance()], the instance of a render that saw [seen]. *)
Definition loadBalance (seen : Page) (l : Ledger) (p : Page)
  : Page * list LedgerCall :=
  match arcService seen with
  | None => (p, [])
  | Some _ =>
      (match balanceReply l with
       | Some usdc => setBalance usdc p
       | None => setError "Failed to load balance" p
       end, [CallGetWalletBalance])
  end.

(** [loadTransactions()], the instance of a render that saw [seen]. *)
Definition loadTransactions (seen : Page) (l : Ledger) (p : Page)
  : Page * list LedgerCall :=
  match arcService seen with
  | None => (p, [])
  | Some _ =>
      (match transactionsReply l with
       | Some txs => setTransactions txs p
       | None => p
       end, [CallGetTransactions])
  end.

(** The [finally] of [handleSendTransaction]. *)
Definition sendFinally (p : Page) : Page :=
  setCurrentCommand None (setLoadingTransaction false p).

(** [handleSendTransaction(intent)], the instance of a render that saw
    [seen], with its effects on the state [p] of the page. *)
Definition handleSendTransaction (env : ProcessEnv) (seen : Page) (l : Ledger)
  (i : PaymentIntent) (p : Page) : Page * list LedgerCall :=
  match Home.handleSendTransaction env (arcService seen) (balanceUsdc seen) i
  with
  | Refused message => (setError message p, [])
  | Aborted message =>
      let p1 := setShowConfirmation false
                  (setSuccess "" (setError "" (setLoadingTransaction true p))) in
      (sendFinally (setError message p1), [])
  | Submitted to amount =>
      let p1 := setShowConfirmation false
                  (setSuccess "" (setError "" (setLoadingTransaction true p))) in
      match sendRun l with
      | SendRaises message =>
          (sendFinally
             (setError (Validation.orString (Some message) "Transaction failed")
                       p1),
           [CallSendUSDC to amount])
      | WaitRaises hash message =>
          (sendFinally
             (setError (Validation.orString (Some message) "Transaction failed")
                       p1),
           [CallSendUSDC to amount; CallWaitForTransaction hash])
      | Confirmed hash =>
          let newTransaction :=
            mkTransaction (hash ++ "-0") hash (walletAddress seen) to amount
                          "confirmed" in
          let p2 := setTransactions (newTransaction :: transactions p1) p1 in
          let (p3, loaded) := loadBalance seen l p2 in
          let p4 :=
            setSuccess ("Successfully sent " ++ amount ++ " USDC to "
                        ++ UtilsMore.slice to 0 6 ++ "..."
                        ++ UtilsMore.sliceFrom to (-4)) p3 in
          (sendFinally p4,
           ([CallSendUSDC to amount; CallWaitForTransaction hash] ++ loaded)%list)
      end
  end.

(** [handleCheckBalance()], the instance of a render that saw [seen]. *)
Definition handleCheckBalance (seen : Page) (l : Ledger) (p : Page)
  : Page * list LedgerCall :=
  loadBalance seen l
    (setSuccess ("Your balance is " ++ balanceUsdc seen ++ " USDC") p).

(** [handleViewHistory()], the instance of a render that saw [seen]. *)
Definition handleViewHistory (seen : Page) (l : Ledger) (p : Page)
  : Page * list LedgerCall :=
  let (p1, calls) := loadTransactions seen l p in
  (setSuccess "Transaction history refreshed" p1, calls).

(** [handleVoiceCommandProcessed(transcript, intent)].  The callback is
    memoised with no dependency, so [seen] is the first render for every
    call the page makes. *)
Definition handleVoiceCommandProcessed (env : ProcessEnv) (seen : Page)
  (l : Ledger) (transcript : string) (i : PaymentIntent) (p : Page)
  : Page * list LedgerCall :=
  let p1 := setSuccess "" (setError "" (setCurrentCommand (Some (transcript, i)) p)) in
  if String.eqb (action i) "check_balance" then handleCheckBalance seen l p1
  else if String.eqb (action i) "view_history" then handleViewHistory seen l p1
  else if String.eqb (action i) "send" then
    if confirmationRequired i then (setShowConfirmation true p1, [])
    else handleSendTransaction env seen l i p1
  else if String.eqb (action i) "split" then
    (setError "Split payments are not yet implemented" p1, [])
  else if String.eqb (action i) "pay_bill" then
    (setError "Bill payments are not yet implemented" p1, [])
  else (setError "Action not supported" p1, []).

(** [handleConfirmTransaction()], created anew in every render. *)
Definition handleConfirmTransaction (env : ProcessEnv) (l : Ledger) (p : Page)
  : Page * list LedgerCall :=
  match currentCommand p with
  | Some (_, i) => handleSendTransaction env p l i p
  | None => (p, [])
  end.

(** [handleCancelConfirmation()] *)
Definition handleCancelConfirmation (p : Page) : Page :=
  setError "Transaction cancelled"
    (setCurrentCommand None (setShowConfirmation false p)).

(** [handleVoiceError(errorMessage)] *)
Definition handleVoiceError (errorMessage : string) (p : Page) : Page :=
  setShowConfirmation false
    (setCurrentCommand None (setError errorMessage p)).

(** Reading a state variable of the page through the setters. *)
Ltac page_fields :=
  cbn [arcService balanceUsdc transactions walletAddress loadingTransaction
       error success currentCommand showConfirmation
       setError setSuccess setCurrentCommand setShowConfirmation
       setLoadingTransaction setBalance setTransactions sendFinally
       firstRender fst snd].

End HomePage.

(* ================================================================== *)
(** * [lib/hooks/useVoice.ts]: what the hook returns                   *)
(* ================================================================== *)

Module UseVoiceView.
Import Types UseVoice.

(** [isRecording], [isProcessing] and [canRecord] *)
Definition isRecording (h : Hook) : bool :=
  match state h with listening => true | _ => false end.

Definition isProcessing (h : Hook) : bool :=
  match state h with processing => true | _ => false end.

Definition canRecord (h : Hook) : bool :=
  match state h with idle | Types.error => true | _ => false end.

(** The events that reset [retryCountRef]: a pipeline that succeeds, and
    the [retry] of the user. *)
Definition resets (ev : Event) : bool :=
  match ev with
  | EvRetry _ _ => true
  | EvPipelineSettles _ io =>
      match tryPipeline io with
      | Completed _ _ => true
      | _ => false
      end
  | _ => false
  end.

(** The command a transition appends to the history: [newCommand] when the
    pipeline completes, [failedCommand] when it fails and the running
    [processAudioBlob] closed over a transcript that is not empty; no other
    transition appends. *)
Definition appended (ev : Event) : list VoiceCommand :=
  match ev with
  | EvPipelineSettles cl io =>
      match tryPipeline io with
      | Completed text i =>
          [mkVoiceCommand (JSNumber.toString (JSNumber.ofZ (now io))) text
             (Some i) (now io) true]
      | _ =>
          match seenTranscript cl with
          | Some (String _ _ as t) =>
              [mkVoiceCommand (JSNumber.toString (JSNumber.ofZ (now io))) t
                 None (now io) false]
          | _ => []
          end
      end
  | _ => []
  end.

(** The call of [clearHistory]. *)
Definition clearsHistory (ev : Event) : bool :=
  match ev with
  | EvClearHistory => true
  | _ => false
  end.

(** Reading a field of a hook through the setters. *)
Ltac fields :=
  cbn [state transcript intent error recordingTime audioLevel hasPermission
       commandHistory mediaRecorderRef audioChunksRef streamRef
       audioContextRef analyserRef animationFrameRef recordingTimerRef
       retryCountRef lastAudioBlobRef
       setState setTranscript setIntent setError setRecordingTime
       setAudioLevel setHasPermission setCommandHistory setRefs setRetryCount
       fst snd].

(** How many times the auto-retry was scheduled. *)
Fixpoint retryTimers (effects : list Effect) : nat :=
  match effects with
  | [] => O
  | SetTimeout RetryPipeline _ :: rest => S (retryTimers rest)
  | _ :: rest => retryTimers rest
  end.

End UseVoiceView.

(* ================================================================== *)
(** * [lib/hooks/useVoice.ts] at the grain of the event loop           *)
(* ================================================================== *)

(** [UseVoice.startRecording] runs a call of [startRecording] together with
    what follows its [await], and [UseVoice.step] runs [stopRecording]
    together with the [stop] event of the recorder: they describe the runs
    in which nothing comes in between.  Here every transition is one piece
    of code that runs without interruption: a call up to its [await], what
    follows an [await], a handler of the recorder, the callback of a timer.
    Whatever the outside decides (when and how [getUserMedia] answers, when
    a recorder's events come, when a timer fires, what the pipeline's
    requests return) is written in the transition.  The constructors of
    [AudioContext] and [MediaRecorder] are taken to succeed, and the hook
    is followed while its component is mounted: the cleanup of the
    unmount is not a transition. *)

Module Segments.
Import Types UseVoice.

(** ** [startRecording], piece by piece *)

(** The guard of [startRecording]. *)
Definition mayStart (cl : Seen) : bool :=
  match seenState cl with
  | idle | Types.error => true
  | _ => false
  end.

(** [startRecording()] up to [await getUserMedia(...)]. *)
Definition startRecordingCall (cl : Seen) (h : Hook) : Hook * list Effect :=
  if mayStart cl then
    (setRecordingTime 0
       (setIntent None
          (setTranscript None (setError None (setState requesting h)))),
     [GetUserMedia])
  else (h, []).

(** The recorder [startRecording] makes. *)
Definition newRecorder (cl : Seen) (opusSupported : bool) : MediaRecorder :=
  mkRecorder (if opusSupported then "audio/webm;codecs=opus" else "audio/webm")
             true cl.

(** What follows the [await] when the microphone is granted, to the end of
    the [try] block.  The refs are assigned whatever they held. *)
Definition startRecordingGranted (o : UseVoiceOptions) (cl : Seen)
  (opusSupported : bool) (levels : list Z) (h : Hook) : Hook * list Effect :=
  let h2 := setHasPermission (Some true) h in
  (* stream, audio context and analyser *)
  let h3 := setRefs (mediaRecorderRef h2) (audioChunksRef h2) true true
                    true (animationFrameRef h2) (recordingTimerRef h2)
                    (retryCountRef h2) (lastAudioBlobRef h2) h2 in
  let h4 := analyzeAudioLevel levels h3 in
  let recorder := newRecorder cl opusSupported in
  let h5 := setRefs (Some recorder) [] (streamRef h4)
                    (audioContextRef h4) (analyserRef h4)
                    (animationFrameRef h4) (Some (mkTimer 0))
                    (retryCountRef h4) (lastAudioBlobRef h4)
                    (setState listening h4) in
  (h5, [RecorderStart; SetTimeout AutoStop (maxRecordingDuration o)]).

(** What follows the [await] when [getUserMedia] rejects: the [catch]
    block. *)
Definition startRecordingRefused (o : UseVoiceOptions) (name : string)
  (h : Hook) : Hook * list Effect :=
  let errorMessage := micErrorMessage name in
  let h2 :=
    if (String.eqb name "NotAllowedError"
        || String.eqb name "PermissionDeniedError")%bool
    then setHasPermission (Some false) h else h in
  let h3 := setState Types.error (setError (Some errorMessage) h2) in
  let (h4, freed) := cleanupResources h3 in
  (h4, ((if onError o then [NotifyError errorMessage] else [])
        ++ freed ++ [SetTimeout BackToIdle 3000])%list).

(** ** [processAudioBlob], piece by piece *)

(** What follows the answer of [/api/voice] when it holds a transcript. *)
Definition pipelineTranscribed (text : string) (h : Hook) : Hook :=
  setTranscript (Some text) h.

(** The end of the [try] block, after the answer of [/api/nlp]. *)
Definition pipelineCompleted (o : UseVoiceOptions) (io : PipelineIO)
  (text : string) (i : PaymentIntent) (h : Hook) : Hook * list Effect :=
  let h1 := setState complete (setIntent (Some i) h) in
  let newCommand :=
    mkVoiceCommand (JSNumber.toString (JSNumber.ofZ (now io))) text (Some i)
                   (now io) true in
  let h2 := setRetryCount 0 (setCommandHistory (pushCommand newCommand) h1) in
  (h2, ((if onSuccess o then [NotifySuccess text i] else [])
        ++ [SetTimeout BackToIdle 2000])%list).

(** ** The hook and what is under way outside it *)

(** The mounted hook: the hook and, beside it, the calls of
    [startRecording] that wait for [getUserMedia], each with the values it
    closed over; the recorders that were started and whose [stop] event has
    not come; the intervals whose ref was assigned anew before they were
    cleared; and two counts, of the streams [getUserMedia] handed over and
    of those whose ref was assigned a later stream while it held them
    (nothing stops their tracks afterwards, nor closes the audio context
    made for them). *)
Record Mounted := mkMounted {
  hook : Hook;
  awaiting : list Seen;
  started : list MediaRecorder;
  strayTimers : list RecordingTimer;
  obtained : nat;
  dropped : nat
}.

Definition atMount : Mounted := mkMounted initial [] [] [] 0 0.

Definition withHook (h : Hook) (w : Mounted) : Mounted :=
  mkMounted h (awaiting w) (started w) (strayTimers w) (obtained w)
            (dropped w).

(** A list without its element at [k]. *)
Definition without {A : Type} (k : nat) (l : list A) : list A :=
  (firstn k l ++ skipn (S k) l)%list.

(** A list with [f] applied to its element at [k]. *)
Fixpoint update {A : Type} (k : nat) (f : A -> A) (l : list A) : list A :=
  match l, k with
  | [], _ => []
  | x :: rest, O => f x :: rest
  | x :: rest, S k' => x :: update k' f rest
  end.

(** What can happen next.  The callback of the auto-stop timer calls
    [stopRecording()] or does nothing, so [CallStopRecording] stands for
    it as well as for the user's call.  The [stop] event of a recorder
    may come once, whenever the recorder was started: after [stop()], or
    when the tracks of its stream end.  The timers that set [idle] and
    that retry the pipeline, the chunks, the animation frames and the
    answers to the pipeline's requests are not kept account of: they may
    come at any time, which only adds runs. *)
Inductive Moment :=
| CallStartRecording
| MicAnswers (k : nat) (mic : MicResult) (levels : list Z)
    (* [getUserMedia] answers the call at [k] of [awaiting] *)
| DataAvailable (size : Z)
| TimerTicks
| StrayTimerTicks (k : nat)
| FrameComes (levels : list Z)
| CallStopRecording
| RecorderStops (k : nat)
    (* the [stop] event of the recorder at [k] of [started] *)
| PipelineTranscribed (text : string)
| PipelineCompleted (io : PipelineIO) (text : string) (i : PaymentIntent)
| PipelineFailed (cl : Seen) (io : PipelineIO) (message : string)
| RetryTimerFires
| BackToIdleFires
| CallCancelRecording
| CallRetry
| CallClearError
| CallClearHistory.

(** The call of [startRecording]. *)
Definition callStartRecording (w : Mounted) : Mounted * list Effect :=
  let cl := seen (hook w) in
  let (h1, effects) := startRecordingCall cl (hook w) in
  (mkMounted h1 (if mayStart cl then (awaiting w ++ [cl])%list else awaiting w)
           (started w) (strayTimers w) (obtained w) (dropped w),
   effects).

Definition advance (o : UseVoiceOptions) (m : Moment) (w : Mounted)
  : Mounted * list Effect :=
  let h := hook w in
  match m with
  | CallStartRecording => callStartRecording w
  | MicAnswers k mic levels =>
      match nth_error (awaiting w) k with
      | None => (w, [])
      | Some cl =>
          match mic with
          | Granted opusSupported =>
              let (h1, effects) :=
                startRecordingGranted o cl opusSupported levels h in
              (mkMounted h1 (without k (awaiting w))
                 (started w ++ [newRecorder cl opusSupported])%list
                 (match recordingTimerRef h with
                  | Some t => (strayTimers w ++ [t])%list
                  | None => strayTimers w
                  end)
                 (S (obtained w))
                 (if streamRef h then S (dropped w) else dropped w),
               effects)
          | MicFailed name =>
              let (h1, effects) := startRecordingRefused o name h in
              (mkMounted h1 (without k (awaiting w)) (started w)
                 (strayTimers w) (obtained w) (dropped w),
               effects)
          end
      end
  | DataAvailable size => (withHook (ondataavailable size h) w, [])
  | TimerTicks => (withHook (tick h) w, [])
  | StrayTimerTicks k =>
      match nth_error (strayTimers w) k with
      | None => (w, [])
      | Some t =>
          (mkMounted (setRecordingTime (time t + 1) h) (awaiting w) (started w)
             (update k (fun _ => mkTimer (time t + 1)) (strayTimers w))
             (obtained w) (dropped w),
           [])
      end
  | FrameComes levels => (withHook (analyzeAudioLevel levels h) w, [])
  | CallStopRecording =>
      let (h1, effects) := stopRecording h in (withHook h1 w, effects)
  | RecorderStops k =>
      match nth_error (started w) k with
      | None => (w, [])
      | Some r =>
          let (h1, effects) := onstop o r h in
          (mkMounted h1 (awaiting w) (without k (started w)) (strayTimers w)
             (obtained w) (dropped w),
           effects)
      end
  | PipelineTranscribed text => (withHook (pipelineTranscribed text h) w, [])
  | PipelineCompleted io text i =>
      let (h1, effects) := pipelineCompleted o io text i h in
      (withHook h1 w, effects)
  | PipelineFailed cl io message =>
      let (h1, effects) := pipelineCatch o cl io message h in
      (withHook h1 w, effects)
  | RetryTimerFires =>
      match lastAudioBlobRef h with
      | Some b =>
          let (h1, effects) := processAudioBlobBegin b h in
          (withHook h1 w, effects)
      | None => (w, [])
      end
  | BackToIdleFires => (withHook (setState idle h) w, [])
  | CallCancelRecording =>
      let (h1, effects) := cancelRecording h in (withHook h1 w, effects)
  | CallRetry =>
      match lastAudioBlobRef h with
      | Some b =>
          let (h1, effects) := processAudioBlobBegin b (setRetryCount 0 h) in
          (withHook h1 w, effects)
      | None => callStartRecording w
      end
  | CallClearError => (withHook (clearError (seen h) h) w, [])
  | CallClearHistory => (withHook (clearHistory h) w, [])
  end.

(** The world after a sequence of moments, and all the hook did. *)
Fixpoint proceed (o : UseVoiceOptions) (ms : list Moment) (w : Mounted)
  : Mounted * list Effect :=
  match ms with
  | [] => (w, [])
  | m :: rest =>
      let (w1, e1) := advance o m w in
      let (w2, e2) := proceed o rest w1 in
      (w2, (e1 ++ e2)%list)
  end.

(** ** Reading the effects *)




(** How many of [effects] satisfy [p]. *)
Definition count (p : Effect -> bool) (effects : list Effect) : nat :=
  List.length (filter p effects).


(** The moments that come while a recording runs: timer ticks and
    animation frames. *)
Definition whileRecording (m : Moment) : bool :=
  match m with
  | TimerTicks | FrameComes _ => true
  | _ => false
  end.

(** ** What is reached from the mount *)

(** The state is one the hook sets; it is [requesting] only while a call
    waits for [getUserMedia]; while it is [listening] a recorder and a
    stream are held; the audio context and the analyser are held exactly
    when the stream is; and the recorder held is one whose [stop] event has
    not come. *)
Definition sound (w : Mounted) : Prop :=
  state (hook w) <> confirming /\ state (hook w) <> executing
  /\ (state (hook w) = requesting -> awaiting w <> [])
  /\ (state (hook w) = listening ->
      mediaRecorderRef (hook w) <> None /\ streamRef (hook w) = true)
  /\ audioContextRef (hook w) = streamRef (hook w)
  /\ analyserRef (hook w) = streamRef (hook w)
  /\ (forall r, mediaRecorderRef (hook w) = Some r ->
        In (mkRecorder (mimeType r) true (closure r)) (started w)).

(** The hook holds all that a recording takes, [r] being its recorder. *)
Definition recordingWith (r : MediaRecorder) (h : Hook) : Prop :=
  mediaRecorderRef h = Some r /\ streamRef h = true
  /\ audioContextRef h = true /\ analyserRef h = true
  /\ animationFrameRef h = true /\ recordingTimerRef h <> None.

(** Nothing changed beside the hook. *)
Definition sameOutside (w w' : Mounted) : Prop :=
  awaiting w' = awaiting w /\ started w' = started w
  /\ strayTimers w' = strayTimers w
  /\ obtained w' = obtained w /\ dropped w' = dropped w.

(** ** Proof steps *)

(** The transition, with the pieces of code it runs laid open. *)
Ltac open_world :=
  cbn [advance];
  unfold callStartRecording, startRecordingCall, startRecordingGranted,
    startRecordingRefused, pipelineCompleted, pipelineTranscribed,
    pipelineCatch, onstop, cancelRecording, processAudioBlobBegin,
    cleanupResources, stopRecording, tick, ondataavailable,
    analyzeAudioLevel, clearError, clearHistory, withHook, mayStart, seen,
    newRecorder.

(** Reading a field of a mounted hook through the setters. *)
Ltac world_fields :=
  cbn [hook awaiting started strayTimers obtained dropped
       state transcript intent error recordingTime audioLevel hasPermission
       commandHistory mediaRecorderRef audioChunksRef streamRef
       audioContextRef analyserRef animationFrameRef recordingTimerRef
       retryCountRef lastAudioBlobRef
       setState setTranscript setIntent setError setRecordingTime
       setAudioLevel setHasPermission setCommandHistory setRefs setRetryCount
       seenState seenTranscript seenRecordingTime
       mimeType recording closure
       fst snd].

(** One case for each way the code can go. *)
Ltac split_cases :=
  repeat (world_fields;
          match goal with
          | |- context [if (String.eqb ?a ?b || String.eqb ?c ?d)%bool
                        then _ else _] =>
              destruct (String.eqb a b || String.eqb c d)%bool
          | |- context [match nth_error ?l ?k with _ => _ end] =>
              destruct (nth_error l k) eqn:?
          | |- context [match ?x with Granted _ => _ | MicFailed _ => _ end] =>
              destruct x
          | |- context [match lastAudioBlobRef ?h with _ => _ end] =>
              destruct (lastAudioBlobRef h)
          | |- context [match mediaRecorderRef ?h with _ => _ end] =>
              destruct (mediaRecorderRef h) eqn:?
          | |- context [match recordingTimerRef ?h with _ => _ end] =>
              destruct (recordingTimerRef h) eqn:?
          | |- context [match seenTranscript ?c with _ => _ end] =>
              destruct (seenTranscript c) as [[|? ?]|]
          | |- context [match state ?h with _ => _ end] =>
              destruct (state h) eqn:?
          | |- context [if ?b then _ else _] => destruct b eqn:?
          end).

End Segments.

(* ================================================================== *)
(** * [lib/hooks/useTransactions.ts]: filters and pages                *)
(* ================================================================== *)

Module UseTransactions.
Import JSNumber.

(** A [Transaction], as far as the filters read it; [timestamp] is the
    time value of the [Date]. *)
Record Transaction := mkTransaction {
  hash : string;
  from : string;
  to : string;
  amount : string;
  status : string;
  timestamp : Z
}.

(** [TransactionFilter]; a date is known by its time value. *)
Record TransactionFilter := mkFilter {
  filterStatus : option string;
  minAmount : option number;
  maxAmount : option number;
  startDate : option Z;
  endDate : option Z;
  filterType : option string
}.

(** The filter [{}]. *)
Definition noFilter : TransactionFilter :=
  mkFilter None None None None None None.

(** What one transaction has to pass; [address] is the option of the
    hook. *)
Definition passes (address : option string) (f : TransactionFilter)
  (tx : Transaction) : bool :=
  (match filterStatus f with
   | Some (String _ _ as wanted) => String.eqb (status tx) wanted
   | _ => true
   end
   && match minAmount f with
      | Some m => PrimFloat.leb m (parseFloat (amount tx))
      | None => true
      end
   && match maxAmount f with
      | Some m => PrimFloat.leb (parseFloat (amount tx)) m
      | None => true
      end
   && match startDate f with
      | Some d => d <=? timestamp tx
      | None => true
      end
   && match endDate f with
      | Some d => timestamp tx <=? d
      | None => true
      end
   && match filterType f, address with
      | Some (String _ _ as t), Some (String _ _ as a) =>
          if negb (String.eqb t "all") then
            if String.eqb t "sent" then
              String.eqb (JS.toLowerCase (from tx)) (JS.toLowerCase a)
            else if String.eqb t "received" then
              String.eqb (JS.toLowerCase (to tx)) (JS.toLowerCase a)
            else true
          else true
      | _, _ => true
      end)%bool.

(** [applyFilters(txs, filterOptions)]: the six [filter] calls, one after
    the other. *)
Definition applyFilters (address : option string) (txs : list Transaction)
  (f : TransactionFilter) : list Transaction :=
  let filtered := txs in
  let filtered :=
    match filterStatus f with
    | Some (String _ _ as wanted) =>
        filter (fun tx => String.eqb (status tx) wanted) filtered
    | _ => filtered
    end in
  let filtered :=
    match minAmount f with
    | Some m => filter (fun tx => PrimFloat.leb m (parseFloat (amount tx)))
                       filtered
    | None => filtered
    end in
  let filtered :=
    match maxAmount f with
    | Some m => filter (fun tx => PrimFloat.leb (parseFloat (amount tx)) m)
                       filtered
    | None => filtered
    end in
  let filtered :=
    match startDate f with
    | Some d => filter (fun tx => d <=? timestamp tx) filtered
    | None => filtered
    end in
  let filtered :=
    match endDate f with
    | Some d => filter (fun tx => timestamp tx <=? d) filtered
    | None => filtered
    end in
  match filterType f, address with
  | Some (String _ _ as t), Some (String _ _ as a) =>
      if negb (String.eqb t "all") then
        if String.eqb t "sent" then
          filter (fun tx => String.eqb (JS.toLowerCase (from tx))
                                       (JS.toLowerCase a)) filtered
        else if String.eqb t "received" then
          filter (fun tx => String.eqb (JS.toLowerCase (to tx))
                                       (JS.toLowerCase a)) filtered
        else filtered
      else filtered
  | _, _ => filtered
  end.

(** [xs.slice(0, e)] on an array, for an integral [e] *)
Definition sliceTo {A : Type} (xs : list A) (e : Z) : list A :=
  let len := Z.of_nat (List.length xs) in
  firstn (Z.to_nat (UtilsMore.clampIndex len e)) xs.

(** [Math.ceil(length / pageSize)], for a positive integral [pageSize]:
    the quotient rounded up.  An array is shorter than [2^32], so the
    floating-point quotient rounds up to the same integer as the exact
    one. *)
Definition totalPages (length pageSize : Z) : Z :=
  (length + pageSize - 1) / pageSize.

(** [hasMore] *)
Definition hasMore (currentPage length pageSize : Z) : bool :=
  currentPage <? totalPages length pageSize.

(** [paginatedTransactions] *)
Definition paginatedTransactions {A : Type} (filteredTransactions : list A)
  (currentPage pageSize : Z) : list A :=
  sliceTo filteredTransactions (currentPage * pageSize).

(** [loadMore()]: the page afterwards. *)
Definition loadMore (currentPage : Z) : Z := currentPage + 1.

End UseTransactions.

(* ================================================================== *)
(** * More inputs for the examples                                     *)
(* ================================================================== *)

Module MoreExamples.
Import JSNumber Types.

(** A page whose wallet is connected and holds 100 USDC, with a command
    awaiting confirmation. *)
Definition funded : HomePage.Page :=
  HomePage.mkPage (Some Home.RealArcService) "100" [] Examples.someAddress
    false "" ""
    (Some ("Send 5", Examples.sendIntent 5%float (Some Examples.someAddress)))
    true.

(** A ledger that confirms every transfer. *)
Definition confirming : HomePage.Ledger :=
  HomePage.mkLedger (HomePage.Confirmed "0xabc") (Some "95") None.

(** A [send] that needs no confirmation. *)
Definition quickSend : PaymentIntent :=
  mkIntent "send" 5%float "USDC" (Some Examples.someAddress) None false None
           true None.

(** The options of a hook that retries twice. *)
Definition retrying : UseVoice.UseVoiceOptions :=
  UseVoice.mkOptions 10000 1000 true 2 false false.

(** A pipeline whose requests fail. *)
Definition offline (now : Z) : UseVoice.Event :=
  UseVoice.EvPipelineSettles (UseVoice.seen UseVoice.initial)
    (UseVoice.mkIO (UseVoice.FetchRejected "offline")
                   (UseVoice.FetchRejected "offline") now).

(** Twenty-five transactions, known by their time stamps. *)
Definition twentyFive : list Z :=
  [1; 2; 3; 4; 5; 6; 7; 8; 9; 10; 11; 12; 13; 14; 15; 16; 17; 18; 19; 20; 21;
   22; 23; 24; 25].

(** Two transfers, one confirmed and one pending. *)
Definition twoTransfers : list UseTransactions.Transaction :=
  [UseTransactions.mkTransaction "0xaa" Examples.someAddress "0xbb" "50"
     "confirmed" 1000;
   UseTransactions.mkTransaction "0xcc" "0xbb" Examples.someAddress "7.5"
     "pending" 2000].

(** The filter that keeps the confirmed transfers of at least 10 USDC. *)
Definition confirmedFromTen : UseTransactions.TransactionFilter :=
  UseTransactions.mkFilter (Some "confirmed") (Some 10%float) None None None
    None.

(** Three failures in a row, the auto-retry firing in between. *)
Definition threeFailures : list UseVoice.Event :=
  [offline 1; UseVoice.EvRetryFires; offline 2; UseVoice.EvRetryFires;
   offline 3].

(** The rate-limit map after one request of ["10.0.0.1"] at the time 1000,
    under a window of 60000 ms. *)
Definition oneRequest : ValidationMore.RateMap :=
  ValidationMore.rateSet "10.0.0.1" (ValidationMore.mkRateEntry 1 61000)
    ValidationMore.emptyRateMap.

(** A pipeline that fails at the time [now], run by a [processAudioBlob]
    that closed over the transcript of the command before. *)
Definition failing (now : Z) : UseVoice.Event :=
  UseVoice.EvPipelineSettles
    (UseVoice.mkSeen processing (Some "Send 50 USDC to Alice") 0)
    (UseVoice.mkIO (UseVoice.FetchRejected "offline")
                   (UseVoice.FetchRejected "offline") now).

(** A pipeline that completes at the time [now]. *)
Definition completing (now : Z) : UseVoice.Event :=
  UseVoice.EvPipelineSettles (UseVoice.mkSeen processing None 0)
    (UseVoice.mkIO
       (UseVoice.FetchReplied true
          (UseVoice.mkVoiceData true (Some "Send 5") None))
       (UseVoice.FetchReplied true
          (UseVoice.mkNlpData true (Some quickSend) None))
       now).

(** Fifteen failed commands, each followed by the return to [idle]; a
    recording that is cancelled comes in between. *)
Definition fifteenAppends : list UseVoice.Event :=
  flat_map (fun n => [failing n; UseVoice.EvBackToIdle])
           [1; 2; 3; 4; 5; 6; 7]
  ++ [Examples.granted; UseVoice.EvTick; UseVoice.EvCancelRecording]
  ++ flat_map (fun n => [failing n; UseVoice.EvBackToIdle])
              [8; 9; 10; 11; 12; 13; 14; 15].



(** A recording that is stopped, before the [stop] event of its recorder
    has come. *)
Definition stopping : list Segments.Moment :=
  [Segments.CallStartRecording;
   Segments.MicAnswers 0 (UseVoice.Granted true) [10; 20];
   Segments.TimerTicks; Segments.CallStopRecording].

End MoreExamples.

(* ================================================================== *)
(** * The fallback extractor                                           *)
(* ================================================================== *)

Module FallbackFacts.
Import JSNumber Types Nlp.

(** C5: the fallback extractor maps
    "Send 50 USDC to 0x1234567890123456789012345678901234567890" to a [send]
    of amount 50 to that address, with confirmation required. *)
Theorem C5_fallback_send_to_address :
  let i := extractIntentFallback Examples.sendCommand in
  action i = "send"
  /\ amount i = 50%float
  /\ recipient i = Some "0x1234567890123456789012345678901234567890"
  /\ confirmationRequired i = true.
Proof. vm_compute. repeat split; reflexivity. Qed.

(** The action of a fallback intent is one of six, and it tells whether
    confirmation is required. *)
Lemma fallback_cases (text : string) :
  let i := extractIntentFallback text in
  (action i = "check_balance" /\ confirmationRequired i = false
   /\ amount i = 0%float)
  \/ (action i = "view_history" /\ confirmationRequired i = false
      /\ amount i = 0%float)
  \/ (action i = "cancel" /\ confirmationRequired i = true)
  \/ (action i = "split" /\ confirmationRequired i = true)
  \/ (action i = "pay_bill" /\ confirmationRequired i = true)
  \/ (action i = "send" /\ confirmationRequired i = true).
Proof.
  unfold extractIntentFallback.
  destruct (JS.includes (JS.toLowerCase text) "balance"
            || JS.includes (JS.toLowerCase text) "how much")%bool;
    [ left; repeat split | ].
  destruct (JS.includes (JS.toLowerCase text) "history"
            || JS.includes (JS.toLowerCase text) "transaction")%bool;
    [ right; left; repeat split | ].
  destruct (JS.includes (JS.toLowerCase text) "cancel");
    [ right; right; left; split; reflexivity | ].
  destruct (JS.includes (JS.toLowerCase text) "split");
    [ right; right; right; left; split; reflexivity | ].
  destruct (JS.includes (JS.toLowerCase text) "send"
            || JS.includes (JS.toLowerCase text) "transfer"
            || JS.includes (JS.toLowerCase text) "pay")%bool;
    [ | do 5 right; split; reflexivity ].
  destruct (JS.includes (JS.toLowerCase text) "bill");
    [ do 4 right; left | do 5 right ]; split; reflexivity.
Qed.

(** C6: a fallback intent has [confirmationRequired = false] exactly when
    its action is [check_balance] or [view_history]; every [send],
    [pay_bill], [split] or [cancel] fallback intent requires confirmation;
    "What's my balance?" gives [check_balance] with amount 0 and no
    confirmation. *)
Theorem C6_fallback_confirmation (text : string) :
  let i := extractIntentFallback text in
  (confirmationRequired i = false
   <-> action i = "check_balance" \/ action i = "view_history")
  /\ (In (action i) ["send"; "pay_bill"; "split"; "cancel"]
      -> confirmationRequired i = true)
  /\ (let b := extractIntentFallback Examples.balanceCommand in
      action b = "check_balance" /\ amount b = 0%float
      /\ confirmationRequired b = false).
Proof.
  intro i. subst i.
  pose proof (fallback_cases text) as H. cbv zeta in H.
  repeat split.
  - intro Hc.
    destruct H as [[Ha _]|[[Ha _]|[[_ Hb]|[[_ Hb]|[[_ Hb]|[_ Hb]]]]]];
      try (rewrite Hb in Hc; discriminate); auto.
  - intros [Ha|Ha];
      destruct H as [[_ [Hb _]]|[[_ [Hb _]]|[[Hx _]|[[Hx _]|[[Hx _]|[Hx _]]]]]];
      try assumption; rewrite Hx in Ha; discriminate.
  - intro Hin.
    destruct H as [[Hx _]|[[Hx _]|[[_ Hb]|[[_ Hb]|[[_ Hb]|[_ Hb]]]]]];
      try assumption;
      rewrite Hx in Hin; simpl in Hin;
      repeat (destruct Hin as [Hin|Hin]; [discriminate|]); contradiction.
Qed.

(** C6 at "Cancel that": a [cancel] intent, which requires confirmation. *)
Lemma C6_fallback_confirmation_witness :
  In (action (extractIntentFallback "Cancel that"))
     ["send"; "pay_bill"; "split"; "cancel"]
  /\ confirmationRequired (extractIntentFallback "Cancel that") = true.
Proof.
  assert (Hin : In (action (extractIntentFallback "Cancel that"))
                   ["send"; "pay_bill"; "split"; "cancel"]).
  { vm_compute. do 3 right. left. reflexivity. }
  split; [ exact Hin | ].
  exact (proj1 (proj2 (C6_fallback_confirmation "Cancel that")) Hin).
Defined.

End FallbackFacts.

(* ================================================================== *)
(** * The recording hook                                               *)
(* ================================================================== *)

Module HookFacts.
Import Types UseVoice.

Local Open Scope nat_scope.

(** ** The command history *)

Lemma pushCommand_bounded (cmd : VoiceCommand) (prev : list VoiceCommand) :
  List.length (pushCommand cmd prev) <= 10.
Proof. unfold pushCommand. apply firstn_le_length. Qed.

Lemma firstn_app_firstn {A : Type} (n m : nat) (a b : list A) :
  n <= m -> firstn n (a ++ firstn m b) = firstn n (a ++ b).
Proof.
  revert n. induction a as [|x a IH]; intros n Hnm; simpl.
  - rewrite firstn_firstn. f_equal. lia.
  - destruct n as [|n]; simpl; [ reflexivity | ].
    f_equal. apply IH. lia.
Qed.

Lemma pushAll_firstn (cmds prev : list VoiceCommand) :
  List.length prev <= 10 ->
  pushAll cmds prev = firstn 10 (rev cmds ++ prev).
Proof.
  revert prev. induction cmds as [|c cmds IH]; intros prev Hb.
  - symmetry. apply firstn_all2. exact Hb.
  - unfold pushAll. cbn [fold_left]. fold (pushAll cmds (pushCommand c prev)).
    rewrite IH by apply pushCommand_bounded.
    unfold pushCommand. rewrite firstn_app_firstn by lia.
    cbn [rev]. rewrite <- app_assoc. reflexivity.
Qed.

(** Pushing onto the empty history keeps the ten newest, newest first. *)
Lemma pushAll_newest (cmds : list VoiceCommand) :
  pushAll cmds [] = firstn 10 (rev cmds).
Proof.
  rewrite pushAll_firstn by (simpl; lia).
  rewrite app_nil_r. reflexivity.
Qed.

(** What each setter and each callback does to the history. *)

Lemma setState_history s h : commandHistory (setState s h) = commandHistory h.
Proof. reflexivity. Qed.

Lemma setTranscript_history t h :
  commandHistory (setTranscript t h) = commandHistory h.
Proof. reflexivity. Qed.

Lemma setIntent_history i h : commandHistory (setIntent i h) = commandHistory h.
Proof. reflexivity. Qed.

Lemma setError_history e h : commandHistory (setError e h) = commandHistory h.
Proof. reflexivity. Qed.

Lemma setRecordingTime_history t h :
  commandHistory (setRecordingTime t h) = commandHistory h.
Proof. reflexivity. Qed.

Lemma setAudioLevel_history l h :
  commandHistory (setAudioLevel l h) = commandHistory h.
Proof. reflexivity. Qed.

Lemma setHasPermission_history p h :
  commandHistory (setHasPermission p h) = commandHistory h.
Proof. reflexivity. Qed.

Lemma setRefs_history r c s a n f t k b h :
  commandHistory (setRefs r c s a n f t k b h) = commandHistory h.
Proof. reflexivity. Qed.

Lemma setRetryCount_history n h :
  commandHistory (setRetryCount n h) = commandHistory h.
Proof. reflexivity. Qed.

Lemma setCommandHistory_history f h :
  commandHistory (setCommandHistory f h) = f (commandHistory h).
Proof. reflexivity. Qed.

Create Rewrite HintDb history.

#[local] Hint Rewrite setState_history setTranscript_history setIntent_history
  setError_history setRecordingTime_history setAudioLevel_history
  setHasPermission_history setRefs_history setRetryCount_history
  setCommandHistory_history : history.

Lemma cleanupResources_history h :
  commandHistory (fst (cleanupResources h)) = commandHistory h.
Proof.
  unfold cleanupResources. cbv beta iota zeta delta [fst].
  autorewrite with history. reflexivity.
Qed.

Lemma analyzeAudioLevel_history levels h :
  commandHistory (analyzeAudioLevel levels h) = commandHistory h.
Proof.
  unfold analyzeAudioLevel. destruct (negb (analyserRef h)); [ reflexivity | ].
  cbv beta zeta. autorewrite with history. reflexivity.
Qed.

#[local] Hint Rewrite cleanupResources_history analyzeAudioLevel_history
  : history.

(** [fst] of a pair taken apart by a [let]. *)
Lemma fst_let {A B C : Type} (p : A * B) (f : A -> B -> C) (g : A -> B -> Hook) :
  fst (let (a, b) := p in (g a b, f a b)) = g (fst p) (snd p).
Proof. destruct p; reflexivity. Qed.

Lemma startRecording_history o cl mic levels h :
  commandHistory (fst (startRecording o cl mic levels h)) = commandHistory h.
Proof.
  unfold startRecording.
  destruct (seenState cl); try reflexivity;
    (destruct mic as [opus|name]; cbv beta zeta;
     [ cbv beta iota delta [fst]; autorewrite with history; reflexivity
     | rewrite (fst_let _ _ (fun a _ => a)); autorewrite with history;
       destruct (String.eqb name "NotAllowedError"
                 || String.eqb name "PermissionDeniedError")%bool;
       autorewrite with history; reflexivity ]).
Qed.

Lemma ondataavailable_history size h :
  commandHistory (ondataavailable size h) = commandHistory h.
Proof.
  unfold ondataavailable. destruct (0 <? size)%Z; autorewrite with history;
    reflexivity.
Qed.

Lemma tick_history h : commandHistory (tick h) = commandHistory h.
Proof.
  unfold tick. destruct (recordingTimerRef h); cbv beta zeta;
    autorewrite with history; reflexivity.
Qed.

Lemma stopRecording_history h :
  commandHistory (fst (stopRecording h)) = commandHistory h.
Proof.
  unfold stopRecording.
  destruct (mediaRecorderRef h) as [r|]; [ destruct (recording r) | ];
    cbv beta iota zeta delta [fst]; autorewrite with history; reflexivity.
Qed.

Lemma processAudioBlobBegin_history blob h :
  commandHistory (fst (processAudioBlobBegin blob h)) = commandHistory h.
Proof.
  unfold processAudioBlobBegin. cbv beta iota delta [fst].
  autorewrite with history. reflexivity.
Qed.

Lemma onstop_history o r h :
  commandHistory (fst (onstop o r h)) = commandHistory h.
Proof.
  unfold onstop. cbv beta zeta.
  destruct (seenRecordingTime (closure r) * 1000 <? minRecordingDuration o)%Z.
  - rewrite (fst_let _ _ (fun a _ => a)). autorewrite with history.
    reflexivity.
  - unfold processAudioBlobBegin. cbv beta iota.
    rewrite (fst_let _ _ (fun a _ => a)). autorewrite with history.
    reflexivity.
Qed.

Lemma cancelRecording_history h :
  commandHistory (fst (cancelRecording h)) = commandHistory h.
Proof. unfold cancelRecording. autorewrite with history. reflexivity. Qed.

Lemma clearError_history cl h :
  commandHistory (clearError cl h) = commandHistory h.
Proof.
  unfold clearError. cbv beta zeta.
  destruct (seenState cl); autorewrite with history; reflexivity.
Qed.

(** The [catch] block pushes at most one command. *)
Lemma pipelineCatch_history o cl io m h :
  commandHistory (fst (pipelineCatch o cl io m h)) = commandHistory h
  \/ exists cmd,
       commandHistory (fst (pipelineCatch o cl io m h))
       = pushCommand cmd (commandHistory h).
Proof.
  unfold pipelineCatch. cbv beta zeta.
  destruct (seenTranscript cl) as [[|c t]|];
    match goal with
    | |- context [if ?b then _ else _] => destruct b
    end; cbv beta iota delta [fst]; autorewrite with history;
    try (left; reflexivity); right; eexists; reflexivity.
Qed.

(** So does [processAudioBlob] as a whole. *)
Lemma processAudioBlobSettle_history o cl io h :
  commandHistory (fst (processAudioBlobSettle o cl io h)) = commandHistory h
  \/ exists cmd,
       commandHistory (fst (processAudioBlobSettle o cl io h))
       = pushCommand cmd (commandHistory h).
Proof.
  unfold processAudioBlobSettle.
  destruct (tryPipeline io) as [m|text m|text i].
  - apply pipelineCatch_history.
  - destruct (pipelineCatch_history o cl io m (setTranscript (Some text) h))
      as [H|[cmd H]]; rewrite H; autorewrite with history;
      [ left | right; exists cmd ]; reflexivity.
  - right. cbv beta iota zeta delta [fst]. autorewrite with history.
    eexists. reflexivity.
Qed.

(** Every transition of the hook leaves the history as it is, pushes one
    command, or empties it. *)
Lemma step_history o ev h :
  commandHistory (fst (step o ev h)) = commandHistory h
  \/ (exists cmd,
        commandHistory (fst (step o ev h)) = pushCommand cmd (commandHistory h))
  \/ commandHistory (fst (step o ev h)) = [].
Proof.
  destruct ev; cbn [step].
  - left. apply startRecording_history.
  - left. apply ondataavailable_history.
  - left. apply tick_history.
  - left. apply analyzeAudioLevel_history.
  - left.
    pose proof (stopRecording_history h) as Hs.
    destruct (stopRecording h) as [h1 e1]. cbn [fst] in Hs.
    destruct (mediaRecorderRef h) as [r|]; [ destruct (recording r) | ];
      try exact Hs.
    pose proof (onstop_history o r h1) as Ho.
    destruct (onstop o r h1) as [h2 e2]. cbn [fst] in *. congruence.
  - destruct (processAudioBlobSettle_history o cl io h) as [H|H]; auto.
  - left. destruct (lastAudioBlobRef h);
      [ apply processAudioBlobBegin_history | reflexivity ].
  - left. apply setState_history.
  - left. apply cancelRecording_history.
  - left. unfold retry. destruct (lastAudioBlobRef h).
    + rewrite processAudioBlobBegin_history. apply setRetryCount_history.
    + apply startRecording_history.
  - left. apply clearError_history.
  - right. right. reflexivity.
Qed.

Lemma step_history_bounded o ev h :
  List.length (commandHistory h) <= 10 ->
  List.length (commandHistory (fst (step o ev h))) <= 10.
Proof.
  intro Hb.
  destruct (step_history o ev h) as [-> | [[cmd ->] | ->]].
  - exact Hb.
  - apply pushCommand_bounded.
  - apply Nat.le_0_l.
Qed.

Lemma run_history_bounded o evs h :
  List.length (commandHistory h) <= 10 ->
  List.length (commandHistory (fst (run o evs h))) <= 10.
Proof.
  revert h. induction evs as [|ev evs IH]; intros h Hb; simpl.
  - exact Hb.
  - pose proof (step_history_bounded o ev h Hb) as Hs.
    destruct (step o ev h) as [h1 e1]. simpl in Hs.
    specialize (IH h1 Hs).
    destruct (run o evs h1) as [h2 e2]. exact IH.
Qed.

(** What the [catch] block leaves in the history. *)
Lemma pipelineCatch_appends o cl io m h :
  commandHistory (fst (pipelineCatch o cl io m h))
  = match seenTranscript cl with
    | Some (String _ _ as t) =>
        pushCommand
          (mkVoiceCommand (JSNumber.toString (JSNumber.ofZ (now io))) t None
             (now io) false)
          (commandHistory h)
    | _ => commandHistory h
    end.
Proof.
  unfold pipelineCatch. cbv beta zeta.
  destruct (seenTranscript cl) as [[|c t]|];
    match goal with
    | |- context [if ?b then _ else _] => destruct b
    end; cbv beta iota delta [fst]; autorewrite with history; reflexivity.
Qed.

(** What a transition leaves in the history: nothing when it is the call
    of [clearHistory], else the history it found with the command it
    appends pushed onto it. *)
Lemma step_appends o ev h :
  commandHistory (fst (step o ev h))
  = if UseVoiceView.clearsHistory ev then []
    else pushAll (UseVoiceView.appended ev) (commandHistory h).
Proof.
  destruct ev; cbn [step UseVoiceView.clearsHistory UseVoiceView.appended];
    try (unfold pushAll; cbn [fold_left]).
  - apply startRecording_history.
  - apply ondataavailable_history.
  - apply tick_history.
  - apply analyzeAudioLevel_history.
  - pose proof (stopRecording_history h) as Hs.
    destruct (stopRecording h) as [h1 e1]. cbn [fst] in Hs.
    destruct (mediaRecorderRef h) as [r|]; [ destruct (recording r) | ];
      try exact Hs.
    pose proof (onstop_history o r h1) as Ho.
    destruct (onstop o r h1) as [h2 e2]. cbn [fst] in *. congruence.
  - unfold processAudioBlobSettle.
    destruct (tryPipeline io) as [m|text m|text i].
    + rewrite pipelineCatch_appends.
      destruct (seenTranscript cl) as [[|c t]|]; reflexivity.
    + rewrite pipelineCatch_appends. autorewrite with history.
      destruct (seenTranscript cl) as [[|c t]|]; reflexivity.
    + cbv beta iota zeta delta [fst]. autorewrite with history.
      reflexivity.
  - destruct (lastAudioBlobRef h);
      [ apply processAudioBlobBegin_history | reflexivity ].
  - apply setState_history.
  - apply cancelRecording_history.
  - unfold retry. destruct (lastAudioBlobRef h).
    + rewrite processAudioBlobBegin_history. apply setRetryCount_history.
    + apply startRecording_history.
  - apply clearError_history.
  - reflexivity.
Qed.

Lemma pushAll_app (a b prev : list VoiceCommand) :
  pushAll (a ++ b) prev = pushAll b (pushAll a prev).
Proof. unfold pushAll. apply fold_left_app. Qed.

Lemma pushAll_bounded (cmds prev : list VoiceCommand) :
  List.length prev <= 10 -> List.length (pushAll cmds prev) <= 10.
Proof.
  intro Hb. rewrite pushAll_firstn by exact Hb. apply firstn_le_length.
Qed.

(** The history after a run in which [clearHistory] is not called. *)
Lemma run_appends o evs :
  forall h,
    existsb UseVoiceView.clearsHistory evs = false ->
    commandHistory (fst (run o evs h))
    = pushAll (flat_map UseVoiceView.appended evs) (commandHistory h).
Proof.
  induction evs as [|ev evs IH]; intros h Hno.
  - reflexivity.
  - cbn [existsb] in Hno. apply orb_false_iff in Hno. destruct Hno as [Hev Hno].
    cbn [run flat_map]. rewrite pushAll_app.
    pose proof (step_appends o ev h) as Hs. rewrite Hev in Hs.
    destruct (step o ev h) as [h1 e1]. cbn [fst] in Hs.
    specialize (IH h1 Hno).
    destruct (run o evs h1) as [h2 e2]. cbn [fst] in *.
    rewrite IH, Hs. reflexivity.
Qed.

Lemma run_app_hook o evs1 evs2 h :
  fst (run o (evs1 ++ evs2) h) = fst (run o evs2 (fst (run o evs1 h))).
Proof.
  revert h. induction evs1 as [|ev evs1 IH]; intro h.
  - reflexivity.
  - cbn [app run]. destruct (step o ev h) as [h1 e1].
    specialize (IH h1).
    destruct (run o (evs1 ++ evs2) h1) as [h2 e2].
    destruct (run o evs1 h1) as [h3 e3]. cbn [fst] in *. exact IH.
Qed.

(** C8: the history of the hook never holds more than ten commands,
    whatever the hook goes through.  It is ordered newest first and keeps
    the ten most recent: after a run in which [clearHistory] is not
    called, it is the commands the run appended (the [newCommand] of each
    pipeline that completed, the [failedCommand] of each that failed),
    latest first, followed by the history found before, cut after ten; so
    a run from the mount that appends fifteen commands leaves exactly the
    last ten of them, latest first.  The call of [clearHistory] leaves
    the empty history, and so does a second call; after it the history
    holds only what is appended later. *)
Theorem C8_history_bounded_newest_first :
  (forall o evs, List.length (commandHistory (fst (run o evs initial))) <= 10)
  /\ (forall o evs h,
        existsb UseVoiceView.clearsHistory evs = false ->
        List.length (commandHistory h) <= 10 ->
        commandHistory (fst (run o evs h))
        = firstn 10 (rev (flat_map UseVoiceView.appended evs)
                     ++ commandHistory h))
  /\ (forall o evs,
        existsb UseVoiceView.clearsHistory evs = false ->
        List.length (flat_map UseVoiceView.appended evs) = 15 ->
        commandHistory (fst (run o evs initial))
        = rev (skipn 5 (flat_map UseVoiceView.appended evs))
        /\ List.length (commandHistory (fst (run o evs initial))) = 10)
  /\ (forall o h,
        commandHistory (fst (step o EvClearHistory h)) = []
        /\ commandHistory
             (fst (step o EvClearHistory (fst (step o EvClearHistory h))))
           = [])
  /\ (forall o before after h,
        existsb UseVoiceView.clearsHistory after = false ->
        commandHistory (fst (run o (before ++ EvClearHistory :: after) h))
        = firstn 10 (rev (flat_map UseVoiceView.appended after))).
Proof.
  assert (Hrun : forall o evs h,
             existsb UseVoiceView.clearsHistory evs = false ->
             List.length (commandHistory h) <= 10 ->
             commandHistory (fst (run o evs h))
             = firstn 10 (rev (flat_map UseVoiceView.appended evs)
                          ++ commandHistory h)).
  { intros o evs h Hno Hb. rewrite run_appends by exact Hno.
    apply pushAll_firstn. exact Hb. }
  split; [ | split; [ | split; [ | split ] ] ].
  - intros o evs. apply run_history_bounded. simpl. lia.
  - exact Hrun.
  - intros o evs Hno Hlen.
    rewrite (Hrun o evs initial Hno) by (simpl; lia).
    cbn [initial commandHistory]. rewrite app_nil_r.
    rewrite firstn_rev, Hlen. split; [ reflexivity | ].
    rewrite length_rev, length_skipn, Hlen. reflexivity.
  - intros o h. split; reflexivity.
  - intros o before after h Hno.
    rewrite run_app_hook. cbn [run].
    set (h0 := fst (run o before h)).
    cbn [step]. 
    change (let (h2, e2) := run o after (clearHistory h0) in
            (h2, ([] ++ e2)%list))
      with (let (h2, e2) := run o after (clearHistory h0) in (h2, e2)).
    replace (fst (let (h2, e2) := run o after (clearHistory h0) in (h2, e2)))
      with (fst (run o after (clearHistory h0)))
      by (destruct (run o after (clearHistory h0)); reflexivity).
    rewrite (Hrun o after (clearHistory h0) Hno) by (simpl; lia).
    cbn [clearHistory setCommandHistory commandHistory].
    rewrite app_nil_r. reflexivity.
Qed.

(** C8 at a run that appends the fifteen failed commands of
    [Examples.fifteen]: the history is the commands 15 down to 6; and at a
    completed command followed by a failed one. *)
Lemma C8_history_bounded_newest_first_witness :
  flat_map UseVoiceView.appended MoreExamples.fifteenAppends
  = Examples.fifteen
  /\ commandHistory
       (fst (run defaultOptions MoreExamples.fifteenAppends initial))
     = map Examples.command [15; 14; 13; 12; 11; 10; 9; 8; 7; 6]%Z
  /\ map commandSuccess
       (commandHistory
          (fst (run defaultOptions
                  [MoreExamples.completing 1; MoreExamples.failing 2]
                  initial)))
     = [false; true].
Proof.
  destruct C8_history_bounded_newest_first as [_ [H2 [H3 _]]].
  split; [ vm_compute; reflexivity | split ].
  - destruct (H3 defaultOptions MoreExamples.fifteenAppends) as [-> _];
      vm_compute; reflexivity.
  - rewrite (H2 defaultOptions
               [MoreExamples.completing 1; MoreExamples.failing 2] initial);
      [ vm_compute; reflexivity | reflexivity | simpl; lia ].
Defined.

(** ** The reentry guard *)

(** C7: while the state is neither [idle] nor [error], [startRecording] does
    nothing: the hook is unchanged (no second recorder, no state change) and
    nothing is asked of the outside (no [getUserMedia]). *)
Theorem C7_startRecording_reentry_guard o mic levels h :
  state h <> idle -> state h <> Types.error ->
  startRecording o (seen h) mic levels h = (h, [])
  /\ step o (EvStartRecording mic levels) h = (h, []).
Proof.
  intros Hidle Herr. cbn [step]. unfold startRecording. cbn [seen seenState].
  destruct (state h); try contradiction; split; reflexivity.
Qed.

(** C7 while listening. *)
Lemma C7_startRecording_reentry_guard_witness :
  state Examples.whileListening = listening
  /\ step defaultOptions Examples.granted Examples.whileListening
     = (Examples.whileListening, []).
Proof.
  split; [ reflexivity | ].
  apply (C7_startRecording_reentry_guard defaultOptions (Granted true)
           [10; 20]%Z Examples.whileListening); discriminate.
Defined.

End HookFacts.

(* ================================================================== *)
(** * The validators                                                   *)
(* ================================================================== *)

Module ValidationFacts.
Import JSNumber Types Validation.

Section WithHost.
Context {eth : Ethers}.
Variable env : ProcessEnv.

(** The verdict is [valid] exactly when no error was collected. *)
Lemma valid_iff_no_errors (i : PaymentIntent) :
  valid (validatePaymentIntent env i) = true
  <-> errors (validatePaymentIntent env i) = [].
Proof.
  unfold validatePaymentIntent. cbv beta zeta. cbn [valid errors].
  match goal with
  | |- Nat.eqb (List.length ?l) 0 = true <-> _ => destruct l
  end; simpl; split; intro H; try reflexivity; discriminate.
Qed.

(** The collected errors are those of the five rules, in order. *)
Lemma errors_by_rule (i : PaymentIntent) :
  errors (validatePaymentIntent env i)
  = ((if negb (arrayIncludes validActions (action i))
      then ["Invalid payment action"] else [])
     ++ amountErrors env i
     ++ recipientErrors i
     ++ splitErrors i
     ++ (if negb (String.eqb (currency i) "USDC")
         then ["Only USDC is supported"] else []))%list.
Proof. reflexivity. Qed.

Lemma amountErrors_nonpositive (i : PaymentIntent) :
  In (action i) ["send"; "split"; "pay_bill"] ->
  PrimFloat.leb (amount i) 0%float = true ->
  In "Amount is required and must be greater than zero" (amountErrors env i).
Proof.
  intros Ha Hle. unfold amountErrors.
  assert (Hreq : arrayIncludes actionsRequiringAmount (action i) = true).
  { simpl in Ha. destruct Ha as [<-|[<-|[<-|[]]]]; reflexivity. }
  rewrite Hreq, Hle, Bool.orb_true_r.
  apply in_or_app. left. left. reflexivity.
Qed.

Lemma recipientErrors_zero (i : PaymentIntent) :
  action i = "send" ->
  recipient i = Some ZeroAddress ->
  In "Cannot send to zero address" (recipientErrors i).
Proof.
  intros Ha Hr. unfold recipientErrors. rewrite Ha, Hr.
  change (String.eqb "send" "send") with true. cbv iota.
  unfold ZeroAddress at 1. cbv iota beta.
  apply in_or_app. right.
  replace (isZeroAddress "0x0000000000000000000000000000000000000000")
    with true by (vm_compute; reflexivity).
  left. reflexivity.
Qed.

Lemma error_makes_invalid (i : PaymentIntent) (e : string) :
  In e (errors (validatePaymentIntent env i)) ->
  valid (validatePaymentIntent env i) = false.
Proof.
  intro Hin.
  destruct (valid (validatePaymentIntent env i)) eqn:Hv; [ | reflexivity ].
  apply valid_iff_no_errors in Hv. rewrite Hv in Hin. contradiction.
Qed.

(** C3: [validatePaymentIntent] returns its verdict as data, [valid] being
    true exactly when no error was collected; the errors are those of all
    the rules, one after the other; a [send], [split] or [pay_bill] intent
    with an amount [<= 0] is invalid and carries the amount error; a [send]
    to the zero address carries the zero-address error, whatever its
    amount, and is invalid. *)
Theorem C3_validatePaymentIntent_collects (i : PaymentIntent) :
  (valid (validatePaymentIntent env i) = true
   <-> errors (validatePaymentIntent env i) = [])
  /\ (In (action i) ["send"; "split"; "pay_bill"] ->
      PrimFloat.leb (amount i) 0%float = true ->
      valid (validatePaymentIntent env i) = false
      /\ In "Amount is required and must be greater than zero"
            (errors (validatePaymentIntent env i)))
  /\ (action i = "send" ->
      recipient i = Some ZeroAddress ->
      valid (validatePaymentIntent env i) = false
      /\ In "Cannot send to zero address"
            (errors (validatePaymentIntent env i))).
Proof.
  split; [ apply valid_iff_no_errors | split ].
  - intros Ha Hle.
    assert (Hin : In "Amount is required and must be greater than zero"
                     (errors (validatePaymentIntent env i))).
    { rewrite errors_by_rule. apply in_or_app. right. apply in_or_app. left.
      apply amountErrors_nonpositive; assumption. }
    split; [ apply (error_makes_invalid i _ Hin) | exact Hin ].
  - intros Ha Hr.
    assert (Hin : In "Cannot send to zero address"
                     (errors (validatePaymentIntent env i))).
    { rewrite errors_by_rule. apply in_or_app. right. apply in_or_app. right.
      apply in_or_app. left. apply recipientErrors_zero; assumption. }
    split; [ apply (error_makes_invalid i _ Hin) | exact Hin ].
Qed.

(** What [sanitizeInput] returns holds no angle bracket and no control
    character. *)
Lemma removeAll_clean (cls : ascii -> bool) (s : string) (c : ascii) :
  In c (list_ascii_of_string (JS.removeAll cls s)) -> cls c = false.
Proof.
  induction s as [|a s IH]; simpl; [ contradiction | ].
  destruct (cls a) eqn:Ha; simpl; [ exact IH | ].
  intros [<-|Hin]; [ exact Ha | exact (IH Hin) ].
Qed.

Lemma removeAll_subset (cls : ascii -> bool) (s : string) (c : ascii) :
  In c (list_ascii_of_string (JS.removeAll cls s)) ->
  In c (list_ascii_of_string s).
Proof.
  induction s as [|a s IH]; simpl; [ contradiction | ].
  destruct (cls a); simpl; [ auto | ].
  intros [<-|Hin]; [ left; reflexivity | right; exact (IH Hin) ].
Qed.

Lemma sanitizeInput_clean (s : string) (c : ascii) :
  In c (list_ascii_of_string (sanitizeInput s)) ->
  JS.isAngle c = false /\ JS.isControl c = false.
Proof.
  unfold sanitizeInput. intro Hin. split.
  - apply removeAll_subset in Hin. exact (removeAll_clean _ _ _ Hin).
  - exact (removeAll_clean _ _ _ Hin).
Qed.

End WithHost.

(** C3 at a [send] of 0 to the zero address: both errors are reported. *)
Lemma C3_validatePaymentIntent_collects_witness :
  valid (validatePaymentIntent (eth := Examples.hexOnly) Examples.noEnv
           Examples.zeroSend) = false
  /\ In "Amount is required and must be greater than zero"
        (errors (validatePaymentIntent (eth := Examples.hexOnly)
                   Examples.noEnv Examples.zeroSend))
  /\ In "Cannot send to zero address"
        (errors (validatePaymentIntent (eth := Examples.hexOnly)
                   Examples.noEnv Examples.zeroSend)).
Proof.
  destruct (C3_validatePaymentIntent_collects (eth := Examples.hexOnly)
              Examples.noEnv Examples.zeroSend) as [_ [Hamount Hzero]].
  destruct Hamount as [Hv Ha];
    [ left; reflexivity | reflexivity | ].
  destruct Hzero as [_ Hz]; [ reflexivity | reflexivity | ].
  split; [ exact Hv | split; [ exact Ha | exact Hz ] ].
Defined.

End ValidationFacts.

(* ================================================================== *)
(** * The AI path and the handler                                      *)
(* ================================================================== *)

Module NlpFacts.
Import JSNumber JSValue Types Nlp.

(** Reading a property raises for all names or for none. *)
Lemma get_defined (d : JValue) (k k' : string) (v : JValue) :
  get d k = Some v -> exists v', get d k' = Some v'.
Proof.
  destruct d; simpl; intro H; try discriminate; eexists; reflexivity.
Qed.


(** The AI path builds an intent unless [intentData] is [null] or its
    [amount] has no primitive value. *)
Lemma constructIntent_defined (d : JValue) (text : string) (amt : JValue)
  (s : string) :
  get d "amount" = Some amt -> JSValue.toString amt = Some s ->
  exists i, constructIntent d text = Some i.
Proof.
  intros Hget Hs. unfold constructIntent.
  destruct (get_defined d "amount" "action" amt Hget) as [a ->].
  destruct (get_defined d "amount" "recipient" amt Hget) as [r ->].
  destruct (get_defined d "amount" "participants" amt Hget) as [ps ->].
  destruct (get_defined d "amount" "confirmationRequired" amt Hget) as [c ->].
  rewrite Hget, Hs. eexists. reflexivity.
Qed.



Section Handler.
Context {eth : Ethers}.
Variable env : ProcessEnv.
Variable extractIntentAI : string -> string + PaymentIntent.

(** A body that is [null] or [undefined] makes the handler raise; the
    reply is the generic failure of the outer [catch]. *)
Lemma handler_without_body (body : JValue) :
  get body "text" = None ->
  handler env extractIntentAI "POST" body
  = (failure 500 "Failed to process intent" "NLP_PROCESSING_FAILED", []).
Proof. intro H. unfold handler. cbn [String.eqb]. rewrite H. reflexivity. Qed.

(** C10: what the handler replies to a POST whose [text] is unusable, and
    that it makes no call into the intent pipeline then.  A body that is
    [null] or [undefined] has no [text] to read: reading it raises, and the
    reply is 500 [NLP_PROCESSING_FAILED], not 400.  For every body whose
    [text] can be read: when it is missing, is not a string or is the empty
    string the reply is 400 [MISSING_TEXT]; when it is a string that
    [sanitizeInput] empties the reply is 400 [INVALID_TEXT]. *)
Theorem C10_handler_replies_to_bad_text (body : JValue) :
  (get body "text" = None ->
   handler env extractIntentAI "POST" body
   = (failure 500 "Failed to process intent" "NLP_PROCESSING_FAILED", []))
  /\ (forall t, get body "text" = Some t ->
      ((forall s, s <> "" -> t <> JStr s) ->
       handler env extractIntentAI "POST" body
       = (failure 400 "Text is required" "MISSING_TEXT", []))
      /\ (forall s, t = JStr s -> s <> "" -> Validation.sanitizeInput s = "" ->
          handler env extractIntentAI "POST" body
          = (failure 400 "Invalid text input" "INVALID_TEXT", []))).
Proof.
  split; [ apply handler_without_body | ].
  intros t Hget. unfold handler.
  change (negb (String.eqb "POST" "POST")) with false. cbv iota.
  rewrite Hget. split.
  - intro Hns. destruct t as [| | | |s| |]; try reflexivity.
    destruct s as [|c s]; [ reflexivity | ].
    exfalso. apply (Hns (String c s)); [ discriminate | reflexivity ].
  - intros s -> Hne Hsan.
    destruct s as [|c s]; [ contradiction | ].
    cbv beta zeta. rewrite Hsan. reflexivity.
Qed.

End Handler.

(** C10 at the body [null], at a body without [text] and at a [text] of
    blanks and brackets. *)
Lemma C10_handler_replies_to_bad_text_witness :
  handler (eth := Examples.hexOnly) Examples.noEnv Examples.aiDown "POST" JNull
  = (failure 500 "Failed to process intent" "NLP_PROCESSING_FAILED", [])
  /\ handler (eth := Examples.hexOnly) Examples.noEnv Examples.aiDown "POST"
       (JObj [])
     = (failure 400 "Text is required" "MISSING_TEXT", [])
  /\ handler (eth := Examples.hexOnly) Examples.noEnv Examples.aiDown "POST"
       (JObj [("text", JStr Examples.blankText)])
     = (failure 400 "Invalid text input" "INVALID_TEXT", []).
Proof.
  split; [ | split ].
  - exact (proj1 (C10_handler_replies_to_bad_text (eth := Examples.hexOnly)
                    Examples.noEnv Examples.aiDown JNull) eq_refl).
  - destruct (proj2 (C10_handler_replies_to_bad_text (eth := Examples.hexOnly)
                       Examples.noEnv Examples.aiDown (JObj []))
                JUndefined eq_refl) as [H _].
    apply H. intros s _. discriminate.
  - destruct (proj2 (C10_handler_replies_to_bad_text (eth := Examples.hexOnly)
                       Examples.noEnv Examples.aiDown
                       (JObj [("text", JStr Examples.blankText)]))
                (JStr Examples.blankText) eq_refl) as [_ H].
    apply (H Examples.blankText eq_refl);
      [ discriminate | vm_compute; reflexivity ].
Defined.

End NlpFacts.

(* ================================================================== *)
(** * Retry                                                            *)
(* ================================================================== *)

Module RetryFacts.
Import Utils.

Local Open Scope nat_scope.

Section Failing.
Context {W T E : Type}.
Variable fn : W -> (E + T) * W.

Lemma attempts_cons_attempt (steps : list Step) :
  attempts (Attempt :: steps) = S (attempts steps).
Proof. reflexivity. Qed.

Lemma attempts_app (a b : list Step) :
  attempts (a ++ b) = attempts a + attempts b.
Proof.
  unfold attempts. rewrite filter_app, length_app. reflexivity.
Qed.

(** With an operation that always raises, the loop calls it once per
    iteration and ends in a rejection. *)
Lemma retryLoop_alwaysRaises (maxRetries delay : Z) :
  alwaysRaises fn ->
  forall remaining i lastError w,
    let '(result, steps, _) :=
      retryLoop fn maxRetries delay remaining i lastError w in
    attempts steps = remaining
    /\ exists reason, result = Rejected reason.
Proof.
  intros Hfail remaining.
  induction remaining as [|remaining IH]; intros i lastError w; simpl.
  - split; [ reflexivity | eexists; reflexivity ].
  - destruct (Hfail w) as [err [w' ->]].
    specialize (IH (i + 1)%Z (Some err) w').
    destruct (retryLoop fn maxRetries delay remaining (i + 1) (Some err) w')
      as [[result steps] w''].
    destruct IH as [Hn Hr]. split; [ | exact Hr ].
    rewrite attempts_cons_attempt, attempts_app, Hn.
    destruct (i <? maxRetries - 1)%Z; reflexivity.
Qed.

(** C4, as the code has it: an operation that always raises is attempted
    [maxRetries] times in all, the first attempt included, and the promise
    is then rejected. *)
Theorem C4_retryWithBackoff_attempts (maxRetries delay : Z) (w : W) :
  alwaysRaises fn ->
  let '(result, steps, _) := retryWithBackoff fn maxRetries delay w in
  attempts steps = Z.to_nat maxRetries
  /\ exists reason, result = Rejected reason.
Proof.
  intro Hfail. unfold retryWithBackoff.
  apply (retryLoop_alwaysRaises maxRetries delay Hfail).
Qed.

End Failing.

(** C4 at [maxRetries = 3] and [delay = 1000]: three attempts, not four,
    with pauses of 1000 and 2000 between them. *)
Lemma C4_retryWithBackoff_attempts_witness :
  retryWithBackoff Examples.alwaysFails 3 1000 O
  = (Rejected (Some "boom"),
     [Attempt; Sleep 1000; Attempt; Sleep 2000; Attempt], 3)
  /\ attempts (snd (fst (retryWithBackoff Examples.alwaysFails 3 1000 O))) = 3.
Proof.
  split; [ reflexivity | ].
  pose proof (C4_retryWithBackoff_attempts Examples.alwaysFails 3 1000 O) as H.
  destruct (retryWithBackoff Examples.alwaysFails 3 1000 O) as [[r steps] w].
  apply H. intro calls. exists "boom"%string, (S calls). reflexivity.
Defined.

End RetryFacts.

(* ================================================================== *)
(** * Sending                                                          *)
(* ================================================================== *)

Module SendFacts.
Import JSNumber Types Home.

(** What [handleSendTransaction] asks of the balance before it sends: that
    it is not below the amount.  No buffer enters the comparison. *)
Lemma submitted_balance_not_below_amount env svc balanceUsdc i to amt :
  handleSendTransaction env svc balanceUsdc i = Submitted to amt ->
  PrimFloat.ltb (parseFloat balanceUsdc) (amount i) = false
  /\ amt = toString (amount i).
Proof.
  unfold handleSendTransaction.
  destruct svc as [svc|]; [ | discriminate ].
  destruct (recipient i) as [[|c r]|]; try discriminate.
  destruct (negb (truthy (amount i)) || PrimFloat.leb (amount i) 0)%bool;
    [ discriminate | ].
  destruct (serviceValidateAmount env svc (toString (amount i)));
    [ discriminate | ].
  cbv zeta.
  destruct (PrimFloat.ltb (parseFloat balanceUsdc) (amount i));
    [ discriminate | ].
  intro H. injection H as _ <-. split; reflexivity.
Qed.

(** What [validateSufficientBalance] asks, with the gas buffer: that the
    balance is not below the amount plus 0.01. *)
Lemma sufficient_with_buffer balance amt :
  Validation.sufficient (Validation.validateSufficientBalance balance amt true)
  = true ->
  PrimFloat.ltb (parseFloat balance) (PrimFloat.add (parseFloat amt) 0.01%float)
  = false.
Proof.
  unfold Validation.validateSufficientBalance. cbv zeta.
  destruct (PrimFloat.is_nan (parseFloat balance)
            || PrimFloat.is_nan (parseFloat amt))%bool; [ discriminate | ].
  destruct (PrimFloat.ltb (parseFloat balance)
              (PrimFloat.add (parseFloat amt) 0.01%float));
    [ discriminate | reflexivity ].
Qed.

(** C1, as the code has it: with a balance of 100.00, [handleSendTransaction]
    submits a send of 99.995 (and one of 99.98), although
    [validateSufficientBalance], which adds the 0.01 buffer, finds the
    balance insufficient for 99.995 and sufficient for 99.98. *)
Theorem C1_send_compares_without_buffer :
  handleSendTransaction Examples.noEnv (Some RealArcService) "100.00"
    (Examples.sendIntent 99.995%float (Some Examples.someAddress))
  = Submitted Examples.someAddress "99.995"
  /\ handleSendTransaction Examples.noEnv (Some RealArcService) "100.00"
       (Examples.sendIntent 99.98%float (Some Examples.someAddress))
     = Submitted Examples.someAddress "99.98"
  /\ Validation.sufficient
       (Validation.validateSufficientBalance "100.00" "99.995" true) = false
  /\ Validation.sufficient
       (Validation.validateSufficientBalance "100.00" "99.98" true) = true.
Proof. vm_compute. repeat split; reflexivity. Qed.

End SendFacts.

(* ================================================================== *)
(** * Stopping a recording                                             *)
(* ================================================================== *)

Module StopFacts.
Import Types UseVoice.

(** [cleanupResources] clears the refs of the recording. *)
Lemma cleanupResources_released h : released (fst (cleanupResources h)).
Proof. unfold released. repeat split; reflexivity. Qed.

(** The branch of [onstop] taken when the recording time its handler closed
    over is below the minimum: the pipeline is not invoked, the error is
    reported, the resources are released and the return to [idle] is
    scheduled. *)
Lemma onstop_too_short o r h :
  (seenRecordingTime (closure r) * 1000 <? minRecordingDuration o) = true ->
  let (h', effects) := onstop o r h in
  (forall blob, ~ In (InvokeProcessAudioBlob blob) effects)
  /\ state h' = Types.error
  /\ error h' = Some "Recording is too short. Please speak longer."
  /\ released h'
  /\ In (SetTimeout BackToIdle 3000) effects
  /\ state (fst (step o EvBackToIdle h')) = idle.
Proof.
  intro Hshort. unfold onstop. cbv zeta. rewrite Hshort.
  repeat split; try reflexivity.
  - intros blob Hin. apply in_app_or in Hin. destruct Hin as [Hin|Hin].
    + unfold cleanupResources in Hin. cbn [snd fst] in Hin.
      repeat (apply in_app_or in Hin; destruct Hin as [Hin|Hin]);
        repeat match type of Hin with
               | In _ (if ?b then _ else _) => destruct b
               | In _ (match ?x with Some _ => _ | None => _ end) => destruct x
               end;
        simpl in Hin; intuition discriminate.
    + simpl in Hin. intuition discriminate.
  - apply in_or_app. right. left. reflexivity.
Qed.

(** The other branch: the pipeline is invoked on the recorded blob. *)
Lemma onstop_otherwise o r h :
  (seenRecordingTime (closure r) * 1000 <? minRecordingDuration o) = false ->
  In (InvokeProcessAudioBlob (mkBlob (audioChunksRef h) (mimeType r)))
     (snd (onstop o r h)).
Proof.
  intro Hlong. unfold onstop. cbv zeta. rewrite Hlong.
  left. reflexivity.
Qed.

Lemma mediaRecorderRef_setRefs r c s a n f t k b h :
  mediaRecorderRef (setRefs r c s a n f t k b h) = r.
Proof. reflexivity. Qed.

(** The recorder made by [startRecording] closes over what the running
    [startRecording] saw: the recording time of the render in which it was
    created, not the time the new recording will take. *)
Lemma startRecording_recorder o cl opus levels h :
  seenState cl = idle \/ seenState cl = Types.error ->
  mediaRecorderRef (fst (startRecording o cl (Granted opus) levels h))
  = Some (mkRecorder (if opus then "audio/webm;codecs=opus" else "audio/webm")
                     true cl).
Proof.
  intros [H|H]; unfold startRecording; rewrite H;
    cbv beta iota zeta delta [fst]; rewrite mediaRecorderRef_setRefs;
    reflexivity.
Qed.

(** C2, as the code has it.  After a first recording of two seconds, which
    is itself turned down as too short, a second recording is started and
    stopped before its timer has ticked once: less than one second, the
    minimum, has elapsed, and yet the pipeline is invoked on it. *)
Theorem C2_stale_recordingTime_invokes_pipeline :
  let o := defaultOptions in
  let before :=
    fst (run o [Examples.granted; EvDataAvailable 5]
           Examples.afterFirstRecording) in
  (* the first recording: two ticks, and the too-short error *)
  error (fst (run o [Examples.granted; EvTick; EvTick; EvStopRecording]
                initial))
  = Some "Recording is too short. Please speak longer."
  (* the second recording, about to be stopped: no tick so far *)
  /\ state before = listening
  /\ recordingTimerRef before = Some (mkTimer 0)
  /\ recordingTime before = 0%Z
  /\ (0 * 1000 <? minRecordingDuration o)%Z = true
  (* stopping it invokes the pipeline *)
  /\ snd (step o EvStopRecording before)
     = [RecorderStop; ClearInterval; CancelAnimationFrame;
        InvokeProcessAudioBlob (mkBlob [5%Z] "audio/webm;codecs=opus");
        StopTracks; CloseAudioContext]
  /\ state (fst (step o EvStopRecording before)) = processing.
Proof. vm_compute. repeat split; reflexivity. Qed.

End StopFacts.

(* ================================================================== *)
(** * More on [retryWithBackoff]                                       *)
(* ================================================================== *)

Module RetryExtra.
Import Utils UtilsMore.

Section AnyOperation.
Context {W T E : Type}.
Variable fn : W -> (E + T) * W.

Lemma scheduleFrom_cons delay i n :
  (0 < n)%nat ->
  scheduleFrom delay i (S n) = Attempt :: Sleep (delay * 2 ^ i) :: scheduleFrom delay (i + 1) n.
Proof. destruct n; [ lia | reflexivity ]. Qed.

Lemma retryLoop_schedule (maxRetries delay : Z) :
  forall remaining i lastError w,
    i + Z.of_nat remaining = maxRetries ->
    let '(result, steps, _) :=
      retryLoop fn maxRetries delay remaining i lastError w in
    exists n, (n <= remaining)%nat
      /\ steps = scheduleFrom delay i n
      /\ match result with
         | Resolved _ => (1 <= n)%nat
         | Rejected _ => n = remaining
         end.
Proof.
  induction remaining as [|remaining IH]; intros i lastError w Hi; simpl.
  - exists O. repeat split; reflexivity.
  - destruct (fn w) as [[err|value] w'].
    + specialize (IH (i + 1) (Some err) w' ltac:(lia)).
      destruct (retryLoop fn maxRetries delay remaining (i + 1) (Some err) w')
        as [[result steps] w''].
      destruct IH as [n [Hn [Hsteps Hres]]].
      destruct remaining as [|remaining].
      * (* the last iteration: no pause *)
        assert (n = O) by lia. subst n.
        destruct (i <? maxRetries - 1) eqn:Hlt; [ apply Z.ltb_lt in Hlt; lia | ].
        exists 1%nat. subst steps. simpl.
        repeat split; try lia.
        destruct result; simpl in Hres; [ lia | reflexivity ].
      * destruct (i <? maxRetries - 1) eqn:Hlt;
          [ | apply Z.ltb_ge in Hlt; lia ].
        destruct n as [|n].
        -- destruct result; simpl in Hres; lia.
        -- exists (S (S n)). subst steps.
           split; [ lia | split ].
           ++ rewrite (scheduleFrom_cons delay i (S n)) by lia. reflexivity.
           ++ destruct result; simpl in Hres; lia.
    + exists 1%nat. repeat split; lia.
Qed.

(** X1: [retryWithBackoff] calls [fn] at most [maxRetries] times, pauses
    exactly once between two consecutive calls, for [delay], [2 * delay],
    [4 * delay], ... in this order, and never after the last call; it gives
    up only after [maxRetries] calls. *)
Theorem retryWithBackoff_schedule (maxRetries delay : Z) (w : W) :
  let '(result, steps, _) := retryWithBackoff fn maxRetries delay w in
  exists n, (n <= Z.to_nat maxRetries)%nat
    /\ steps = scheduleFrom delay 0 n
    /\ match result with
       | Resolved _ => (1 <= n)%nat
       | Rejected _ => n = Z.to_nat maxRetries
       end.
Proof.
  unfold retryWithBackoff.
  destruct (Z.le_gt_cases 0 maxRetries) as [Hpos|Hneg].
  - apply retryLoop_schedule. lia.
  - replace (Z.to_nat maxRetries) with O by lia. simpl.
    exists O. repeat split; reflexivity.
Qed.

Lemma retryLoop_outcome (maxRetries delay : Z) :
  forall remaining i lastError w,
    let '(result, _, final) :=
      retryLoop fn maxRetries delay remaining i lastError w in
    match result with
    | Resolved value => exists before, fn before = (inr value, final)
    | Rejected reason =>
        (remaining = O /\ reason = lastError /\ final = w)
        \/ exists err before, reason = Some err /\ fn before = (inl err, final)
    end.
Proof.
  induction remaining as [|remaining IH]; intros i lastError w; simpl.
  - left. repeat split; reflexivity.
  - destruct (fn w) as [[err|value] w'] eqn:Hfn.
    + specialize (IH (i + 1) (Some err) w').
      destruct (retryLoop fn maxRetries delay remaining (i + 1) (Some err) w')
        as [[result steps] final].
      destruct result as [value|reason]; [ exact IH | ].
      right. destruct IH as [[_ [-> ->]]|IH]; [ | exact IH ].
      exists err, w. split; [ reflexivity | exact Hfn ].
    + exists w. exact Hfn.
Qed.

(** X2: the promise of [retryWithBackoff] resolves only with a value that
    [fn] returned and rejects only with the error of the last call of [fn];
    it rejects with [undefined], without calling [fn], exactly when
    [maxRetries] is not positive. *)
Theorem retryWithBackoff_outcome (maxRetries delay : Z) (w : W) :
  let '(result, steps, final) := retryWithBackoff fn maxRetries delay w in
  match result with
  | Resolved value => exists before, fn before = (inr value, final)
  | Rejected (Some err) => exists before, fn before = (inl err, final)
  | Rejected None => maxRetries <= 0 /\ steps = [] /\ final = w
  end
  /\ (maxRetries <= 0 -> result = Rejected None).
Proof.
  unfold retryWithBackoff.
  pose proof (retryLoop_outcome maxRetries delay (Z.to_nat maxRetries) 0 None w)
    as H.
  destruct (retryLoop fn maxRetries delay (Z.to_nat maxRetries) 0 None w)
    as [[result steps] final] eqn:Hrun.
  split.
  - destruct result as [value|[err|]]; [ exact H | | ].
    + destruct H as [[_ [H _]]|[err' [before [H1 H2]]]]; [ discriminate | ].
      injection H1 as <-. exists before. exact H2.
    + destruct H as [[Hz [_ ->]]|[err' [before [H1 _]]]]; [ | discriminate ].
      split; [ lia | split; [ | reflexivity ] ].
      rewrite Hz in Hrun. simpl in Hrun. congruence.
  - intro Hneg. replace (Z.to_nat maxRetries) with O in Hrun by lia.
    simpl in Hrun. congruence.
Qed.

End AnyOperation.

Lemma retryWithBackoff_schedule_witness :
  snd (fst (retryWithBackoff Examples.alwaysFails 3 1000 0%nat))
  = [Attempt; Sleep 1000; Attempt; Sleep 2000; Attempt].
Proof.
  pose proof (retryWithBackoff_schedule Examples.alwaysFails 3 1000 0%nat)
    as H.
  destruct (retryWithBackoff Examples.alwaysFails 3 1000 0%nat)
    as [[result steps] final] eqn:Hrun.
  destruct H as [n [_ [Hsteps Hn]]].
  assert (Hres : result = Rejected (Some "boom")).
  { vm_compute in Hrun. congruence. }
  subst result. subst n. exact Hsteps.
Defined.

Lemma retryWithBackoff_outcome_witness :
  fst (fst (retryWithBackoff Examples.alwaysFails 0 1000 0%nat))
  = Rejected None.
Proof.
  pose proof (retryWithBackoff_outcome Examples.alwaysFails 0 1000 0%nat)
    as H.
  destruct (retryWithBackoff Examples.alwaysFails 0 1000 0%nat)
    as [[result steps] final].
  destruct H as [_ H]. apply H. lia.
Defined.

End RetryExtra.

(* ================================================================== *)
(** * More on [lib/utils.ts]                                           *)
(* ================================================================== *)

Module UtilsFacts.
Import JSNumber Utils UtilsMore.

(** ** Texts *)

Lemma length_take (n : nat) (s : string) :
  String.length (take n s) = Nat.min n (String.length s).
Proof.
  revert s. induction n as [|n IH]; intros [|c s]; simpl; try reflexivity.
  rewrite IH. reflexivity.
Qed.

Lemma length_drop (n : nat) (s : string) :
  String.length (JS.drop n s) = (String.length s - n)%nat.
Proof.
  revert s. induction n as [|n IH]; intros [|c s]; simpl;
    try reflexivity; try lia.
  apply IH.
Qed.

Lemma take_all (n : nat) (s : string) :
  (String.length s <= n)%nat -> take n s = s.
Proof.
  revert s. induction n as [|n IH]; intros [|c s] H; simpl in *;
    try reflexivity; try lia.
  rewrite IH by lia. reflexivity.
Qed.

Lemma take_drop (n : nat) (s : string) : take n s ++ JS.drop n s = s.
Proof.
  revert s. induction n as [|n IH]; intros [|c s]; simpl; try reflexivity.
  rewrite IH. reflexivity.
Qed.

Lemma length_append (a b : string) :
  String.length (a ++ b) = (String.length a + String.length b)%nat.
Proof. induction a as [|c a IH]; simpl; [ reflexivity | rewrite IH; reflexivity ]. Qed.

(** [s.slice(0, n)] for [0 <= n <= s.length] *)
Lemma slice_prefix (s : string) (n : Z) :
  0 <= n <= Z.of_nat (String.length s) ->
  slice s 0 n = take (Z.to_nat n) s.
Proof.
  intros Hn. unfold slice, clampIndex. cbv zeta.
  change (0 <? 0) with false. cbv iota.
  rewrite Z.min_l by lia.
  destruct (n <? 0) eqn:Hneg; [ apply Z.ltb_lt in Hneg; lia | ].
  rewrite Z.min_l by lia.
  destruct (0 <? n) eqn:Hpos.
  - rewrite Z.sub_0_r. reflexivity.
  - apply Z.ltb_ge in Hpos. replace n with 0 by lia. reflexivity.
Qed.

(** [s.slice(-n)] for [0 < n <= s.length] *)
Lemma slice_suffix (s : string) (n : Z) :
  0 < n <= Z.of_nat (String.length s) ->
  sliceFrom s (- n) = JS.drop (Z.to_nat (Z.of_nat (String.length s) - n)) s.
Proof.
  intros Hn. unfold sliceFrom, slice, clampIndex. cbv zeta.
  destruct (- n <? 0) eqn:Hneg; [ | apply Z.ltb_ge in Hneg; lia ].
  destruct (Z.of_nat (String.length s) <? 0) eqn:Hlen;
    [ apply Z.ltb_lt in Hlen; lia | ].
  rewrite Z.max_l by lia. rewrite Z.min_l by lia.
  destruct (Z.of_nat (String.length s) + - n <? Z.of_nat (String.length s))
    eqn:Hlt; [ | apply Z.ltb_ge in Hlt; lia ].
  replace (Z.of_nat (String.length s) + - n)
    with (Z.of_nat (String.length s) - n) by lia.
  apply take_all. rewrite length_drop. lia.
Qed.

(** X3: for an address longer than [startLength + endLength], with
    [endLength > 0], [formatAddress] keeps the first [startLength] and the
    last [endLength] characters around "...", so the result has
    [startLength + 3 + endLength] characters; with [endLength = 0] the
    whole address follows the dots, [slice(-0)] being [slice(0)]. *)
Theorem formatAddress_shape (address : string) (startLength endLength : Z) :
  0 <= startLength -> 0 <= endLength ->
  startLength + endLength < Z.of_nat (String.length address) ->
  (0 < endLength ->
   formatAddress address startLength endLength
   = take (Z.to_nat startLength) address ++ "..."
     ++ JS.drop (Z.to_nat (Z.of_nat (String.length address) - endLength))
                address
   /\ Z.of_nat (String.length (formatAddress address startLength endLength))
      = startLength + 3 + endLength)
  /\ (endLength = 0 ->
      formatAddress address startLength endLength
      = take (Z.to_nat startLength) address ++ "..." ++ address).
Proof.
  intros Hs He Hlen.
  assert (Hne : address <> "") by (intros ->; simpl in Hlen; lia).
  assert (Hform : formatAddress address startLength endLength
                  = slice address 0 startLength ++ "..."
                    ++ sliceFrom address (- endLength)).
  { unfold formatAddress. destruct address as [|c a]; [ contradiction | ].
    destruct (Z.of_nat (String.length (String c a)) <=? startLength + endLength)
      eqn:Hle; [ apply Z.leb_le in Hle; lia | reflexivity ]. }
  rewrite Hform, slice_prefix by lia. split.
  - intro Hpos. rewrite slice_suffix by lia. split; [ reflexivity | ].
    rewrite !length_append, length_take, length_drop. simpl String.length. lia.
  - intros ->. f_equal. f_equal. simpl Z.opp.
    unfold sliceFrom, slice, clampIndex. cbv zeta.
    change (0 <? 0) with false. cbv iota.
    destruct (Z.of_nat (String.length address) <? 0) eqn:Hneg;
      [ apply Z.ltb_lt in Hneg; lia | ].
    rewrite !Z.min_l by lia.
    destruct (0 <? Z.of_nat (String.length address)) eqn:Hpos;
      [ | apply Z.ltb_ge in Hpos; lia ].
    rewrite Z.sub_0_r, Nat2Z.id. apply take_all. simpl. lia.
Qed.

(** X4: for [maxLength >= 3], [truncate] returns a text of at most
    [maxLength] characters: the text itself when it fits, and otherwise
    its first [maxLength - 3] characters followed by "...". *)
Theorem truncate_bound (text : string) (maxLength : Z) :
  3 <= maxLength ->
  Z.of_nat (String.length (truncate text maxLength))
  = Z.min (Z.of_nat (String.length text)) maxLength
  /\ (Z.of_nat (String.length text) <= maxLength -> truncate text maxLength = text)
  /\ (maxLength < Z.of_nat (String.length text) ->
      truncate text maxLength = take (Z.to_nat (maxLength - 3)) text ++ "...").
Proof.
  intro Hmax. unfold truncate.
  destruct (Z.of_nat (String.length text) <=? maxLength) eqn:Hle.
  - apply Z.leb_le in Hle. repeat split; try reflexivity; lia.
  - apply Z.leb_gt in Hle. rewrite slice_prefix by lia.
    split; [ | split; [ lia | reflexivity ] ].
    rewrite length_append, length_take. simpl String.length. lia.
Qed.

(** ** Times *)

(** X5: [formatTimestamp] says "Just now" for every time stamp less than a
    minute old, those in the future included; it says "0mo ago" for an age
    of 28 or 29 days, which is four weeks and not yet a month of 30 days,
    and "0y ago" for an age of 360 to 364 days, which is twelve such months
    and not yet a year. *)
Theorem formatTimestamp_gaps (timestamp now : Z) :
  (now - timestamp < 60000 -> formatTimestamp timestamp now = "Just now")
  /\ (28 * 86400000 <= now - timestamp < 30 * 86400000 ->
      formatTimestamp timestamp now = "0mo ago")
  /\ (360 * 86400000 <= now - timestamp < 365 * 86400000 ->
      formatTimestamp timestamp now = "0y ago").
Proof.
  unfold formatTimestamp, relativeTime. cbv zeta.
  set (diff := now - timestamp).
  split; [ | split ].
  - intro H.
    assert (Hm : diff / 60000 < 1) by (apply Z.div_lt_upper_bound; lia).
    apply Z.ltb_lt in Hm. rewrite Hm. reflexivity.
  - intros [Hlo Hhi].
    assert (H1 : 1 <= diff / 60000) by (apply Z.div_le_lower_bound; lia).
    assert (H2 : 60 <= diff / 60000) by (apply Z.div_le_lower_bound; lia).
    assert (H3 : 24 <= diff / 3600000) by (apply Z.div_le_lower_bound; lia).
    assert (H4 : 7 <= diff / 86400000) by (apply Z.div_le_lower_bound; lia).
    assert (H5 : 4 <= diff / 604800000) by (apply Z.div_le_lower_bound; lia).
    assert (H6 : diff / 2592000000 = 0) by (apply Z.div_small; lia).
    repeat match goal with
           | |- context [?a <? ?b] =>
               first [ replace (a <? b) with false by (symmetry; apply Z.ltb_ge; lia)
                     | replace (a <? b) with true by (symmetry; apply Z.ltb_lt; lia) ]
           end.
    rewrite H6. reflexivity.
  - intros [Hlo Hhi].
    assert (H1 : 1 <= diff / 60000) by (apply Z.div_le_lower_bound; lia).
    assert (H2 : 60 <= diff / 60000) by (apply Z.div_le_lower_bound; lia).
    assert (H3 : 24 <= diff / 3600000) by (apply Z.div_le_lower_bound; lia).
    assert (H4 : 7 <= diff / 86400000) by (apply Z.div_le_lower_bound; lia).
    assert (H5 : 4 <= diff / 604800000) by (apply Z.div_le_lower_bound; lia).
    assert (H6 : 12 <= diff / 2592000000) by (apply Z.div_le_lower_bound; lia).
    assert (H7 : diff / 31536000000 = 0) by (apply Z.div_small; lia).
    repeat match goal with
           | |- context [?a <? ?b] =>
               first [ replace (a <? b) with false by (symmetry; apply Z.ltb_ge; lia)
                     | replace (a <? b) with true by (symmetry; apply Z.ltb_lt; lia) ]
           end.
    rewrite H7. reflexivity.
Qed.

(** ** Arrays *)

Lemma existsb_eqb_In (x : string) (l : list string) :
  existsb (String.eqb x) l = true <-> In x l.
Proof.
  rewrite existsb_exists. split.
  - intros [y [Hin Heq]]. apply String.eqb_eq in Heq. subst. exact Hin.
  - intro Hin. exists x. split; [ exact Hin | apply String.eqb_refl ].
Qed.

Lemma uniqueFrom_spec (seen array : list string) :
  NoDup seen ->
  NoDup (uniqueFrom seen array)
  /\ (forall x, In x (uniqueFrom seen array) <-> In x seen \/ In x array)
  /\ exists added, uniqueFrom seen array = (rev seen ++ added)%list.
Proof.
  revert seen. induction array as [|y rest IH]; intros seen Hnd; simpl.
  - split; [ | split ].
    + apply NoDup_rev. exact Hnd.
    + intro x. rewrite <- in_rev. tauto.
    + exists []. rewrite app_nil_r. reflexivity.
  - destruct (existsb (String.eqb y) seen) eqn:Hy.
    + apply existsb_eqb_In in Hy.
      destruct (IH seen Hnd) as [H1 [H2 H3]]. split; [ exact H1 | split ].
      * intro x. rewrite H2. split; [ tauto | ].
        intros [H|[<-|H]]; tauto.
      * exact H3.
    + assert (Hnin : ~ In y seen).
      { intro Hin. apply existsb_eqb_In in Hin. congruence. }
      destruct (IH (y :: seen) (NoDup_cons y Hnin Hnd)) as [H1 [H2 [added H3]]].
      split; [ exact H1 | split ].
      * intro x. rewrite H2. simpl. tauto.
      * exists (y :: added). rewrite H3. simpl. rewrite <- app_assoc.
        reflexivity.
Qed.

Lemma uniqueFrom_NoDup (seen array : list string) :
  NoDup (rev seen ++ array) ->
  uniqueFrom seen array = (rev seen ++ array)%list.
Proof.
  revert seen. induction array as [|y rest IH]; intros seen Hnd; simpl.
  - rewrite app_nil_r. reflexivity.
  - assert (Hnin : ~ In y seen).
    { intro Hin. apply NoDup_remove_2 in Hnd. apply Hnd.
      apply in_or_app. left. apply in_rev in Hin. exact Hin. }
    destruct (existsb (String.eqb y) seen) eqn:Hy;
      [ apply existsb_eqb_In in Hy; contradiction | ].
    rewrite IH; simpl; rewrite <- app_assoc; [ reflexivity | exact Hnd ].
Qed.

(** X6: [unique] returns the values of the array, each once; applied to an
    array without repetition, and so to its own result, it changes
    nothing. *)
Theorem unique_spec (array : list string) :
  NoDup (unique array)
  /\ (forall x, In x (unique array) <-> In x array)
  /\ (NoDup array -> unique array = array)
  /\ unique (unique array) = unique array.
Proof.
  destruct (uniqueFrom_spec [] array (NoDup_nil _)) as [H1 [H2 _]].
  assert (H3 : forall l, NoDup l -> unique l = l).
  { intros l Hl. unfold unique. rewrite uniqueFrom_NoDup; [ reflexivity | exact Hl ]. }
  split; [ exact H1 | split; [ | split ] ].
  - intro x. unfold unique. rewrite H2. simpl. tauto.
  - apply H3.
  - apply H3. exact H1.
Qed.

Lemma formatAddress_shape_witness :
  formatAddress Examples.someAddress 6 4 = "0x1234...7890"
  /\ formatAddress Examples.someAddress 6 0
     = ("0x1234..." ++ Examples.someAddress)%string.
Proof.
  split.
  - destruct (formatAddress_shape Examples.someAddress 6 4) as [H _];
      [ lia | lia | vm_compute; reflexivity | ].
    destruct H as [H _]; [ lia | ]. rewrite H. vm_compute. reflexivity.
  - destruct (formatAddress_shape Examples.someAddress 6 0) as [_ H];
      [ lia | lia | vm_compute; reflexivity | ].
    rewrite H by reflexivity. vm_compute. reflexivity.
Defined.

Lemma truncate_bound_witness :
  truncate "Send fifty dollars to Alice" 10 = "Send fi...".
Proof.
  destruct (truncate_bound "Send fifty dollars to Alice" 10) as [_ [_ H]];
    [ lia | ].
  rewrite H by (vm_compute; reflexivity). vm_compute. reflexivity.
Defined.

Lemma formatTimestamp_gaps_witness :
  formatTimestamp 1000 0 = "Just now"
  /\ formatTimestamp 0 (29 * 86400000) = "0mo ago"
  /\ formatTimestamp 0 (364 * 86400000) = "0y ago".
Proof.
  split; [ | split ].
  - apply (formatTimestamp_gaps 1000 0). lia.
  - apply (formatTimestamp_gaps 0 (29 * 86400000)). lia.
  - apply (formatTimestamp_gaps 0 (364 * 86400000)). lia.
Defined.

Lemma unique_spec_witness :
  unique ["send"; "pay"; "send"] = ["send"; "pay"]
  /\ unique ["send"; "pay"] = ["send"; "pay"].
Proof.
  split; [ vm_compute; reflexivity | ].
  apply (proj1 (proj2 (proj2 (unique_spec ["send"; "pay"])))).
  repeat constructor; simpl; intuition discriminate.
Defined.

End UtilsFacts.

(* ================================================================== *)
(** * More on [lib/api/validation.ts]                                  *)
(* ================================================================== *)

Module RateLimitFacts.
Import ValidationMore.

(** A call that finds a live entry. *)
Lemma checkRateLimit_live identifier maxRequests windowMs now m e :
  m identifier = Some e -> now <= resetTime e ->
  allowed (fst (checkRateLimit identifier maxRequests windowMs now m))
  = (count e <? maxRequests)
  /\ snd (checkRateLimit identifier maxRequests windowMs now m) identifier
     = Some (if count e <? maxRequests
             then mkRateEntry (count e + 1) (resetTime e) else e).
Proof.
  intros Hm Hlive. unfold checkRateLimit. rewrite Hm.
  destruct (resetTime e <? now) eqn:Hexp; [ apply Z.ltb_lt in Hexp; lia | ].
  cbv zeta. rewrite Hm. rewrite Z.leb_antisym.
  destruct (count e <? maxRequests); simpl.
  - unfold rateSet. rewrite String.eqb_refl. split; reflexivity.
  - split; [ reflexivity | exact Hm ].
Qed.

(** A call that finds no entry, or one whose window is over. *)
Lemma checkRateLimit_fresh identifier maxRequests windowMs now m :
  (m identifier = None
   \/ exists e, m identifier = Some e /\ resetTime e < now) ->
  fst (checkRateLimit identifier maxRequests windowMs now m)
  = (if 0 <? maxRequests
     then mkRateResult true (maxRequests - 1) (now + windowMs)
     else mkRateResult false 0 (now + windowMs))
  /\ snd (checkRateLimit identifier maxRequests windowMs now m) identifier
     = (if 0 <? maxRequests then Some (mkRateEntry 1 (now + windowMs))
        else None).
Proof.
  intros Hm. unfold checkRateLimit.
  set (m1 := match m identifier with
             | Some limit => if resetTime limit <? now
                             then rateDelete identifier m else m
             | None => m
             end).
  assert (Hm1 : m1 identifier = None).
  { subst m1. destruct Hm as [Hm | [e [Hm Hexp]]]; rewrite Hm.
    - exact Hm.
    - apply Z.ltb_lt in Hexp. rewrite Hexp. unfold rateDelete.
      rewrite String.eqb_refl. reflexivity. }
  cbv zeta. rewrite Hm1. simpl count. simpl resetTime.
  rewrite Z.leb_antisym.
  destruct (0 <? maxRequests); simpl.
  - unfold rateSet. rewrite String.eqb_refl. split; reflexivity.
  - split; [ reflexivity | exact Hm1 ].
Qed.

Lemma map_const {A B : Type} (b : B) (l : list A) :
  map (fun _ => b) l = repeat b (List.length l).
Proof. induction l as [|a l IH]; simpl; [ | rewrite IH ]; reflexivity. Qed.

Lemma checkAll_cons identifier maxRequests windowMs now rest m :
  fst (checkAll identifier maxRequests windowMs (now :: rest) m)
  = allowed (fst (checkRateLimit identifier maxRequests windowMs now m))
    :: fst (checkAll identifier maxRequests windowMs rest
              (snd (checkRateLimit identifier maxRequests windowMs now m))).
Proof.
  simpl.
  destruct (checkRateLimit identifier maxRequests windowMs now m) as [r m'].
  simpl fst. simpl snd.
  destruct (checkAll identifier maxRequests windowMs rest m') as [rs m''].
  reflexivity.
Qed.

(** Calls inside the window of a live entry. *)
Lemma checkAll_live identifier maxRequests windowMs times :
  forall m e,
    m identifier = Some e ->
    Forall (fun now => now <= resetTime e) times ->
    fst (checkAll identifier maxRequests windowMs times m)
    = map (fun k => count e + Z.of_nat k <? maxRequests)
          (seq 0 (List.length times)).
Proof.
  induction times as [|now rest IH]; intros m e Hm Hall.
  - reflexivity.
  - rewrite checkAll_cons. inversion Hall as [|? ? Hnow Hrest]; subst.
    destruct (checkRateLimit_live identifier maxRequests windowMs now m e Hm Hnow)
      as [Ha Hm'].
    rewrite Ha. simpl List.length. simpl seq. simpl map.
    rewrite Z.add_0_r. f_equal.
    rewrite <- seq_shift, map_map.
    destruct (count e <? maxRequests) eqn:Hc.
    + rewrite (IH _ _ Hm'); [ | exact Hrest ]. simpl count.
      apply map_ext. intro k. f_equal. lia.
    + rewrite (IH _ _ Hm' Hrest).
      apply map_ext. intro k. apply Z.ltb_ge in Hc.
      transitivity false; [ | symmetry ]; apply Z.ltb_ge; lia.
Qed.

(** With a limit that is not positive no call is allowed and no entry is
    made. *)
Lemma checkAll_closed identifier maxRequests windowMs times :
  maxRequests <= 0 ->
  forall m,
    m identifier = None ->
    fst (checkAll identifier maxRequests windowMs times m)
    = map (fun _ => false) times.
Proof.
  intro Hmax. induction times as [|now rest IH]; intros m Hm.
  - reflexivity.
  - rewrite checkAll_cons.
    destruct (checkRateLimit_fresh identifier maxRequests windowMs now m
                (or_introl Hm)) as [Hr Hm'].
    assert (H0 : (0 <? maxRequests) = false) by (apply Z.ltb_ge; lia).
    rewrite H0 in Hr, Hm'. rewrite Hr. simpl. f_equal. apply IH. exact Hm'.
Qed.

(** X7: of the calls of [checkRateLimit] made for one identifier within one
    window, which the first call opens when it finds no entry or an expired
    one, exactly the first [maxRequests] are allowed. *)
Theorem checkRateLimit_window identifier maxRequests windowMs first rest m :
  (m identifier = None
   \/ exists e, m identifier = Some e /\ resetTime e < first) ->
  Forall (fun now => now <= first + windowMs) rest ->
  fst (checkAll identifier maxRequests windowMs (first :: rest) m)
  = map (fun k => Z.of_nat k <? maxRequests) (seq 0 (S (List.length rest))).
Proof.
  intros Hm Hall. rewrite checkAll_cons.
  destruct (checkRateLimit_fresh identifier maxRequests windowMs first m Hm)
    as [Hr Hm'].
  simpl seq. simpl map. rewrite <- seq_shift, map_map.
  destruct (0 <? maxRequests) eqn:Hpos.
  - rewrite Hr. simpl allowed. f_equal.
    rewrite (checkAll_live _ _ _ _ _ _ Hm' Hall). simpl count.
    apply map_ext. intro k. f_equal. lia.
  - rewrite Hr. simpl allowed. f_equal.
    apply Z.ltb_ge in Hpos.
    rewrite (checkAll_closed _ _ _ _ Hpos _ Hm').
    rewrite (map_ext (fun x => Z.of_nat (S x) <? maxRequests) (fun _ => false))
      by (intro k; apply Z.ltb_ge; lia).
    rewrite !map_const, length_seq. reflexivity.
Qed.

(** X8: what one call of [checkRateLimit] answers and leaves, for a window
    that is not negative.  The reset time it reports is not in the past;
    an allowed call reports what is left of the limit; a refused call
    reports nothing left; and the entries of the other identifiers are
    untouched.  Against the entry [e] found before the call, in its window:
    the call is allowed exactly when [count e] is below the limit, and then
    it stores [count e + 1] under the same reset time and reports
    [maxRequests - (count e + 1)]; refused, it leaves [e] as it was.  When
    no entry is found, or one whose window is over: the call is allowed
    exactly when the limit is positive, and then it stores the count 1 with
    the reset time [now + windowMs]; refused, it leaves no entry. *)
Theorem checkRateLimit_result identifier maxRequests windowMs now m :
  0 <= windowMs ->
  let r := fst (checkRateLimit identifier maxRequests windowMs now m) in
  let m' := snd (checkRateLimit identifier maxRequests windowMs now m) in
  now <= resultResetTime r
  /\ (allowed r = true ->
      0 <= remaining r
      /\ m' identifier
         = Some (mkRateEntry (maxRequests - remaining r) (resultResetTime r)))
  /\ (allowed r = false -> remaining r = 0)
  /\ (forall other, other <> identifier -> m' other = m other)
  /\ (forall e, m identifier = Some e -> now <= resetTime e ->
      allowed r = (count e <? maxRequests)
      /\ resultResetTime r = resetTime e
      /\ (allowed r = true ->
          remaining r = maxRequests - (count e + 1)
          /\ m' identifier = Some (mkRateEntry (count e + 1) (resetTime e)))
      /\ (allowed r = false -> m' identifier = Some e))
  /\ ((m identifier = None
       \/ exists e, m identifier = Some e /\ resetTime e < now) ->
      allowed r = (0 <? maxRequests)
      /\ resultResetTime r = now + windowMs
      /\ (allowed r = true ->
          remaining r = maxRequests - 1
          /\ m' identifier = Some (mkRateEntry 1 (now + windowMs)))
      /\ (allowed r = false -> m' identifier = None)).
Proof.
  intros Hwin r m'. subst r m'.
  split; [ | split; [ | split; [ | split; [ | split ] ] ] ].
  6: { intro Hm. unfold checkRateLimit.
       set (m1 := match m identifier with
                  | Some limit => if resetTime limit <? now
                                  then rateDelete identifier m else m
                  | None => m
                  end).
       assert (Hm1 : m1 identifier = None).
       { subst m1. destruct Hm as [Hm | [e [Hm Hexp]]]; rewrite Hm.
         - exact Hm.
         - apply Z.ltb_lt in Hexp. rewrite Hexp. unfold rateDelete.
           rewrite String.eqb_refl. reflexivity. }
       cbv zeta. rewrite Hm1. simpl count. simpl resetTime.
       rewrite Z.leb_antisym.
       destruct (0 <? maxRequests); simpl.
       - unfold rateSet. rewrite String.eqb_refl.
         repeat split; try reflexivity; try discriminate; lia.
       - repeat split; try reflexivity; try discriminate.
         intros _. exact Hm1. }
  5: { intros e Hm Hlive. unfold checkRateLimit. rewrite Hm.
       destruct (resetTime e <? now) eqn:Hexp;
         [ apply Z.ltb_lt in Hexp; lia | ].
       cbv zeta. rewrite Hm. rewrite Z.leb_antisym.
       destruct (count e <? maxRequests); simpl.
       - unfold rateSet. rewrite String.eqb_refl.
         repeat split; try reflexivity; try discriminate.
       - repeat split; try reflexivity; try discriminate.
         intros _. exact Hm. }
  all: unfold checkRateLimit;
    set (m1 := match m identifier with
               | Some limit => if resetTime limit <? now
                               then rateDelete identifier m else m
               | None => m
               end);
    assert (Hother : forall other, other <> identifier -> m1 other = m other)
      by (intros other Hne; subst m1; destruct (m identifier) as [limit|];
          [ | reflexivity ];
          destruct (resetTime limit <? now); [ | reflexivity ];
          unfold rateDelete; apply String.eqb_neq in Hne; rewrite Hne;
          reflexivity);
    assert (Hlive : forall e, m1 identifier = Some e -> now <= resetTime e)
      by (intros e; subst m1; destruct (m identifier) as [limit|] eqn:Hm;
          [ destruct (resetTime limit <? now) eqn:Hexp;
            [ unfold rateDelete; rewrite String.eqb_refl; discriminate
            | rewrite Hm; intro H; injection H as <-;
              apply Z.ltb_ge in Hexp; lia ]
          | rewrite Hm; discriminate ]);
    cbv zeta;
    set (entry := match m1 identifier with
                  | Some e => e
                  | None => mkRateEntry 0 (now + windowMs)
                  end);
    assert (Hentry : now <= resetTime entry)
      by (subst entry; destruct (m1 identifier) as [e|] eqn:He;
          [ apply Hlive; reflexivity | simpl; lia ]);
    destruct (maxRequests <=? count entry) eqn:Hfull; simpl;
    try exact Hentry; try discriminate; try exact Hother;
    try (intros _; reflexivity).
  - apply Z.leb_gt in Hfull. intros _. split; [ lia | ]. unfold rateSet.
    rewrite String.eqb_refl. do 2 f_equal. lia.
  - intros other Hne. unfold rateSet.
    destruct (String.eqb other identifier) eqn:Heq.
    + apply String.eqb_eq in Heq. contradiction.
    + apply Hother. exact Hne.
Qed.

Lemma checkRateLimit_window_witness :
  fst (checkAll "10.0.0.1" 2 60000 [1000; 2000; 61000] emptyRateMap)
  = [true; true; false].
Proof.
  apply (checkRateLimit_window "10.0.0.1" 2 60000 1000 [2000; 61000]
           emptyRateMap).
  - left. reflexivity.
  - repeat constructor; lia.
Defined.

(** X8 at a second request inside the window opened by a first one, and at
    a first request. *)
Lemma checkRateLimit_result_witness :
  snd (checkRateLimit "10.0.0.1" 2 60000 2000 MoreExamples.oneRequest)
    "10.0.0.1"
  = Some (mkRateEntry 2 61000)
  /\ remaining (fst (checkRateLimit "10.0.0.1" 2 60000 2000
                         MoreExamples.oneRequest)) = 0
  /\ snd (checkRateLimit "10.0.0.1" 2 60000 1000 emptyRateMap) "10.0.0.1"
     = Some (mkRateEntry 1 61000)
  /\ snd (checkRateLimit "10.0.0.1" 2 60000 1000 emptyRateMap) "10.0.0.2"
     = None.
Proof.
  pose proof (checkRateLimit_result "10.0.0.1" 2 60000 2000
                MoreExamples.oneRequest) as H.
  cbv zeta in H.
  destruct H as [_ [_ [_ [_ [H5 _]]]]]; [ lia | ].
  destruct (H5 (mkRateEntry 1 61000) eq_refl) as [Ha [_ [Hyes _]]];
    [ simpl; lia | ].
  destruct (Hyes Ha) as [Hrem Hm'].
  pose proof (checkRateLimit_result "10.0.0.1" 2 60000 1000 emptyRateMap) as K.
  cbv zeta in K.
  destruct K as [_ [_ [_ [K4 [_ K6]]]]]; [ lia | ].
  destruct (K6 (or_introl eq_refl)) as [Kb [_ [Kyes _]]].
  destruct (Kyes Kb) as [_ Km'].
  split; [ exact Hm' | split; [ exact Hrem | split; [ exact Km' | ] ] ].
  apply (K4 "10.0.0.2"). discriminate.
Defined.

End RateLimitFacts.

(* ================================================================== *)
(** * Addresses and names in a command                                 *)
(* ================================================================== *)

Module RecipientFacts.
Import JSNumber Types Nlp ValidationMore.

Lemma startsWith_split (p s : string) :
  JS.startsWith p s = true -> s = p ++ JS.drop (String.length p) s.
Proof.
  revert s. induction p as [|a p IH]; intros s H; [ reflexivity | ].
  destruct s as [|b s]; [ discriminate | ]. simpl in H.
  apply andb_true_iff in H. destruct H as [Hab Hp].
  apply Ascii.eqb_eq in Hab. subst b. simpl. f_equal. apply IH. exact Hp.
Qed.

Lemma startsWith_append (p rest : string) : JS.startsWith p (p ++ rest) = true.
Proof.
  induction p as [|a p IH]; [ reflexivity | ]. simpl.
  rewrite Ascii.eqb_refl. exact IH.
Qed.

Lemma append_assoc (a b c : string) : (a ++ b) ++ c = a ++ (b ++ c).
Proof. induction a as [|x a IH]; simpl; [ | rewrite IH ]; reflexivity. Qed.

(** What [hexRun] returns is the head of its argument, [n] characters
    long, and is matched as a whole wherever it is followed by more. *)
Lemma hexRun_sound (n : nat) (s h : string) :
  hexRun n s = Some h ->
  String.length h = n
  /\ (exists rest, s = h ++ rest)
  /\ forall rest, hexRun n (h ++ rest) = Some h.
Proof.
  revert s h. induction n as [|n IH]; intros s h H; simpl in H.
  - injection H as <-. split; [ reflexivity | split ].
    + exists s. reflexivity.
    + reflexivity.
  - destruct s as [|c r]; [ discriminate | ].
    destruct (JS.isHex c) eqn:Hc; [ | discriminate ].
    destruct (hexRun n r) as [h'|] eqn:Hr; [ | discriminate ].
    injection H as <-. destruct (IH _ _ Hr) as [Hl [[rest Hrest] Hext]].
    split; [ simpl; rewrite Hl; reflexivity | split ].
    + exists rest. simpl. rewrite <- Hrest. reflexivity.
    + intro t. simpl. rewrite Hc, Hext. reflexivity.
Qed.

(** [/^0x[a-fA-F0-9]{n}$/] holds of "0x" followed by exactly [n]
    hexadecimal digits. *)
Lemma isPrefixedHex_iff (n : nat) (s : string) :
  isPrefixedHex n s = true
  <-> exists h, s = "0x" ++ h /\ hexRun n h = Some h.
Proof.
  unfold isPrefixedHex. split.
  - intro H. apply andb_true_iff in H. destruct H as [Hp Hh].
    apply startsWith_split in Hp. simpl String.length in Hp.
    destruct (hexRun n (JS.drop 2 s)) as [h|] eqn:Hr; [ | discriminate ].
    apply Nat.eqb_eq in Hh.
    destruct (hexRun_sound _ _ _ Hr) as [Hl [[rest Hrest] Hext]].
    assert (rest = "").
    { rewrite Hp, Hrest in Hh. simpl in Hh.
      rewrite UtilsFacts.length_append in Hh.
      destruct rest; [ reflexivity | simpl in Hh; lia ]. }
    subst rest. exists h. split.
    + rewrite Hp at 1. rewrite Hrest. 
      replace (h ++ "") with h; [ reflexivity | ].
      clear. induction h; simpl; [ | rewrite <- IHh ]; reflexivity.
    + specialize (Hext ""). 
      replace (h ++ "") with h in Hext; [ exact Hext | ].
      clear. induction h; simpl; [ | rewrite <- IHh ]; reflexivity.
  - intros [h [-> Hh]]. simpl JS.startsWith. simpl JS.drop. rewrite Hh.
    destruct (hexRun_sound _ _ _ Hh) as [Hl _]. simpl String.length.
    rewrite Hl. simpl. apply Nat.eqb_refl.
Qed.

(** What [addressMatch] finds is an address, and it stands in the text. *)
Lemma addressMatch_sound (s a : string) :
  addressMatch s = Some a ->
  isPrefixedHex 40 a = true /\ exists pre post, s = pre ++ a ++ post.
Proof.
  induction s as [|c r IH].
  - simpl. discriminate.
  - intro H. 
    change (addressMatch (String c r))
      with (match (if JS.startsWith "0x" (String c r)
                   then hexRun 40 (JS.drop 2 (String c r)) else None) with
            | Some h => Some ("0x" ++ h)
            | None => addressMatch r
            end) in H.
    destruct (JS.startsWith "0x" (String c r)) eqn:Hp.
    + destruct (hexRun 40 (JS.drop 2 (String c r))) as [h|] eqn:Hh.
      * injection H as <-.
        destruct (hexRun_sound _ _ _ Hh) as [_ [[rest Hrest] Hext]].
        split.
        -- apply isPrefixedHex_iff. exists h. split; [ reflexivity | ].
           specialize (Hext "").
           replace (h ++ "") with h in Hext; [ exact Hext | ].
           clear. induction h; simpl; [ | rewrite <- IHh ]; reflexivity.
        -- exists "", rest. apply startsWith_split in Hp.
           simpl String.length in Hp. rewrite Hp at 1. rewrite Hrest.
           reflexivity.
      * destruct (IH H) as [Hv [pre [post Hs]]]. split; [ exact Hv | ].
        exists (String c pre), post. simpl. rewrite <- Hs. reflexivity.
    + destruct (IH H) as [Hv [pre [post Hs]]]. split; [ exact Hv | ].
      exists (String c pre), post. simpl. rewrite <- Hs. reflexivity.
Qed.

(** Where an address stands in the text, [addressMatch] finds one that
    begins no later. *)
Lemma addressMatch_complete (pre a post : string) :
  isPrefixedHex 40 a = true ->
  exists a' pre' post',
    addressMatch (pre ++ a ++ post) = Some a'
    /\ pre ++ a ++ post = pre' ++ a' ++ post'
    /\ (String.length pre' <= String.length pre)%nat.
Proof.
  intro Ha. apply isPrefixedHex_iff in Ha. destruct Ha as [h [-> Hh]].
  destruct (hexRun_sound _ _ _ Hh) as [_ [_ Hext]].
  induction pre as [|c pre IH].
  - exists ("0x" ++ h), "", post. split; [ | split; [ reflexivity | lia ] ].
    simpl append. 
    change (addressMatch (String "0" (String "x" (h ++ post))))
      with (match hexRun 40 (h ++ post) with
            | Some h => Some ("0x" ++ h)
            | None => addressMatch (String "x" (h ++ post))
            end).
    rewrite Hext. reflexivity.
  - destruct IH as [a' [pre' [post' [Hm [Hs Hl]]]]].
    set (s := pre ++ ("0x" ++ h) ++ post) in *.
    change (String c pre ++ ("0x" ++ h) ++ post) with (String c s).
    destruct (addressMatch (String c s)) as [b|] eqn:Hb.
    + destruct (JS.startsWith "0x" (String c s)) eqn:Hp.
      * destruct (hexRun 40 (JS.drop 2 (String c s))) as [h'|] eqn:Hh'.
        -- assert (Hb' : b = "0x" ++ h').
           { change (addressMatch (String c s))
               with (match (if JS.startsWith "0x" (String c s)
                            then hexRun 40 (JS.drop 2 (String c s)) else None)
                     with
                     | Some h => Some ("0x" ++ h)
                     | None => addressMatch s
                     end) in Hb.
             rewrite Hp, Hh' in Hb. injection Hb as <-. reflexivity. }
           destruct (hexRun_sound _ _ _ Hh') as [_ [[rest Hrest] _]].
           exists b, "", rest. split; [ reflexivity | split ].
           ++ apply startsWith_split in Hp. simpl String.length in Hp.
              rewrite Hp at 1. rewrite Hrest, Hb'. reflexivity.
           ++ simpl. lia.
        -- change (addressMatch (String c s))
             with (match (if JS.startsWith "0x" (String c s)
                          then hexRun 40 (JS.drop 2 (String c s)) else None)
                   with
                   | Some h => Some ("0x" ++ h)
                   | None => addressMatch s
                   end) in Hb.
           rewrite Hp, Hh' in Hb. rewrite Hm in Hb. injection Hb as <-.
           exists a', (String c pre'), post'.
           split; [ reflexivity | split ].
           ++ simpl. rewrite <- Hs. reflexivity.
           ++ simpl. lia.
      * change (addressMatch (String c s))
          with (match (if JS.startsWith "0x" (String c s)
                       then hexRun 40 (JS.drop 2 (String c s)) else None)
                with
                | Some h => Some ("0x" ++ h)
                | None => addressMatch s
                end) in Hb.
        rewrite Hp in Hb. rewrite Hm in Hb. injection Hb as <-.
        exists a', (String c pre'), post'.
        split; [ reflexivity | split ].
        -- simpl. rewrite <- Hs. reflexivity.
        -- simpl. lia.
    + exfalso.
      change (addressMatch (String c s))
        with (match (if JS.startsWith "0x" (String c s)
                     then hexRun 40 (JS.drop 2 (String c s)) else None)
              with
              | Some h => Some ("0x" ++ h)
              | None => addressMatch s
              end) in Hb.
      destruct (if JS.startsWith "0x" (String c s)
                then hexRun 40 (JS.drop 2 (String c s)) else None);
        [ discriminate | ].
      rewrite Hm in Hb. discriminate.
Qed.

(** The recipient the fallback takes from a text that is neither a query,
    a cancellation nor a split. *)
Lemma fallback_recipient (text : string) :
  In (action (extractIntentFallback text)) ["send"; "pay_bill"] ->
  recipient (extractIntentFallback text)
  = match addressMatch text with
    | Some a => Some a
    | None => firstKeywordWord ["to"; "for"] text
    end.
Proof.
  unfold extractIntentFallback.
  destruct (JS.includes (JS.toLowerCase text) "balance"
            || JS.includes (JS.toLowerCase text) "how much")%bool;
    [ simpl; intuition discriminate | ].
  destruct (JS.includes (JS.toLowerCase text) "history"
            || JS.includes (JS.toLowerCase text) "transaction")%bool;
    [ simpl; intuition discriminate | ].
  destruct (JS.includes (JS.toLowerCase text) "cancel");
    [ simpl; intuition discriminate | ].
  destruct (JS.includes (JS.toLowerCase text) "split");
    [ simpl; intuition discriminate | ].
  destruct (JS.includes (JS.toLowerCase text) "send"
            || JS.includes (JS.toLowerCase text) "transfer"
            || JS.includes (JS.toLowerCase text) "pay")%bool;
    intros _; reflexivity.
Qed.

(** X9: when a command holds an address, "0x" and forty hexadecimal
    digits, [extractRecipientFromCommand] returns such an address of the
    command, one that begins no later than the given one; the names after
    "to" and "for" are not looked at; and the fallback extractor gives the
    same recipient to its [send] and [pay_bill] intents. *)
Theorem extractRecipient_address (pre a post : string) :
  demoIsValidAddress a = true ->
  exists a' pre' post',
    extractRecipientFromCommand (pre ++ a ++ post) = Some a'
    /\ demoIsValidAddress a' = true
    /\ String.length a' = 42%nat
    /\ pre ++ a ++ post = pre' ++ a' ++ post'
    /\ (String.length pre' <= String.length pre)%nat
    /\ (In (action (extractIntentFallback (pre ++ a ++ post)))
           ["send"; "pay_bill"] ->
        recipient (extractIntentFallback (pre ++ a ++ post)) = Some a').
Proof.
  intro Ha. unfold demoIsValidAddress in *.
  destruct (addressMatch_complete pre a post Ha)
    as [a' [pre' [post' [Hm [Hs Hl]]]]].
  destruct (addressMatch_sound _ _ Hm) as [Hv _].
  exists a', pre', post'.
  split; [ unfold extractRecipientFromCommand; rewrite Hm; reflexivity | ].
  split; [ exact Hv | ].
  split.
  { unfold isPrefixedHex in Hv. apply andb_true_iff in Hv.
    destruct Hv as [_ Hv].
    destruct (hexRun 40 (JS.drop 2 a')); [ | discriminate ].
    apply Nat.eqb_eq in Hv. exact Hv. }
  split; [ exact Hs | split; [ exact Hl | ] ].
  intro Hact. rewrite (fallback_recipient _ Hact), Hm. reflexivity.
Qed.

Lemma extractRecipient_address_witness :
  exists a' pre' post',
    extractRecipientFromCommand
      ("Send 50 USDC to " ++ Examples.someAddress ++ " now") = Some a'
    /\ demoIsValidAddress a' = true
    /\ String.length a' = 42%nat
    /\ "Send 50 USDC to " ++ Examples.someAddress ++ " now"
       = pre' ++ a' ++ post'
    /\ (String.length pre' <= String.length "Send 50 USDC to ")%nat
    /\ (In (action (extractIntentFallback
                      ("Send 50 USDC to " ++ Examples.someAddress ++ " now")))
           ["send"; "pay_bill"] ->
        recipient (extractIntentFallback
                     ("Send 50 USDC to " ++ Examples.someAddress ++ " now"))
        = Some a').
Proof.
  apply (extractRecipient_address "Send 50 USDC to " Examples.someAddress
           " now").
  vm_compute. reflexivity.
Defined.

End RecipientFacts.

(* ================================================================== *)
(** * More on the fallback extractor of [pages/api/nlp.ts]            *)
(* ================================================================== *)

Module FallbackShape.
Import JSNumber Types Nlp ValidationMore NlpView.

Lemma span_spec (cls : ascii -> bool) (s : string) :
  Forall (fun c => cls c = true) (list_ascii_of_string (fst (JS.span cls s)))
  /\ s = fst (JS.span cls s) ++ snd (JS.span cls s).
Proof.
  induction s as [|c r IH]; simpl.
  - split; [ constructor | reflexivity ].
  - destruct (cls c) eqn:Hc; simpl.
    + destruct (JS.span cls r) as [a b]. simpl in *. destruct IH as [Ha Hs].
      split; [ constructor; assumption | rewrite <- Hs; reflexivity ].
    + split; [ constructor | reflexivity ].
Qed.

Lemma keywordThenWord_name (keywords : list string) (s w : string) (n : nat) :
  keywordThenWord keywords s = Some (w, n) -> isName w.
Proof.
  induction keywords as [|kw others IH]; simpl; [ discriminate | ].
  destruct (JS.startsWithCI kw s); [ | exact IH ].
  destruct (JS.span JS.isSpace (JS.drop (String.length kw) s)) as [spaces r].
  pose proof (span_spec JS.isWord r) as [Hw _].
  destruct (JS.span JS.isWord r) as [word rest]. simpl in Hw.
  destruct spaces as [|sp spaces]; [ exact IH | ].
  destruct word as [|c word]; [ exact IH | ].
  intro H. injection H as <- _. split; [ discriminate | exact Hw ].
Qed.

Lemma allKeywordWords_names (keywords : list string) (s : string) :
  forall skip, Forall isName (allKeywordWords keywords skip s).
Proof.
  induction s as [|c r IH]; intro skip; simpl; [ constructor | ].
  destruct skip as [|k]; [ | apply IH ].
  destruct (keywordThenWord keywords (String c r)) as [[w n]|] eqn:Hk;
    [ | apply IH ].
  constructor; [ exact (keywordThenWord_name _ _ _ _ Hk) | apply IH ].
Qed.

Lemma firstKeywordWord_name (keywords : list string) (s w : string) :
  firstKeywordWord keywords s = Some w -> isName w.
Proof.
  induction s as [|c r IH]; simpl.
  - destruct (keywordThenWord keywords "") as [[w' n]|] eqn:Hk;
      [ | discriminate ].
    intro H. injection H as <-. exact (keywordThenWord_name _ _ _ _ Hk).
  - destruct (keywordThenWord keywords (String c r)) as [[w' n]|] eqn:Hk.
    + intro H. injection H as <-. exact (keywordThenWord_name _ _ _ _ Hk).
    + exact IH.
Qed.

Lemma names_participants (names : list string) :
  Forall isName names ->
  Forall (fun p => isName (identifier p)
                   /\ address p = None /\ participantAmount p = None)
         (map (fun name => mkParticipant name None None) names).
Proof.
  induction 1 as [|w ws Hw _ IH]; simpl; constructor;
    [ split; [ exact Hw | split; reflexivity ] | exact IH ].
Qed.

(** The four forms of a fallback intent. *)
Lemma fallback_forms (text : string) :
  let amt := match amountMatch text with
             | Some m => parseFloat m
             | None => 0%float
             end in
  let names := allKeywordWords ["with"; "and"] O text in
  let to := match addressMatch text with
            | Some a => Some a
            | None => firstKeywordWord ["to"; "for"] text
            end in
  (exists a, In a ["check_balance"; "view_history"]
             /\ extractIntentFallback text
                = fallbackIntent a 0%float None None false text)
  \/ extractIntentFallback text
     = fallbackIntent "cancel" 0%float None None true text
  \/ extractIntentFallback text
     = fallbackIntent "split" amt None
         (match names with
          | [] => None
          | _ => Some (map (fun name => mkParticipant name None None) names)
          end) true text
  \/ (exists a, In a ["send"; "pay_bill"]
                /\ extractIntentFallback text
                   = fallbackIntent a amt to None true text).
Proof.
  intros amt names to. unfold extractIntentFallback.
  destruct (JS.includes (JS.toLowerCase text) "balance"
            || JS.includes (JS.toLowerCase text) "how much")%bool.
  { left. exists "check_balance". split; [ left | ]; reflexivity. }
  destruct (JS.includes (JS.toLowerCase text) "history"
            || JS.includes (JS.toLowerCase text) "transaction")%bool.
  { left. exists "view_history". split; [ right; left | ]; reflexivity. }
  destruct (JS.includes (JS.toLowerCase text) "cancel").
  { right. left. reflexivity. }
  cbv zeta. fold amt. fold names. fold to.
  destruct (JS.includes (JS.toLowerCase text) "split").
  { right. right. left. destruct names; reflexivity. }
  do 3 right.
  destruct (JS.includes (JS.toLowerCase text) "send"
            || JS.includes (JS.toLowerCase text) "transfer"
            || JS.includes (JS.toLowerCase text) "pay")%bool.
  - destruct (JS.includes (JS.toLowerCase text) "bill").
    + exists "pay_bill". split; [ right; left | ]; reflexivity.
    + exists "send". split; [ left | ]; reflexivity.
  - exists "send". split; [ left | ]; reflexivity.
Qed.

(** X10: the shape of a fallback intent.  It is in USDC, marked valid,
    without validation errors, and keeps the text.  Only a [send] or a
    [pay_bill] has a recipient, which is an address ("0x" and forty
    hexadecimal digits) or a single word; only a [split] has
    participants, at least one, each a single word with neither address
    nor amount.  The amount is 0 or the first number of the text. *)
Theorem fallback_shape (text : string) :
  let i := extractIntentFallback text in
  currency i = "USDC" /\ isValid i = true /\ validationErrors i = None
  /\ originalCommand i = Some text
  /\ (forall r, recipient i = Some r ->
        In (action i) ["send"; "pay_bill"]
        /\ (isPrefixedHex 40 r = true \/ isName r))
  /\ (forall ps, participants i = Some ps ->
        action i = "split" /\ ps <> []
        /\ Forall (fun p => isName (identifier p)
                            /\ address p = None
                            /\ participantAmount p = None) ps)
  /\ (amount i = 0%float
      \/ exists m, amountMatch text = Some m /\ amount i = parseFloat m).
Proof.
  intro i. subst i.
  assert (Hamt : forall amt,
             amt = match amountMatch text with
                   | Some m => parseFloat m
                   | None => 0%float
                   end ->
             amt = 0%float
             \/ exists m, amountMatch text = Some m /\ amt = parseFloat m).
  { intros amt ->. destruct (amountMatch text) as [m|];
      [ right; exists m; split; reflexivity | left; reflexivity ]. }
  pose proof (fallback_forms text) as H. cbv zeta in H.
  destruct H as [[a [Ha ->]]|[->|[->|[a [Ha ->]]]]]; cbn.
  - repeat split; try discriminate. left. reflexivity.
  - repeat split; try discriminate. left. reflexivity.
  - split; [ reflexivity | ]. split; [ reflexivity | ].
    split; [ reflexivity | ]. split; [ reflexivity | ].
    split; [ discriminate | ]. split; [ | apply Hamt; reflexivity ].
    intros ps Hps. split; [ reflexivity | ].
    pose proof (allKeywordWords_names ["with"; "and"] text O) as Hn.
    destruct (allKeywordWords ["with"; "and"] 0 text) as [|w ws];
      [ discriminate | ].
    injection Hps as <-. split; [ discriminate | ].
    exact (names_participants _ Hn).
  - split; [ reflexivity | ]. split; [ reflexivity | ].
    split; [ reflexivity | ]. split; [ reflexivity | ].
    split; [ | split; [ discriminate | apply Hamt; reflexivity ] ].
    intros r Hr. split; [ exact Ha | ].
    destruct (addressMatch text) as [a'|] eqn:Hm.
    + injection Hr as <-. left.
      exact (proj1 (RecipientFacts.addressMatch_sound _ _ Hm)).
    + right. exact (firstKeywordWord_name _ _ _ Hr).
Qed.

Section WithHost.
Context {eth : Ethers}.
Variable env : ProcessEnv.

(** X11: the fallback extractor under [validatePaymentIntent].  Its
    balance queries, history queries and cancellations are always valid;
    a [send], [split] or [pay_bill] made from a text without a digit has
    amount 0 and is turned down for it; a [send] for which neither an
    address nor a name was found is turned down for the missing
    recipient; and a [split] is turned down unless two names follow "with"
    or "and". *)
Theorem fallback_validated (text : string) :
  let i := extractIntentFallback text in
  let v := Validation.validatePaymentIntent env i in
  (In (action i) ["check_balance"; "view_history"; "cancel"] ->
   Validation.valid v = true)
  /\ (amountMatch text = None ->
      In (action i) ["send"; "split"; "pay_bill"] ->
      amount i = 0%float
      /\ Validation.valid v = false
      /\ In "Amount is required and must be greater than zero"
            (Validation.errors v))
  /\ (action i = "send" -> recipient i = None ->
      Validation.valid v = false
      /\ In "Recipient address is required for send action"
            (Validation.errors v))
  /\ (action i = "split" ->
      (List.length (allKeywordWords ["with"; "and"] O text) < 2)%nat ->
      Validation.valid v = false).
Proof.
  intros i v. subst v i.
  pose proof (fallback_forms text) as H. cbv zeta in H.
  assert (Hinvalid : forall (i : PaymentIntent) e,
             In e (Validation.errors (Validation.validatePaymentIntent env i)) ->
             Validation.valid (Validation.validatePaymentIntent env i) = false).
  { intros i e Hin.
    destruct (Validation.valid (Validation.validatePaymentIntent env i)) eqn:Hv;
      [ | reflexivity ].
    apply ValidationFacts.valid_iff_no_errors in Hv. rewrite Hv in Hin.
    contradiction. }
  destruct H as [[a [Ha ->]]|[->|[->|[a [Ha ->]]]]].
  - split; [ intros _ | split; [ | split ] ].
    + destruct Ha as [<-|[<-|[]]]; reflexivity.
    + intros _ Hin. exfalso. cbn in Hin.
      destruct Ha as [<-|[<-|[]]];
        repeat (destruct Hin as [Hin|Hin]; [ discriminate | ]); contradiction.
    + cbn. intros ->. destruct Ha as [Ha|[Ha|[]]]; discriminate.
    + cbn. intros ->. destruct Ha as [Ha|[Ha|[]]]; discriminate.
  - split; [ intros _; reflexivity | split; [ | split ] ].
    + intros _ Hin. exfalso. cbn in Hin.
      repeat (destruct Hin as [Hin|Hin]; [ discriminate | ]); contradiction.
    + cbn. discriminate.
    + cbn. discriminate.
  - split; [ | split; [ | split ] ].
    + cbn. intros Hin. exfalso.
      repeat (destruct Hin as [Hin|Hin]; [ discriminate | ]); contradiction.
    + intros Hm _. rewrite Hm. split; [ reflexivity | ].
      assert (Hin : In "Amount is required and must be greater than zero"
                      (Validation.errors
                         (Validation.validatePaymentIntent env
                            (fallbackIntent "split" 0%float None
                               (match allKeywordWords ["with"; "and"] 0 text with
                                | [] => None
                                | _ :: _ =>
                                    Some (map (fun name =>
                                                 mkParticipant name None None)
                                            (allKeywordWords ["with"; "and"] 0
                                               text))
                                end) true text)))).
      { rewrite ValidationFacts.errors_by_rule. apply in_or_app. right.
        apply in_or_app. left. unfold Validation.amountErrors.
        cbn. left. reflexivity. }
      split; [ exact (Hinvalid _ _ Hin) | exact Hin ].
    + cbn. discriminate.
    + intros _ Hlen.
      destruct (allKeywordWords ["with"; "and"] 0 text) as [|w [|w' ws]]
        eqn:Hn; [ | | simpl in Hlen; lia ].
      * apply (Hinvalid _ "Participants are required for split action").
        rewrite ValidationFacts.errors_by_rule. apply in_or_app. right.
        apply in_or_app. right. apply in_or_app. right.
        apply in_or_app. left. cbn. left. reflexivity.
      * apply (Hinvalid _ "Split action requires at least 2 participants").
        rewrite ValidationFacts.errors_by_rule. apply in_or_app. right.
        apply in_or_app. right. apply in_or_app. right.
        apply in_or_app. left. cbn. left. reflexivity.
  - split; [ | split; [ | split ] ].
    + cbn. intros Hin. exfalso.
      destruct Ha as [<-|[<-|[]]];
        repeat (destruct Hin as [Hin|Hin]; [ discriminate | ]); contradiction.
    + intros Hm _. rewrite Hm. split; [ reflexivity | ].
      match goal with
      | |- Validation.valid (Validation.validatePaymentIntent env ?i) = false
           /\ _ =>
          assert (Hin : In "Amount is required and must be greater than zero"
                          (Validation.errors
                             (Validation.validatePaymentIntent env i)))
      end.
      { rewrite ValidationFacts.errors_by_rule. apply in_or_app. right.
        apply in_or_app. left. unfold Validation.amountErrors.
        destruct Ha as [<-|[<-|[]]]; cbn; left; reflexivity. }
      split; [ exact (Hinvalid _ _ Hin) | exact Hin ].
    + cbn [action recipient fallbackIntent]. intros -> Hr.
      match goal with
      | |- Validation.valid (Validation.validatePaymentIntent env ?i) = false
           /\ _ =>
          assert (Hin : In "Recipient address is required for send action"
                          (Validation.errors
                             (Validation.validatePaymentIntent env i)))
      end.
      { rewrite ValidationFacts.errors_by_rule. apply in_or_app. right.
        apply in_or_app. right. apply in_or_app. left.
        unfold Validation.recipientErrors.
        cbn [action recipient fallbackIntent]. rewrite Hr.
        left. reflexivity. }
      split; [ exact (Hinvalid _ _ Hin) | exact Hin ].
    + cbn. intros ->. destruct Ha as [Ha|[Ha|[]]]; discriminate.
Qed.

End WithHost.

Lemma fallback_shape_witness :
  In (action (extractIntentFallback "Pay 20 to Alice")) ["send"; "pay_bill"]
  /\ (isPrefixedHex 40 "Alice" = true \/ isName "Alice").
Proof.
  pose proof (fallback_shape "Pay 20 to Alice") as H. cbv zeta in H.
  destruct H as [_ [_ [_ [_ [H _]]]]].
  apply (H "Alice"). vm_compute. reflexivity.
Defined.

Lemma fallback_validated_witness :
  Validation.valid
    (Validation.validatePaymentIntent (eth := Examples.hexOnly) Examples.noEnv
       (extractIntentFallback "Cancel that")) = true
  /\ Validation.valid
       (Validation.validatePaymentIntent (eth := Examples.hexOnly)
          Examples.noEnv (extractIntentFallback "Send it to Alice")) = false.
Proof.
  assert (H1 : In (action (extractIntentFallback "Cancel that"))
                  ["check_balance"; "view_history"; "cancel"]).
  { vm_compute. do 2 right. left. reflexivity. }
  assert (H2 : amountMatch "Send it to Alice" = None).
  { vm_compute. reflexivity. }
  assert (H3 : In (action (extractIntentFallback "Send it to Alice"))
                  ["send"; "split"; "pay_bill"]).
  { vm_compute. left. reflexivity. }
  exact (conj
           (proj1 (fallback_validated (eth := Examples.hexOnly) Examples.noEnv
                     "Cancel that") H1)
           (proj1 (proj2 (proj1 (proj2 (fallback_validated
                                          (eth := Examples.hexOnly)
                                          Examples.noEnv "Send it to Alice"))
                                 H2 H3)))).
Defined.

End FallbackShape.

(* ================================================================== *)
(** * Sanitising and the amounts                                       *)
(* ================================================================== *)

Module InputFacts.
Import JSNumber Types Validation ValidationMore.

Lemma length_removeAll (cls : ascii -> bool) (s : string) :
  (String.length (JS.removeAll cls s) <= String.length s)%nat.
Proof.
  induction s as [|c s IH]; simpl; [ lia | ].
  destruct (cls c); simpl; lia.
Qed.

Lemma removeAll_none (cls : ascii -> bool) (s : string) :
  (forall c, In c (list_ascii_of_string s) -> cls c = false) ->
  JS.removeAll cls s = s.
Proof.
  induction s as [|c s IH]; intro H; simpl; [ reflexivity | ].
  rewrite (H c) by (left; reflexivity). f_equal. apply IH.
  intros c' Hin. apply H. right. exact Hin.
Qed.

Lemma removeAll_twice (p q : ascii -> bool) (s : string) :
  JS.removeAll q (JS.removeAll p s)
  = JS.removeAll (fun c => (p c || q c)%bool) s.
Proof.
  induction s as [|c s IH]; simpl; [ reflexivity | ].
  destruct (p c); simpl; [ exact IH | ].
  destruct (q c); [ exact IH | rewrite IH; reflexivity ].
Qed.

Lemma length_trimStart (s : string) :
  (String.length (JS.trimStart s) <= String.length s)%nat.
Proof.
  induction s as [|c s IH]; simpl; [ lia | ].
  destruct (JS.isSpace c); simpl; lia.
Qed.

Lemma length_revOnto (s acc : string) :
  String.length (JS.revOnto s acc)
  = (String.length s + String.length acc)%nat.
Proof.
  revert acc. induction s as [|c s IH]; intro acc; simpl; [ reflexivity | ].
  rewrite IH. simpl. lia.
Qed.

Lemma length_trim (s : string) :
  (String.length (JS.trim s) <= String.length s)%nat.
Proof.
  unfold JS.trim, JS.trimEnd, JS.reverse.
  rewrite length_revOnto. simpl.
  pose proof (length_trimStart (JS.revOnto (JS.trimStart s) "")) as H.
  rewrite length_revOnto in H. simpl in H.
  pose proof (length_trimStart s). lia.
Qed.

(** X12: [sanitizeInput] only deletes.  Its result is the trimmed input
    without the angle brackets and the control characters, so it holds
    none of them and is no longer than the input; a text that has no
    white space around it and none of these characters is returned as it
    is. *)
Theorem sanitizeInput_only_deletes (input : string) :
  sanitizeInput input
  = JS.removeAll (fun c => (JS.isAngle c || JS.isControl c)%bool)
                 (JS.trim input)
  /\ (forall c, In c (list_ascii_of_string (sanitizeInput input)) ->
        JS.isAngle c = false /\ JS.isControl c = false)
  /\ (String.length (sanitizeInput input) <= String.length input)%nat
  /\ (JS.trim input = input ->
      (forall c, In c (list_ascii_of_string input) ->
         JS.isAngle c = false /\ JS.isControl c = false) ->
      sanitizeInput input = input).
Proof.
  assert (Heq : sanitizeInput input
                = JS.removeAll (fun c => (JS.isAngle c || JS.isControl c)%bool)
                               (JS.trim input)).
  { unfold sanitizeInput. apply removeAll_twice. }
  split; [ exact Heq | split; [ | split ] ].
  - intros c Hin. rewrite Heq in Hin.
    apply ValidationFacts.removeAll_clean in Hin.
    apply orb_false_iff in Hin. exact Hin.
  - rewrite Heq.
    pose proof (length_removeAll
                  (fun c => (JS.isAngle c || JS.isControl c)%bool)
                  (JS.trim input)).
    pose proof (length_trim input). lia.
  - intros Htrim Hclean. rewrite Heq, Htrim. apply removeAll_none.
    intros c Hin. destruct (Hclean c Hin) as [-> ->]. reflexivity.
Qed.

Lemma sanitizeInput_only_deletes_witness :
  sanitizeInput Examples.sendCommand = Examples.sendCommand
  /\ JS.isAngle "<"%char = true.
Proof.
  split; [ | reflexivity ].
  apply (sanitizeInput_only_deletes Examples.sendCommand).
  - vm_compute. reflexivity.
  - intros c Hin. vm_compute in Hin.
    repeat (destruct Hin as [<-|Hin]; [ split; reflexivity | ]).
    contradiction.
Defined.

Section WithHost.
Context {eth : Ethers}.
Variable env : ProcessEnv.

(** X13: [validateUSDCAmount] and [ArcService.validateAmount] agree on
    the range.  For a text [s] with the default options, whatever
    [ArcService.validateAmount] objects to in the cleaned text (trimmed,
    without "$" and ","), [validateUSDCAmount] objects to in [s] with the
    same message; so an amount the validator accepts is accepted by the
    service in its cleaned form. *)
Theorem validators_agree_on_range (s : string) :
  let cleaned := JS.removeAll JS.isDollarComma (JS.trim s) in
  let v := validateUSDCAmount env (IsString s) noOptions in
  (forall e, Arc.validateAmount env cleaned = Some e ->
             amountValid v = false /\ amountError v = Some e)
  /\ (amountValid v = true ->
      Arc.validateAmount env cleaned = None
      /\ amountError v = None
      /\ normalized v = toFixed (parseFloat cleaned) 6).
Proof.
  intros cleaned v. subst v. unfold validateUSDCAmount, Arc.validateAmount.
  cbv zeta. fold cleaned. cbn [optMinAmount optMaxAmount optMaxDecimals noOptions].
  destruct (PrimFloat.is_nan (parseFloat cleaned)).
  { split; [ intros e H; injection H as <-; split; reflexivity
           | discriminate ]. }
  destruct (PrimFloat.leb (parseFloat cleaned) 0).
  { split; [ intros e H; injection H as <-; split; reflexivity
           | discriminate ]. }
  destruct (PrimFloat.ltb (parseFloat cleaned)
              (parseFloat (envOr (NEXT_PUBLIC_MIN_USDC_AMOUNT env) "0.01"))).
  { split; [ intros e H; injection H as <-; split; reflexivity
           | discriminate ]. }
  destruct (PrimFloat.ltb
              (parseFloat (envOr (NEXT_PUBLIC_MAX_USDC_AMOUNT env) "10000"))
              (parseFloat cleaned)).
  { split; [ intros e H; injection H as <-; split; reflexivity
           | discriminate ]. }
  split; [ discriminate | ].
  match goal with
  | |- context [if ?b then invalidAmount _ else _] => destruct b
  end; [ discriminate | ].
  change (Z.min 6 6) with 6.
  destruct (toFixed (parseFloat cleaned) 6); [ | discriminate ].
  intros _. repeat split; reflexivity.
Qed.

End WithHost.

Lemma validators_agree_on_range_witness :
  Arc.validateAmount Examples.noEnv
    (JS.removeAll JS.isDollarComma (JS.trim " $1,250.50 ")) = None
  /\ amountError (validateUSDCAmount Examples.noEnv (IsString "20000")
                    noOptions)
     = Some "Amount cannot exceed 10000 USDC".
Proof.
  pose proof (validators_agree_on_range Examples.noEnv " $1,250.50 ") as H1.
  pose proof (validators_agree_on_range Examples.noEnv "20000") as H2.
  cbv zeta in H1, H2. destruct H1 as [_ H1]. destruct H2 as [H2 _].
  split.
  - apply H1. vm_compute. reflexivity.
  - apply (H2 "Amount cannot exceed 10000 USDC"). vm_compute. reflexivity.
Defined.

(** X14: a transaction hash is "0x" and 64 hexadecimal digits, an address
    of the demo service "0x" and 40: [validateTransactionHash] accepts
    only texts of 66 characters and [DemoArcService.isValidAddress] only
    texts of 42, so that none passes for the other; an address with more
    text behind it is no address. *)
Theorem hash_and_address_shapes (s : string) :
  (validateTransactionHash s = true ->
   String.length s = 66%nat /\ demoIsValidAddress s = false)
  /\ (demoIsValidAddress s = true ->
      String.length s = 42%nat /\ validateTransactionHash s = false
      /\ forall c rest, demoIsValidAddress (s ++ String c rest) = false).
Proof.
  assert (Hlen : forall n t, isPrefixedHex n t = true ->
                             String.length t = (2 + n)%nat).
  { intros n t H. unfold isPrefixedHex in H. apply andb_true_iff in H.
    destruct H as [_ H]. destruct (Nlp.hexRun n (JS.drop 2 t));
      [ apply Nat.eqb_eq in H; exact H | discriminate ]. }
  assert (Hnot : forall n t, String.length t <> (2 + n)%nat ->
                             isPrefixedHex n t = false).
  { intros n t H. destruct (isPrefixedHex n t) eqn:Hp; [ | reflexivity ].
    apply Hlen in Hp. contradiction. }
  unfold validateTransactionHash, demoIsValidAddress. split; intro H.
  - pose proof (Hlen _ _ H) as Hl. split; [ exact Hl | ].
    apply Hnot. rewrite Hl. discriminate.
  - pose proof (Hlen _ _ H) as Hl. split; [ exact Hl | split ].
    + apply Hnot. rewrite Hl. discriminate.
    + intros c rest. apply Hnot. rewrite UtilsFacts.length_append, Hl.
      simpl. lia.
Qed.

Lemma hash_and_address_shapes_witness :
  String.length Examples.someAddress = 42%nat
  /\ validateTransactionHash Examples.someAddress = false.
Proof.
  destruct (hash_and_address_shapes Examples.someAddress) as [_ H].
  destruct H as [H1 [H2 _]]; [ vm_compute; reflexivity | ].
  split; assumption.
Defined.

End InputFacts.

(* ================================================================== *)
(** * The handlers of the API                                          *)
(* ================================================================== *)

Module ApiFacts.
Import JSNumber JSValue Types.

(** ** [POST /api/voice] *)

Lemma voice_onHandlerError (message : string) :
  Voice.success (Voice.json (Voice.onHandlerError message)) = false
  /\ In (Voice.status (Voice.onHandlerError message)) [408; 429; 500]
  /\ Voice.transcript (Voice.json (Voice.onHandlerError message)) = None.
Proof.
  unfold Voice.onHandlerError.
  destruct (JS.includes message "API key");
    [ | destruct (JS.includes message "rate limit");
        [ | destruct (JS.includes message "timeout") ] ];
    cbn; intuition.
Qed.

(** X15: with no [ELEVENLABS_API_KEY], or an empty one, an upload that
    was parsed and read is answered 500 [VOICE_PROCESSING_FAILED], the
    generic failure: the message of the error raised, "ELEVENLABS_API_KEY
    is not configured", does not hold the "API key" that the [catch] looks
    for, so the reply [API_KEY_ERROR] is not the one given. *)
Theorem voice_missing_key (env : ProcessEnv) (w : Voice.World)
  (filepath : string) :
  Demo.isDemoMode env = false ->
  Voice.ELEVENLABS_API_KEY w = None \/ Voice.ELEVENLABS_API_KEY w = Some "" ->
  Voice.form w = Voice.FormParsed (Some filepath) ->
  Voice.readFile w = None ->
  Voice.handler env w "POST"
  = Voice.failure 500 "Failed to process voice command"
                  "VOICE_PROCESSING_FAILED".
Proof.
  intros Hdemo Hkey Hform Hread. unfold Voice.handler.
  change (negb (String.eqb "POST" "POST")) with false. cbv iota.
  rewrite Hdemo, Hform, Hread. unfold Voice.transcribeAudio.
  destruct Hkey as [-> | ->]; vm_compute; reflexivity.
Qed.

Lemma voice_missing_key_witness :
  Voice.handler Examples.noEnv
    (Voice.mkWorld None O (Voice.FormParsed (Some "/tmp/upload.webm")) None
                   (inr (Some "Send 50 USDC to Alice")) 800)
    "POST"
  = Voice.failure 500 "Failed to process voice command"
                  "VOICE_PROCESSING_FAILED".
Proof.
  apply (voice_missing_key Examples.noEnv _ "/tmp/upload.webm").
  - reflexivity.
  - left. reflexivity.
  - reflexivity.
  - reflexivity.
Defined.

(** X16: the replies of [POST /api/voice].  The status is one of 200,
    400, 405, 408, 429 and 500; it is 200 exactly when [success] is set,
    and then the request was a POST and the reply carries a transcript
    that is not empty, with confidence 0.95; a reply that is no success
    carries no transcript. *)
Theorem voice_replies (env : ProcessEnv) (w : Voice.World) (method : string) :
  let r := Voice.handler env w method in
  In (Voice.status r) [200; 400; 405; 408; 429; 500]
  /\ (Voice.status r = 200 <-> Voice.success (Voice.json r) = true)
  /\ (Voice.success (Voice.json r) = true ->
      method = "POST"
      /\ Voice.confidence (Voice.json r) = Some 0.95%float
      /\ exists t, Voice.transcript (Voice.json r) = Some t /\ t <> "")
  /\ (Voice.success (Voice.json r) = false ->
      Voice.transcript (Voice.json r) = None).
Proof.
  intro r. subst r.
  assert (Hfail : forall rep,
             Voice.success (Voice.json rep) = false ->
             In (Voice.status rep) [400; 405; 408; 429; 500] ->
             Voice.transcript (Voice.json rep) = None ->
             In (Voice.status rep) [200; 400; 405; 408; 429; 500]
             /\ (Voice.status rep = 200
                 <-> Voice.success (Voice.json rep) = true)
             /\ (Voice.success (Voice.json rep) = true ->
                 method = "POST"
                 /\ Voice.confidence (Voice.json rep) = Some 0.95%float
                 /\ exists t, Voice.transcript (Voice.json rep) = Some t
                              /\ t <> "")
             /\ (Voice.success (Voice.json rep) = false ->
                 Voice.transcript (Voice.json rep) = None)).
  { intros rep Hs Hst Ht. rewrite Hs. split; [ right; exact Hst | ].
    split; [ | split; [ discriminate | intros _; exact Ht ] ].
    split; [ | discriminate ].
    intro H200. rewrite H200 in Hst. simpl in Hst.
    repeat (destruct Hst as [Hst|Hst]; [ discriminate | ]). contradiction. }
  assert (Hcatch : forall m,
             In (Voice.status (Voice.onHandlerError m))
                [400; 405; 408; 429; 500]).
  { intro m. destruct (voice_onHandlerError m) as [_ [H _]]. simpl in H.
    simpl. intuition. }
  unfold Voice.handler.
  destruct (String.eqb method "POST") eqn:Hm; cbn [negb].
  2:{ apply Hfail; [ reflexivity | simpl; intuition | reflexivity ]. }
  apply String.eqb_eq in Hm.
  destruct (Demo.isDemoMode env).
  - destruct (nth_error Demo.MOCK_VOICE_COMMANDS (Voice.demoPick w))
      as [cmd|] eqn:Hn.
    + assert (Hne : fst cmd <> "").
      { apply nth_error_In in Hn. unfold Demo.MOCK_VOICE_COMMANDS in Hn.
        simpl in Hn.
        repeat (destruct Hn as [<-|Hn]; [ discriminate | ]). contradiction. }
      cbn. split; [ left; reflexivity | ].
      split; [ split; reflexivity | ].
      split; [ | discriminate ].
      intros _. split; [ exact Hm | split; [ reflexivity | ] ].
      exists (fst cmd). split; [ reflexivity | exact Hne ].
    + apply Hfail; [ apply voice_onHandlerError | apply Hcatch
                   | apply voice_onHandlerError ].
  - destruct (Voice.form w) as [m|[filepath|]].
    + apply Hfail; [ apply voice_onHandlerError | apply Hcatch
                   | apply voice_onHandlerError ].
    + destruct (Voice.readFile w) as [m|].
      * apply Hfail; [ apply voice_onHandlerError | apply Hcatch
                     | apply voice_onHandlerError ].
      * destruct (Voice.transcribeAudio w) as [m|[|c t]].
        -- apply Hfail; [ apply voice_onHandlerError | apply Hcatch
                        | apply voice_onHandlerError ].
        -- apply Hfail; [ reflexivity | simpl; intuition | reflexivity ].
        -- cbn. split; [ left; reflexivity | ].
           split; [ split; reflexivity | ].
           split; [ | discriminate ].
           intros _. split; [ exact Hm | split; [ reflexivity | ] ].
           exists (String c t). split; [ reflexivity | discriminate ].
    + apply Hfail; [ reflexivity | simpl; intuition | reflexivity ].
Qed.

Lemma voice_replies_witness :
  exists t,
    Voice.transcript
      (Voice.json
         (Voice.handler Examples.noEnv
            (Voice.mkWorld (Some "sk_test") O
               (Voice.FormParsed (Some "/tmp/upload.webm")) None
               (inr (Some "Send 50 USDC to Alice")) 800)
            "POST")) = Some t
    /\ t <> "".
Proof.
  pose proof (voice_replies Examples.noEnv
                (Voice.mkWorld (Some "sk_test") O
                   (Voice.FormParsed (Some "/tmp/upload.webm")) None
                   (inr (Some "Send 50 USDC to Alice")) 800)
                "POST") as H.
  cbv zeta in H. destruct H as [_ [_ [H _]]].
  destruct H as [_ [_ H]]; [ reflexivity | exact H ].
Defined.

(** ** [POST /api/nlp] *)

Section NlpHandler.
Import Nlp.
Context {eth : Ethers}.
Variable env : ProcessEnv.
Variable extractIntentAI : string -> string + PaymentIntent.

(** The reply to an intent that was validated. *)
Lemma validateAndReply_spec (i : PaymentIntent) :
  isValid i = true ->
  let v := Validation.validatePaymentIntent env i in
  status (validateAndReply env i) = 200
  /\ success (json (validateAndReply env i)) = true
  /\ responseError (json (validateAndReply env i)) = None
  /\ exists i',
       intent (json (validateAndReply env i)) = Some i'
       /\ isValid i' = Validation.valid v
       /\ validationErrors i'
          = (if Validation.valid v then validationErrors i
             else Some (Validation.errors v))
       /\ action i' = action i /\ amount i' = amount i
       /\ currency i' = currency i /\ recipient i' = recipient i
       /\ participants i' = participants i
       /\ confirmationRequired i' = confirmationRequired i
       /\ originalCommand i' = originalCommand i.
Proof.
  intros Hvalid v. subst v. unfold validateAndReply. cbv zeta.
  destruct (Validation.valid (Validation.validatePaymentIntent env i));
    cbn [negb status json success responseError intent];
    (split; [ reflexivity | ]); (split; [ reflexivity | ]);
    (split; [ reflexivity | ]); eexists; (split; [ reflexivity | ]);
    cbn [isValid validationErrors action amount currency recipient
         participants confirmationRequired originalCommand];
    repeat split; try reflexivity; exact Hvalid.
Qed.

(** X17: a failure of the AI path does not show in the reply.  When
    [extractIntent] raises, whatever the error, a POST with a text that
    [sanitizeInput] does not empty is answered 200 with the intent of the
    fallback extractor for the sanitised text; the intent is marked valid
    exactly when [validatePaymentIntent] found no error, and carries the
    errors found otherwise.  The calls are [extractIntent],
    [extractIntentFallback] and [validatePaymentIntent], in this order. *)
Theorem ai_failure_is_hidden (body : JValue) (text message : string) :
  get body "text" = Some (JStr text) ->
  Validation.sanitizeInput text <> "" ->
  Demo.isDemoMode env = false ->
  extractIntentAI (Validation.sanitizeInput text) = inl message ->
  let s := Validation.sanitizeInput text in
  let i := extractIntentFallback s in
  let v := Validation.validatePaymentIntent env i in
  let r := handler env extractIntentAI "POST" body in
  snd r = [CallExtractIntent s; CallExtractIntentFallback s;
           CallValidatePaymentIntent i]
  /\ status (fst r) = 200
  /\ success (json (fst r)) = true
  /\ responseError (json (fst r)) = None
  /\ exists i',
       intent (json (fst r)) = Some i'
       /\ isValid i' = Validation.valid v
       /\ validationErrors i'
          = (if Validation.valid v then None
             else Some (Validation.errors v))
       /\ action i' = action i /\ amount i' = amount i
       /\ recipient i' = recipient i /\ participants i' = participants i
       /\ confirmationRequired i' = confirmationRequired i
       /\ originalCommand i' = Some s.
Proof.
  intros Hget Hsan Hdemo Hai. cbv zeta.
  remember (Validation.sanitizeInput text) as s eqn:Hs.
  assert (Hshape : isValid (extractIntentFallback s) = true
                   /\ validationErrors (extractIntentFallback s) = None
                   /\ originalCommand (extractIntentFallback s) = Some s).
  { pose proof (FallbackShape.fallback_forms s) as H. cbv zeta in H.
    destruct H as [[a [_ ->]]|[->|[->|[a [_ ->]]]]]; repeat split. }
  destruct Hshape as [Hvalid [Herrs Horig]].
  unfold handler. change (negb (String.eqb "POST" "POST")) with false.
  cbv iota. rewrite Hget.
  destruct text as [|c t]; [ exfalso; apply Hsan; rewrite Hs; reflexivity | ].
  cbv zeta. rewrite <- Hs.
  destruct (Nat.eqb (String.length s) 0) eqn:Hlen.
  { apply Nat.eqb_eq in Hlen. exfalso. apply Hsan.
    destruct s; [ reflexivity | discriminate ]. }
  rewrite Hdemo, Hai. cbn [fst snd].
  split; [ reflexivity | ].
  pose proof (validateAndReply_spec (extractIntentFallback s) Hvalid) as H.
  cbv zeta in H. destruct H as [H1 [H2 [H3 [i' [H4 [H5 [H6 H7]]]]]]].
  split; [ exact H1 | split; [ exact H2 | split; [ exact H3 | ] ] ].
  exists i'. split; [ exact H4 | split; [ exact H5 | split ] ].
  - rewrite H6, Herrs.
    destruct (Validation.valid
                (Validation.validatePaymentIntent env
                   (extractIntentFallback s))); reflexivity.
  - destruct H7 as [Ha [Hb [_ [Hc [Hd [He Hf]]]]]].
    rewrite Hf, Horig. repeat split; assumption.
Qed.

(** X18: the replies of [POST /api/nlp], for an AI path that returns
    intents of the declared type.  The status is 200, 400, 405 or 500,
    never the 429 that the [catch] provides for; it is 200 exactly when
    [success] is set, and then the reply carries an intent; no reply
    other than a 200 follows a call into the intent pipeline; and in demo
    mode the intent is the one of the demo service, given without a call
    to the AI path or to [validatePaymentIntent]. *)
Theorem nlp_replies (method : string) (body : JValue) :
  let r := handler env extractIntentAI method body in
  In (status (fst r)) [200; 400; 405; 500]
  /\ (status (fst r) = 200 <-> success (json (fst r)) = true)
  /\ (success (json (fst r)) = true -> intent (json (fst r)) <> None)
  /\ (status (fst r) <> 200 -> snd r = [] /\ intent (json (fst r)) = None)
  /\ (Demo.isDemoMode env = true -> status (fst r) = 200 ->
      exists s, snd r = [CallDemoProcessIntent s]
                /\ intent (json (fst r)) = Some (Demo.processIntent s)).
Proof.
  intro r. subst r. unfold handler.
  destruct (String.eqb method "POST"); cbn [negb].
  2:{ cbn. repeat split; try discriminate; intuition discriminate. }
  destruct (get body "text") as [t|].
  2:{ cbn. repeat split; try discriminate; intuition discriminate. }
  destruct t as [| | | |[|c text]| |];
    try (cbn; repeat split; try discriminate; intuition discriminate).
  cbv zeta.
  destruct (Nat.eqb (String.length (Validation.sanitizeInput (String c text)))
                    0).
  { cbn. repeat split; try discriminate; intuition discriminate. }
  assert (Hreply : forall i,
             status (validateAndReply env i) = 200
             /\ success (json (validateAndReply env i)) = true
             /\ intent (json (validateAndReply env i)) <> None).
  { intro i. unfold validateAndReply. cbv zeta. cbn.
    repeat split. discriminate. }
  destruct (Demo.isDemoMode env) eqn:Hdemo.
  - cbn. split; [ left; reflexivity | ].
    split; [ split; reflexivity | ].
    split; [ discriminate | ].
    split; [ intro H; contradiction | ].
    intros _ _. eexists. split; reflexivity.
  - destruct (extractIntentAI (Validation.sanitizeInput (String c text)))
      as [m|i]; cbn [fst snd];
      match goal with
      | |- context [validateAndReply env ?i] =>
          destruct (Hreply i) as [H1 [H2 H3]]
      end;
      rewrite H1, H2;
      (split; [ left; reflexivity | ]);
      (split; [ split; reflexivity | ]);
      (split; [ intros _; exact H3 | ]);
      (split; [ intro H; contradiction | discriminate ]).
Qed.

End NlpHandler.

Lemma ai_failure_is_hidden_witness :
  Nlp.status
    (fst (Nlp.handler (eth := Examples.hexOnly) Examples.noEnv Examples.aiDown
            "POST" (JObj [("text", JStr Examples.sendCommand)]))) = 200.
Proof.
  apply (ai_failure_is_hidden (eth := Examples.hexOnly) Examples.noEnv
           Examples.aiDown (JObj [("text", JStr Examples.sendCommand)])
           Examples.sendCommand "Cloudflare AI credentials not configured").
  - reflexivity.
  - vm_compute. discriminate.
  - reflexivity.
  - reflexivity.
Defined.

Lemma nlp_replies_witness :
  exists s,
    snd (Nlp.handler (eth := Examples.hexOnly)
           (mkEnv None None (Some "true")) Examples.aiDown "POST"
           (JObj [("text", JStr Examples.balanceCommand)]))
    = [Nlp.CallDemoProcessIntent s]
    /\ Nlp.intent
         (Nlp.json
            (fst (Nlp.handler (eth := Examples.hexOnly)
                    (mkEnv None None (Some "true")) Examples.aiDown "POST"
                    (JObj [("text", JStr Examples.balanceCommand)]))))
       = Some (Demo.processIntent s).
Proof.
  pose proof (nlp_replies (eth := Examples.hexOnly)
                (mkEnv None None (Some "true")) Examples.aiDown "POST"
                (JObj [("text", JStr Examples.balanceCommand)])) as H.
  cbv zeta in H. destruct H as [_ [_ [_ [_ H]]]].
  apply H; vm_compute; reflexivity.
Defined.

End ApiFacts.

(* ================================================================== *)
(** * Voice commands and the demo service                              *)
(* ================================================================== *)

Module CommandFacts.
Import JSNumber Types ValidationMore.

(** ** Reversal and trimming *)

Lemma append_empty (s : string) : s ++ "" = s.
Proof. induction s as [|c s IH]; simpl; [ | rewrite IH ]; reflexivity. Qed.

Lemma revOnto_append (s acc : string) :
  JS.revOnto s acc = JS.reverse s ++ acc.
Proof.
  unfold JS.reverse. revert acc.
  induction s as [|c s IH]; intro acc; simpl; [ reflexivity | ].
  rewrite (IH (String c acc)), (IH (String c "")).
  rewrite RecipientFacts.append_assoc. reflexivity.
Qed.

Lemma reverse_cons (c : ascii) (s : string) :
  JS.reverse (String c s) = JS.reverse s ++ String c "".
Proof. unfold JS.reverse at 1. simpl. apply revOnto_append. Qed.

Lemma reverse_append (a b : string) :
  JS.reverse (a ++ b) = JS.reverse b ++ JS.reverse a.
Proof.
  induction a as [|c a IH]; simpl.
  - change (JS.reverse "") with "". rewrite append_empty. reflexivity.
  - rewrite !reverse_cons, IH, RecipientFacts.append_assoc. reflexivity.
Qed.

Lemma reverse_involutive (s : string) : JS.reverse (JS.reverse s) = s.
Proof.
  induction s as [|c s IH]; [ reflexivity | ].
  rewrite reverse_cons, reverse_append, IH. reflexivity.
Qed.

Lemma trimStart_headClean (s : string) : headClean (JS.trimStart s) = true.
Proof.
  induction s as [|c s IH]; [ reflexivity | ]. simpl.
  destruct (JS.isSpace c) eqn:Hc; [ exact IH | ]. simpl. rewrite Hc.
  reflexivity.
Qed.

Lemma trimStart_clean (s : string) :
  headClean s = true -> JS.trimStart s = s.
Proof.
  destruct s as [|c s]; [ reflexivity | ]. simpl. intro H.
  apply negb_true_iff in H. rewrite H. reflexivity.
Qed.

(** [trimStart] drops a prefix. *)
Lemma trimStart_split (s : string) : exists ws, s = ws ++ JS.trimStart s.
Proof.
  induction s as [|c s [ws IH]]; [ exists ""; reflexivity | ]. simpl.
  destruct (JS.isSpace c).
  - exists (String c ws). simpl. rewrite <- IH. reflexivity.
  - exists "". reflexivity.
Qed.

Lemma headClean_prefix (a b : string) :
  headClean (a ++ b) = true -> a <> "" -> headClean a = true.
Proof. destruct a as [|c a]; [ contradiction | ]. simpl. auto. Qed.

(** The last character seen from the front and from the back. *)
Lemma endsClean_reverse (s : string) :
  endsClean s = headClean (JS.reverse s).
Proof.
  induction s as [|c s IH]; [ reflexivity | ].
  rewrite reverse_cons. destruct s as [|c' s']; [ reflexivity | ].
  change (endsClean (String c (String c' s'))) with (endsClean (String c' s')).
  rewrite IH. rewrite reverse_cons.
  destruct (JS.reverse s') as [|x r]; reflexivity.
Qed.

Lemma trim_clean (s : string) :
  headClean s = true -> endsClean s = true -> JS.trim s = s.
Proof.
  intros Hh He. unfold JS.trim, JS.trimEnd.
  rewrite (trimStart_clean s Hh). rewrite endsClean_reverse in He.
  rewrite (trimStart_clean _ He). apply reverse_involutive.
Qed.

Lemma trim_ends (s : string) :
  headClean (JS.trim s) = true /\ endsClean (JS.trim s) = true.
Proof.
  unfold JS.trim, JS.trimEnd. split.
  - destruct (trimStart_split (JS.reverse (JS.trimStart s))) as [ws Hws].
    assert (Hs : JS.trimStart s
                 = JS.reverse (JS.trimStart (JS.reverse (JS.trimStart s)))
                   ++ JS.reverse ws).
    { rewrite <- reverse_append, <- Hws, reverse_involutive. reflexivity. }
    destruct (JS.reverse (JS.trimStart (JS.reverse (JS.trimStart s))))
      as [|c r] eqn:Hr; [ reflexivity | ].
    apply (headClean_prefix _ (JS.reverse ws)); [ | discriminate ].
    rewrite <- Hs. apply trimStart_headClean.
  - rewrite endsClean_reverse, reverse_involutive. apply trimStart_headClean.
Qed.

(** ** Runs of white space *)

Lemma collapse_singleSpaced (s : string) :
  forall b, singleSpaced b (collapseSpaces b s) = true.
Proof.
  induction s as [|c s IH]; intro b; [ reflexivity | ]. simpl.
  destruct (JS.isSpace c) eqn:Hc.
  - destruct b; [ apply IH | ]. simpl. rewrite (IH true). reflexivity.
  - simpl. rewrite Hc. apply IH.
Qed.

Lemma collapse_fixed (s : string) :
  forall b, singleSpaced b s = true -> collapseSpaces b s = s.
Proof.
  induction s as [|c s IH]; intros b H; [ reflexivity | ]. simpl in *.
  destruct (JS.isSpace c) eqn:Hc.
  - apply andb_true_iff in H. destruct H as [H Hs].
    apply andb_true_iff in H. destruct H as [Heq Hb].
    apply Ascii.eqb_eq in Heq. apply negb_true_iff in Hb. subst b c.
    rewrite (IH true Hs). reflexivity.
  - rewrite (IH false H). reflexivity.
Qed.

Lemma collapse_headClean (s : string) :
  headClean s = true -> headClean (collapseSpaces false s) = true.
Proof.
  destruct s as [|c s]; [ reflexivity | ]. simpl. intro H.
  apply negb_true_iff in H. rewrite H. simpl. rewrite H. reflexivity.
Qed.

Lemma collapse_nonempty (s : string) :
  forall b, s <> "" -> endsClean s = true -> collapseSpaces b s <> "".
Proof.
  induction s as [|c s IH]; intros b Hne He; [ contradiction | ].
  destruct s as [|c' s'].
  - simpl in *. apply negb_true_iff in He. rewrite He. discriminate.
  - change (endsClean (String c (String c' s')))
      with (endsClean (String c' s')) in He.
    change (collapseSpaces b (String c (String c' s')))
      with (if JS.isSpace c then
              if b then collapseSpaces true (String c' s')
              else String " " (collapseSpaces true (String c' s'))
            else String c (collapseSpaces false (String c' s'))).
    destruct (JS.isSpace c); [ destruct b | ]; try discriminate.
    apply IH; [ discriminate | exact He ].
Qed.

Lemma collapse_endsClean (s : string) :
  forall b, endsClean s = true -> endsClean (collapseSpaces b s) = true.
Proof.
  induction s as [|c s IH]; intros b He; [ reflexivity | ].
  destruct s as [|c' s'].
  - simpl in *. apply negb_true_iff in He. rewrite He. simpl. rewrite He.
    reflexivity.
  - change (endsClean (String c (String c' s')))
      with (endsClean (String c' s')) in He.
    change (collapseSpaces b (String c (String c' s')))
      with (if JS.isSpace c then
              if b then collapseSpaces true (String c' s')
              else String " " (collapseSpaces true (String c' s'))
            else String c (collapseSpaces false (String c' s'))).
    assert (Hcons : forall x b',
               endsClean (String x (collapseSpaces b' (String c' s'))) = true).
    { intros x b'.
      pose proof (collapse_nonempty (String c' s') b') as Hn.
      destruct (collapseSpaces b' (String c' s')) as [|y r] eqn:Hy.
      - exfalso. apply Hn; [ discriminate | exact He | reflexivity ].
      - change (endsClean (String x (String y r)))
          with (endsClean (String y r)).
        rewrite <- Hy. apply IH. exact He. }
    destruct (JS.isSpace c); [ destruct b | ].
    + apply IH. exact He.
    + apply Hcons.
    + apply Hcons.
Qed.

(** X19: a voice command that [validateVoiceCommand] accepts comes back
    normalised: between 3 and 500 characters, without white space at
    either end, every run of white space turned into one space, and with
    one of the eight action words somewhere in it, in any case.
    Normalising is idempotent: the normalised command is accepted as it
    is.  A command that is turned down comes back with an error and
    without a normalised form. *)
Theorem voiceCommand_normal_form (command : string) :
  let v := validateVoiceCommand command in
  (commandValid v = true ->
   commandError v = None
   /\ exists n,
        commandNormalized v = Some n
        /\ (3 <= String.length n <= 500)%nat
        /\ JS.trim n = n
        /\ singleSpaced false n = true
        /\ (exists kw, In kw commandPatterns /\ includesCI n kw = true)
        /\ validateVoiceCommand n = v)
  /\ (commandValid v = false ->
      commandNormalized v = None /\ commandError v <> None).
Proof.
  intro v. subst v.
  set (n := collapseSpaces false (JS.trim command)).
  assert (Hsingle : singleSpaced false n = true)
    by apply collapse_singleSpaced.
  assert (Htrim : JS.trim n = n).
  { destruct (trim_ends command) as [Hh He]. apply trim_clean.
    - apply collapse_headClean. exact Hh.
    - apply collapse_endsClean. exact He. }
  assert (Hagain : collapseSpaces false (JS.trim n) = n).
  { rewrite Htrim. apply collapse_fixed. exact Hsingle. }
  assert (Hsame : validateVoiceCommand n = validateVoiceCommand command).
  { unfold validateVoiceCommand. cbv zeta. rewrite Hagain. reflexivity. }
  remember (validateVoiceCommand command) as v eqn:Hv.
  unfold validateVoiceCommand in Hv. cbv zeta in Hv. fold n in Hv.
  destruct (String.length n <? 3)%nat eqn:Hshort.
  { subst v.
    split; [ discriminate | intros _; split; [ reflexivity | discriminate ] ]. }
  destruct (500 <? String.length n)%nat eqn:Hlong.
  { subst v.
    split; [ discriminate | intros _; split; [ reflexivity | discriminate ] ]. }
  destruct (existsb (fun pattern => includesCI n pattern) commandPatterns)
    eqn:Hpat; cbn [negb] in Hv.
  2:{ subst v. split; [ discriminate
                      | intros _; split; [ reflexivity | discriminate ] ]. }
  split; [ | subst v; discriminate ].
  intros _. split; [ subst v; reflexivity | ]. exists n.
  apply Nat.ltb_ge in Hshort. apply Nat.ltb_ge in Hlong.
  apply existsb_exists in Hpat.
  split; [ subst v; reflexivity | ]. split; [ lia | ].
  split; [ exact Htrim | ]. split; [ exact Hsingle | ].
  split; [ exact Hpat | exact Hsame ].
Qed.

Lemma voiceCommand_normal_form_witness :
  commandNormalized (validateVoiceCommand "  Send   50 USDC  to   Alice ")
  = Some "Send 50 USDC to Alice"
  /\ commandError (validateVoiceCommand "  Send   50 USDC  to   Alice ")
     = None.
Proof.
  split; [ vm_compute; reflexivity | ].
  pose proof (voiceCommand_normal_form "  Send   50 USDC  to   Alice ") as H.
  cbv zeta in H. destruct H as [H _].
  exact (proj1 (H eq_refl)).
Defined.

(** ** The demo service *)

(** X28: the intents of the demo service, whatever the text.  They are
    in USDC and marked valid; the action is [check_balance],
    [view_history] or [send], never a cancellation or a split; a query
    has amount 0, no recipient and needs no confirmation; a [send] needs
    confirmation and goes to one of the two addresses of the mock
    data. *)
Theorem demo_intents (text : string) :
  let i := Demo.processIntent text in
  currency i = "USDC" /\ isValid i = true /\ participants i = None
  /\ (((action i = "check_balance" \/ action i = "view_history")
       /\ amount i = 0%float /\ recipient i = None
       /\ confirmationRequired i = false)
      \/ (action i = "send" /\ confirmationRequired i = true
          /\ (recipient i = Some "0x1234567890123456789012345678901234567890"
              \/ recipient i
                 = Some "0x9876543210987654321098765432109876543210"))).
Proof.
  intro i. subst i. unfold Demo.processIntent.
  destruct (find _ Demo.MOCK_VOICE_COMMANDS) as [cmd|] eqn:Hf.
  - apply find_some in Hf. destruct Hf as [Hin _].
    unfold Demo.MOCK_VOICE_COMMANDS in Hin. simpl in Hin.
    destruct Hin as [<-|[<-|[<-|[<-|[]]]]]; cbn;
      repeat split; auto 10.
  - unfold Demo.parseTextIntent. cbv zeta.
    destruct (JS.includes (JS.toLowerCase text) "balance").
    { cbn. repeat split; auto 10. }
    destruct (JS.includes (JS.toLowerCase text) "history"
              || JS.includes (JS.toLowerCase text) "transaction")%bool.
    { cbn. repeat split; auto 10. }
    cbn. repeat split; auto 10.
Qed.

End CommandFacts.

(* ================================================================== *)
(** * More on [lib/hooks/useVoice.ts]                                  *)
(* ================================================================== *)

Module RecordingFacts.
Import Types UseVoice UseVoiceView.

Lemma run_cons o ev evs h :
  run o (ev :: evs) h
  = (fst (run o evs (fst (step o ev h))),
     (snd (step o ev h) ++ snd (run o evs (fst (step o ev h))))%list).
Proof.
  cbn [run]. destruct (step o ev h) as [h1 e1]. cbn [fst snd].
  destruct (run o evs h1) as [h2 e2]. reflexivity.
Qed.

(** ** The auto-retry *)

Lemma retryTimers_app (a b : list Effect) :
  retryTimers (a ++ b) = (retryTimers a + retryTimers b)%nat.
Proof.
  induction a as [|e a IH]; [ reflexivity | ].
  destruct e as [ | | | | | | | | [ | | ] | | ]; simpl; rewrite IH; reflexivity.
Qed.

Lemma retryTimers_cleanup h : retryTimers (snd (cleanupResources h)) = O.
Proof.
  unfold cleanupResources. cbn [snd].
  destruct (streamRef h), (audioContextRef h), (animationFrameRef h),
    (recordingTimerRef h); reflexivity.
Qed.

Lemma retryTimers_notify (b : bool) (m : string) :
  retryTimers (if b then [NotifyError m] else []) = O.
Proof. destruct b; reflexivity. Qed.

Lemma cleanupResources_retries h :
  retryCountRef (fst (cleanupResources h)) = retryCountRef h.
Proof. reflexivity. Qed.

Lemma startRecording_retries o cl mic levels h :
  retryCountRef (fst (startRecording o cl mic levels h)) = retryCountRef h
  /\ retryTimers (snd (startRecording o cl mic levels h)) = O.
Proof.
  unfold startRecording.
  destruct (seenState cl); try (split; reflexivity);
    (destruct mic as [opus|name]; cbv beta iota zeta;
     [ cbn [fst snd]; split; [ | reflexivity ];
       unfold analyzeAudioLevel; fields; reflexivity
     | match goal with
       | |- context [cleanupResources ?x] => set (h3 := x)
       end;
       pose proof (cleanupResources_retries h3) as H1;
       pose proof (retryTimers_cleanup h3) as H2;
       destruct (cleanupResources h3) as [h4 freed]; cbn [fst snd] in *;
       split;
       [ rewrite H1; subst h3;
         destruct (String.eqb name "NotAllowedError"
                   || String.eqb name "PermissionDeniedError")%bool;
         reflexivity
       | rewrite !retryTimers_app, retryTimers_notify, H2; reflexivity ] ]).
Qed.

Lemma onstop_retries o r h :
  retryCountRef (fst (onstop o r h)) = retryCountRef h
  /\ retryTimers (snd (onstop o r h)) = O.
Proof.
  unfold onstop. cbv beta zeta.
  destruct (seenRecordingTime (closure r) * 1000 <? minRecordingDuration o).
  - match goal with
    | |- context [cleanupResources ?x] => set (h3 := x)
    end.
    pose proof (cleanupResources_retries h3) as H1.
    pose proof (retryTimers_cleanup h3) as H2.
    destruct (cleanupResources h3) as [h4 freed]. cbn [fst snd] in *.
    split; [ rewrite H1; reflexivity | ].
    rewrite retryTimers_app, H2. reflexivity.
  - unfold processAudioBlobBegin. cbv beta iota.
    match goal with
    | |- context [cleanupResources ?x] => set (h3 := x)
    end.
    pose proof (cleanupResources_retries h3) as H1.
    pose proof (retryTimers_cleanup h3) as H2.
    destruct (cleanupResources h3) as [h4 freed]. cbn [fst snd] in *.
    split; [ rewrite H1; reflexivity | ].
    cbn [app retryTimers]. exact H2.
Qed.

Lemma stopRecording_retries h :
  retryCountRef (fst (stopRecording h)) = retryCountRef h
  /\ retryTimers (snd (stopRecording h)) = O.
Proof.
  unfold stopRecording.
  destruct (mediaRecorderRef h) as [r|]; [ destruct (recording r) | ];
    destruct (recordingTimerRef h); destruct (animationFrameRef h);
    split; reflexivity.
Qed.

(** The [catch] block schedules the auto-retry, and counts it, exactly when
    [autoRetry] is set and the counter is below [maxRetries]. *)
Lemma pipelineCatch_retries o cl io m h :
  (if (autoRetry o && (retryCountRef h <? maxRetries o))%bool
   then retryCountRef (fst (pipelineCatch o cl io m h)) = retryCountRef h + 1
        /\ retryTimers (snd (pipelineCatch o cl io m h)) = 1%nat
   else retryCountRef (fst (pipelineCatch o cl io m h)) = retryCountRef h
        /\ retryTimers (snd (pipelineCatch o cl io m h)) = O).
Proof.
  unfold pipelineCatch. cbv beta zeta.
  destruct (seenTranscript cl) as [[|c t]|]; fields;
    destruct (autoRetry o && (retryCountRef h <? maxRetries o))%bool;
    cbn [fst snd]; fields; rewrite retryTimers_app, retryTimers_notify;
    split; reflexivity.
Qed.

(** One transition that is no reset. *)
Lemma step_retries o ev h :
  resets ev = false ->
  retryCountRef h <= maxRetries o ->
  retryCountRef (fst (step o ev h))
  = retryCountRef h + Z.of_nat (retryTimers (snd (step o ev h)))
  /\ retryCountRef (fst (step o ev h)) <= maxRetries o
  /\ (autoRetry o = false -> retryTimers (snd (step o ev h)) = O).
Proof.
  intros Hev Hle.
  assert (Hkeep : forall (h' : Hook) (effects : list Effect),
             retryCountRef h' = retryCountRef h /\ retryTimers effects = O ->
             retryCountRef h' = retryCountRef h + Z.of_nat (retryTimers effects)
             /\ retryCountRef h' <= maxRetries o
             /\ (autoRetry o = false -> retryTimers effects = O)).
  { intros h' effects [H1 H2]. rewrite H1, H2. simpl. split; [ lia | ].
    split; [ exact Hle | reflexivity ]. }
  destruct ev; cbn [step]; try discriminate.
  - apply Hkeep. apply startRecording_retries.
  - apply Hkeep. cbn [fst snd]. split; [ | reflexivity ].
    unfold ondataavailable. destruct (0 <? size); reflexivity.
  - apply Hkeep. cbn [fst snd]. split; [ | reflexivity ].
    unfold tick. destruct (recordingTimerRef h); reflexivity.
  - apply Hkeep. cbn [fst snd]. split; [ | reflexivity ].
    unfold analyzeAudioLevel. destruct (negb (analyserRef h)); reflexivity.
  - apply Hkeep.
    pose proof (stopRecording_retries h) as [Hs1 Hs2].
    destruct (mediaRecorderRef h) as [r|]; [ destruct (recording r) | ].
    + pose proof (onstop_retries o r (fst (stopRecording h))) as [Ho1 Ho2].
      destruct (stopRecording h) as [h1 e1]. cbn [fst snd] in *.
      destruct (onstop o r h1) as [h2 e2]. cbn [fst snd] in *.
      split; [ congruence | ]. rewrite retryTimers_app, Hs2, Ho2. reflexivity.
    + destruct (stopRecording h) as [h1 e1]. cbn [fst snd] in *.
      split; assumption.
    + destruct (stopRecording h) as [h1 e1]. cbn [fst snd] in *.
      split; assumption.
  - cbn [resets] in Hev. unfold processAudioBlobSettle.
    assert (Hc : forall m h0,
               retryCountRef h0 = retryCountRef h ->
               retryCountRef (fst (pipelineCatch o cl io m h0))
               = retryCountRef h
                 + Z.of_nat (retryTimers (snd (pipelineCatch o cl io m h0)))
               /\ retryCountRef (fst (pipelineCatch o cl io m h0))
                  <= maxRetries o
               /\ (autoRetry o = false ->
                   retryTimers (snd (pipelineCatch o cl io m h0)) = O)).
    { intros m h0 H0. pose proof (pipelineCatch_retries o cl io m h0) as Hp.
      rewrite H0 in Hp.
      destruct (autoRetry o) eqn:Ha; cbn [andb] in Hp.
      - destruct (retryCountRef h <? maxRetries o) eqn:Hlt;
          destruct Hp as [-> ->]; simpl Z.of_nat.
        + apply Z.ltb_lt in Hlt.
          split; [ lia | split; [ lia | discriminate ] ].
        + split; [ lia | split; [ lia | reflexivity ] ].
      - destruct Hp as [-> ->]. simpl Z.of_nat.
        split; [ lia | split; [ lia | reflexivity ] ]. }
    destruct (tryPipeline io) as [m|text m|text i]; try discriminate.
    + apply Hc. reflexivity.
    + apply Hc. reflexivity.
  - apply Hkeep. destruct (lastAudioBlobRef h); split; reflexivity.
  - apply Hkeep. split; reflexivity.
  - apply Hkeep. unfold cancelRecording.
    split; [ reflexivity | apply retryTimers_cleanup ].
  - apply Hkeep. cbn [fst snd]. split; [ | reflexivity ].
    unfold clearError. cbv beta zeta. destruct (seenState (seen h));
      reflexivity.
  - apply Hkeep. split; reflexivity.
Qed.

(** X24: between two resets of the retry counter (a pipeline that
    succeeds, the [retry] of the user) the hook schedules its auto-retry at
    most [maxRetries] times, whatever else happens and however often the
    pipeline fails: each scheduling is counted in [retryCountRef], which
    stays at or below [maxRetries].  Without [autoRetry] it is never
    scheduled. *)
Theorem autoRetry_bounded o evs :
  forall h,
    0 <= retryCountRef h <= maxRetries o ->
    forallb (fun ev => negb (resets ev)) evs = true ->
    retryCountRef (fst (run o evs h))
    = retryCountRef h + Z.of_nat (retryTimers (snd (run o evs h)))
    /\ retryCountRef (fst (run o evs h)) <= maxRetries o
    /\ Z.of_nat (retryTimers (snd (run o evs h)))
       <= maxRetries o - retryCountRef h
    /\ (autoRetry o = false -> retryTimers (snd (run o evs h)) = O).
Proof.
  induction evs as [|ev evs IH]; intros h Hc Hall.
  - cbn [run fst snd retryTimers]. simpl Z.of_nat.
    split; [ lia | split; [ lia | split; [ lia | reflexivity ] ] ].
  - cbn [forallb] in Hall. apply andb_true_iff in Hall.
    destruct Hall as [Hev Hall]. apply negb_true_iff in Hev.
    rewrite run_cons. cbn [fst snd].
    destruct (step_retries o ev h Hev (proj2 Hc)) as [H1 [H2 H3]].
    destruct (IH (fst (step o ev h))) as [I1 [I2 [I3 I4]]];
      [ split; [ rewrite H1; lia | exact H2 ] | exact Hall | ].
    rewrite retryTimers_app, Nat2Z.inj_add.
    split; [ rewrite I1, H1; lia | ].
    split; [ exact I2 | ].
    split; [ lia | ].
    intro Ha. rewrite (H3 Ha), (I4 Ha). reflexivity.
Qed.

Lemma autoRetry_bounded_witness :
  retryTimers (snd (run MoreExamples.retrying MoreExamples.threeFailures
                      initial)) = 2%nat
  /\ retryCountRef (fst (run MoreExamples.retrying MoreExamples.threeFailures
                           initial)) <= 2.
Proof.
  split; [ vm_compute; reflexivity | ].
  apply (autoRetry_bounded MoreExamples.retrying MoreExamples.threeFailures).
  - vm_compute. split; discriminate.
  - reflexivity.
Defined.

End RecordingFacts.

(* ================================================================== *)
(** * The recording hook, piece by piece                               *)
(* ================================================================== *)

Module SegmentFacts.
Import Types UseVoice UseVoiceView Segments.

(** ** Runs *)

Lemma proceed_cons o m ms w :
  proceed o (m :: ms) w
  = (fst (proceed o ms (fst (advance o m w))),
     (snd (advance o m w) ++ snd (proceed o ms (fst (advance o m w))))%list).
Proof.
  cbn [proceed]. destruct (advance o m w) as [w1 e1]. cbn [fst snd].
  destruct (proceed o ms w1) as [w2 e2]. reflexivity.
Qed.

Lemma proceed_app o ms ms' w :
  proceed o (ms ++ ms') w
  = (fst (proceed o ms' (fst (proceed o ms w))),
     (snd (proceed o ms w) ++ snd (proceed o ms' (fst (proceed o ms w))))%list).
Proof.
  revert w. induction ms as [|m ms IH]; intro w.
  - cbn [app proceed fst snd]. destruct (proceed o ms' w). reflexivity.
  - cbn [app]. rewrite !proceed_cons. cbn [fst snd]. rewrite IH. cbn [fst snd].
    rewrite app_assoc. reflexivity.
Qed.

Lemma proceed_one o m w : proceed o [m] w = advance o m w.
Proof.
  cbn [proceed]. destruct (advance o m w) as [w1 e1].
  rewrite app_nil_r. reflexivity.
Qed.

(** ** Lists *)


Lemma nth_error_last {A : Type} (l : list A) (x : A) :
  nth_error (l ++ [x]) (List.length l) = Some x.
Proof.
  rewrite nth_error_app2 by apply Nat.le_refl.
  rewrite Nat.sub_diag. reflexivity.
Qed.

Lemma nth_error_end {A : Type} (l : list A) :
  nth_error l (List.length l) = None.
Proof. apply nth_error_None. apply Nat.le_refl. Qed.


(** ** The two models *)

(** [UseVoice.startRecording] is the call followed at once by what follows
    its [await]. *)
Lemma startRecording_in_two o cl mic levels h :
  startRecording o cl mic levels h
  = if mayStart cl then
      let (h1, e1) := startRecordingCall cl h in
      let (h2, e2) :=
        match mic with
        | Granted opusSupported =>
            startRecordingGranted o cl opusSupported levels h1
        | MicFailed name => startRecordingRefused o name h1
        end in
      (h2, (e1 ++ e2)%list)
    else (h, []).
Proof.
  unfold startRecording, startRecordingCall, mayStart.
  destruct (seenState cl); try reflexivity;
    destruct mic as [opus|name]; reflexivity.
Qed.

(** [UseVoice.processAudioBlobSettle] is the end of the pipeline run at
    once after its transcript was set. *)
Lemma processAudioBlobSettle_in_two o cl io h :
  processAudioBlobSettle o cl io h
  = match tryPipeline io with
    | RaisedEarly m => pipelineCatch o cl io m h
    | RaisedLate text m =>
        pipelineCatch o cl io m (pipelineTranscribed text h)
    | Completed text i =>
        pipelineCompleted o io text i (pipelineTranscribed text h)
    end.
Proof.
  unfold processAudioBlobSettle. destruct (tryPipeline io); reflexivity.
Qed.

(** The call of [startRecording] and the answer to it, with nothing in
    between. *)
Lemma call_then_answer o mic levels w :
  hook (fst (proceed o [CallStartRecording;
                        MicAnswers (List.length (awaiting w)) mic levels] w))
  = fst (startRecording o (seen (hook w)) mic levels (hook w))
  /\ snd (proceed o [CallStartRecording;
                     MicAnswers (List.length (awaiting w)) mic levels] w)
     = snd (startRecording o (seen (hook w)) mic levels (hook w)).
Proof.
  rewrite startRecording_in_two, proceed_cons, proceed_one.
  cbn [advance]. unfold callStartRecording, startRecordingCall.
  destruct (mayStart (seen (hook w))) eqn:Hmay; cbn [fst snd].
  - cbn [awaiting hook]. rewrite nth_error_last.
    destruct mic as [opus|name].
    + destruct (startRecordingGranted o (seen (hook w)) opus levels _)
        as [h2 e2]. split; reflexivity.
    + destruct (startRecordingRefused o name _) as [h2 e2].
      split; reflexivity.
  - cbn [awaiting hook]. rewrite nth_error_end. split; reflexivity.
Qed.


(** ** What is reached from the mount *)

Lemma atMount_sound : sound atMount.
Proof.
  unfold sound, atMount. cbn.
  repeat split; try discriminate; reflexivity.
Qed.

Lemma advance_sound o m w : sound w -> sound (fst (advance o m w)).
Proof.
  unfold sound. intros [Hc [He [Hr [Hl [Hx [Ha Hk]]]]]].
  destruct m; open_world; world_fields.
  all: split_cases; world_fields.
  all: repeat match goal with
              | H : state (hook ?w0) = _ |- _ => rewrite H in *; clear H
              end.
  all: try contradiction.
  all: repeat match goal with
              | |- _ /\ _ => split
              end.
  all: try assumption; try discriminate; try reflexivity.
  all: try (intros; discriminate).
  all: try (intros _; intro Habs; apply app_eq_nil in Habs;
            destruct Habs; discriminate).
  all: try (intros r0 Hr0; injection Hr0 as <-; world_fields).
  all: try (apply in_or_app; right; left; reflexivity).
  all: try (intros _; split; [ discriminate | reflexivity ]).
  all: try (intro Hs; split; [ discriminate | apply Hl; exact Hs ]).
  all: try (apply Hk; assumption).
  all: apply Hk; reflexivity.
Qed.

Lemma proceed_sound o ms : forall w, sound w -> sound (fst (proceed o ms w)).
Proof.
  induction ms as [|m ms IH]; intros w Hw.
  - exact Hw.
  - rewrite proceed_cons. cbn [fst]. apply IH. apply advance_sound. exact Hw.
Qed.



(** ** Every run of [UseVoice.run] is a run of [proceed] *)

Lemma hook_withHook h w : hook (withHook h w) = h.
Proof. reflexivity. Qed.

Lemma onstop_of_started o r h :
  recording r = true ->
  onstop o (mkRecorder (mimeType r) true (closure r)) h = onstop o r h.
Proof.
  intro Hrec. destruct r as [mt rec cl]. cbn in *. subst rec. reflexivity.
Qed.

Lemma step_in_moments o ev w :
  sound w ->
  exists ms,
    hook (fst (proceed o ms w)) = fst (step o ev (hook w))
    /\ snd (proceed o ms w) = snd (step o ev (hook w)).
Proof.
  intro Hw. destruct ev; cbn [step].
  - exists [CallStartRecording;
            MicAnswers (List.length (awaiting w)) mic levels].
    apply call_then_answer.
  - exists [DataAvailable size]. rewrite proceed_one. split; reflexivity.
  - exists [TimerTicks]. rewrite proceed_one. split; reflexivity.
  - exists [FrameComes levels]. rewrite proceed_one. split; reflexivity.
  - destruct (mediaRecorderRef (hook w)) as [r|] eqn:Hr;
      [ destruct (recording r) eqn:Hrec | ].
    + destruct Hw as [_ [_ [_ [_ [_ [_ Hk]]]]]].
      destruct (In_nth_error _ _ (Hk r Hr)) as [k Hnth].
      exists [CallStopRecording; RecorderStops k].
      rewrite proceed_cons, proceed_one. cbn [advance].
      destruct (stopRecording (hook w)) as [h1 e1]. cbn [fst snd].
      unfold withHook. cbn [hook started]. rewrite Hnth.
      rewrite (onstop_of_started o r h1 Hrec).
      destruct (onstop o r h1) as [h2 e2]. split; reflexivity.
    + exists [CallStopRecording]. rewrite proceed_one. cbn [advance].
      destruct (stopRecording (hook w)) as [h1 e1]. split; reflexivity.
    + exists [CallStopRecording]. rewrite proceed_one. cbn [advance].
      destruct (stopRecording (hook w)) as [h1 e1]. split; reflexivity.
  - rewrite processAudioBlobSettle_in_two.
    destruct (tryPipeline io) as [m|text m|text i].
    + exists [PipelineFailed cl io m]. rewrite proceed_one. cbn [advance].
      destruct (pipelineCatch o cl io m (hook w)) as [h1 e1].
      split; reflexivity.
    + exists [PipelineTranscribed text; PipelineFailed cl io m].
      rewrite proceed_cons, proceed_one. cbn [advance fst snd].
      rewrite hook_withHook.
      destruct (pipelineCatch o cl io m (pipelineTranscribed text (hook w)))
        as [h1 e1]. split; reflexivity.
    + exists [PipelineTranscribed text; PipelineCompleted io text i].
      rewrite proceed_cons, proceed_one. cbn [advance fst snd].
      rewrite hook_withHook.
      destruct (pipelineCompleted o io text i
                  (pipelineTranscribed text (hook w))) as [h1 e1].
      split; reflexivity.
  - exists [RetryTimerFires]. rewrite proceed_one. cbn [advance].
    destruct (lastAudioBlobRef (hook w)); split; reflexivity.
  - exists [BackToIdleFires]. rewrite proceed_one. split; reflexivity.
  - exists [CallCancelRecording]. rewrite proceed_one. cbn [advance].
    destruct (cancelRecording (hook w)) as [h1 e1]. split; reflexivity.
  - unfold retry. destruct (lastAudioBlobRef (hook w)) as [b|] eqn:Hb.
    + exists [CallRetry]. rewrite proceed_one. cbn [advance]. rewrite Hb.
      split; reflexivity.
    + exists [CallRetry; MicAnswers (List.length (awaiting w)) mic levels].
      pose proof (call_then_answer o mic levels w) as H.
      rewrite proceed_cons, proceed_one in H.
      rewrite proceed_cons, proceed_one. cbn [advance] in *.
      rewrite Hb. exact H.
  - exists [CallClearError]. rewrite proceed_one. split; reflexivity.
  - exists [CallClearHistory]. rewrite proceed_one. split; reflexivity.
Qed.

(** The runs of the hook as [UseVoice.run] has them are among the runs of
    [proceed]: they are those in which [getUserMedia] answers a call before
    anything else happens, the [stop] event of a recorder follows the call
    that stopped it, and the pipeline's two answers come together. *)
Lemma run_in_moments o evs :
  forall w,
    sound w ->
    exists ms,
      hook (fst (proceed o ms w)) = fst (run o evs (hook w))
      /\ snd (proceed o ms w) = snd (run o evs (hook w)).
Proof.
  induction evs as [|ev evs IH]; intros w Hw.
  - exists []. split; reflexivity.
  - destruct (step_in_moments o ev w Hw) as [ms1 [H1 E1]].
    destruct (IH (fst (proceed o ms1 w)) (proceed_sound o ms1 w Hw))
      as [ms2 [H2 E2]].
    exists (ms1 ++ ms2)%list. rewrite proceed_app. cbn [fst snd].
    rewrite H2, E2, H1, E1. cbn [run].
    destruct (step o ev (hook w)) as [h1 e1]. cbn [fst snd].
    destruct (run o evs h1) as [h2 e2]. split; reflexivity.
Qed.

Lemma run_from_mount o evs :
  exists ms,
    hook (fst (proceed o ms atMount)) = fst (run o evs initial)
    /\ snd (proceed o ms atMount) = snd (run o evs initial).
Proof. exact (run_in_moments o evs atMount atMount_sound). Qed.

(** ** During a recording *)

Lemma sameOutside_refl w : sameOutside w w.
Proof. repeat split. Qed.

Lemma sameOutside_trans w1 w2 w3 :
  sameOutside w1 w2 -> sameOutside w2 w3 -> sameOutside w1 w3.
Proof.
  unfold sameOutside. intros [A1 [A2 [A3 [A4 A5]]]] [B1 [B2 [B3 [B4 B5]]]].
  repeat split; congruence.
Qed.

(** Timer ticks and animation frames during a recording. *)
Lemma whileRecording_keeps o r ms :
  forall w,
    forallb whileRecording ms = true ->
    recordingWith r (hook w) ->
    snd (proceed o ms w) = []
    /\ recordingWith r (hook (fst (proceed o ms w)))
    /\ sameOutside w (fst (proceed o ms w)).
Proof.
  induction ms as [|m ms IH]; intros w Hall Hrec.
  - split; [ reflexivity | split; [ exact Hrec | apply sameOutside_refl ] ].
  - cbn [forallb] in Hall. apply andb_true_iff in Hall.
    destruct Hall as [Hm Hall]. rewrite proceed_cons. cbn [fst snd].
    assert (Hone : snd (advance o m w) = []
                   /\ recordingWith r (hook (fst (advance o m w)))
                   /\ sameOutside w (fst (advance o m w))).
    { destruct Hrec as [H1 [H2 [H3 [H4 [H5 H6]]]]].
      destruct m; try discriminate; open_world;
        unfold recordingWith, sameOutside.
      - destruct (recordingTimerRef (hook w)) eqn:Ht; [ | contradiction ].
        world_fields. repeat split; try assumption. discriminate.
      - rewrite H4. world_fields. repeat split; assumption. }
    destruct Hone as [E1 [R1 S1]].
    destruct (IH (fst (advance o m w)) Hall R1) as [E2 [R2 S2]].
    rewrite E1, E2. split; [ reflexivity | split; [ exact R2 | ] ].
    exact (sameOutside_trans _ _ _ S1 S2).
Qed.

(** The chunks a recorder hands over once it was stopped. *)
Lemma chunks_keep o sizes :
  forall w,
    snd (proceed o (map DataAvailable sizes) w) = []
    /\ sameOutside w (fst (proceed o (map DataAvailable sizes) w))
    /\ streamRef (hook (fst (proceed o (map DataAvailable sizes) w)))
       = streamRef (hook w)
    /\ audioContextRef (hook (fst (proceed o (map DataAvailable sizes) w)))
       = audioContextRef (hook w)
    /\ animationFrameRef (hook (fst (proceed o (map DataAvailable sizes) w)))
       = animationFrameRef (hook w)
    /\ recordingTimerRef (hook (fst (proceed o (map DataAvailable sizes) w)))
       = recordingTimerRef (hook w).
Proof.
  induction sizes as [|size sizes IH]; intro w.
  - split; [ reflexivity | split; [ apply sameOutside_refl | ] ].
    repeat split.
  - cbn [map]. rewrite proceed_cons. cbn [fst snd].
    destruct (IH (fst (advance o (DataAvailable size) w)))
      as [E [S [H1 [H2 [H3 H4]]]]].
    rewrite E, H1, H2, H3, H4. clear IH E H1 H2 H3 H4.
    split; [ reflexivity | ].
    split; [ exact (sameOutside_trans _ _ _ (sameOutside_refl _) S) | ].
    open_world. destruct (0 <? size); repeat split.
Qed.

(** ** A first recording *)

(** X20: a recording made from a hook that can record, holds nothing and
    has nothing under way, in a render whose [recordingTime] is below the
    minimum, as is the first recording after the mount.  The call of
    [startRecording], the microphone granted, timer ticks and animation
    frames, the call of [stopRecording], the chunks of the recorder and
    its [stop] event, in this order and with nothing else in between:
    the hook asks for the microphone, starts the recorder and schedules
    the auto-stop; then stops the recorder, clears the interval and
    cancels the frame; then, on the [stop] event, stops the tracks,
    closes the audio context and schedules the return to [idle]; and it
    does nothing else, so the pipeline is not invoked.  It ends in
    [error] with the too-short message, its refs cleared, no call
    awaiting the microphone and no recorder left to stop; the one stream
    it obtained is the one whose tracks it stopped. *)
Theorem first_recording_is_too_short o opus levels during sizes w :
  canRecord (hook w) = true ->
  released (hook w) -> awaiting w = [] -> started w = [] ->
  recordingTime (hook w) * 1000 < minRecordingDuration o ->
  forallb whileRecording during = true ->
  let moments :=
    ([CallStartRecording; MicAnswers 0 (Granted opus) levels]
     ++ during ++ [CallStopRecording]
     ++ map DataAvailable sizes ++ [RecorderStops 0])%list in
  snd (proceed o moments w)
  = [GetUserMedia; RecorderStart;
     SetTimeout AutoStop (maxRecordingDuration o);
     RecorderStop; ClearInterval; CancelAnimationFrame;
     StopTracks; CloseAudioContext; SetTimeout BackToIdle 3000]
  /\ state (hook (fst (proceed o moments w))) = Types.error
  /\ error (hook (fst (proceed o moments w)))
     = Some "Recording is too short. Please speak longer."
  /\ released (hook (fst (proceed o moments w)))
  /\ awaiting (fst (proceed o moments w)) = []
  /\ started (fst (proceed o moments w)) = []
  /\ obtained (fst (proceed o moments w)) = S (obtained w)
  /\ dropped (fst (proceed o moments w)) = dropped w.
Proof.
  intros Hcan Hrel Haw Hst Hstale Hall moments. subst moments.
  destruct Hrel as [Hs [_ [_ [_ [Ht _]]]]].
  set (cl := seen (hook w)).
  set (r := newRecorder cl opus).
  (* the call and the answer *)
  assert (Hmay : mayStart cl = true).
  { unfold canRecord in Hcan. unfold mayStart, cl, seen. cbn [seenState].
    destruct (state (hook w)); try discriminate; reflexivity. }
  rewrite proceed_app. cbn [fst snd].
  set (w2 := fst (proceed o [CallStartRecording;
                             MicAnswers 0 (Granted opus) levels] w)).
  assert (H2 : snd (proceed o [CallStartRecording;
                               MicAnswers 0 (Granted opus) levels] w)
               = [GetUserMedia; RecorderStart;
                  SetTimeout AutoStop (maxRecordingDuration o)]
               /\ recordingWith r (hook w2)
               /\ awaiting w2 = [] /\ started w2 = [r]
               /\ obtained w2 = S (obtained w) /\ dropped w2 = dropped w).
  { subst w2. rewrite proceed_cons, proceed_one. cbn [advance].
    unfold callStartRecording, startRecordingCall. fold cl. rewrite Hmay.
    cbn [fst snd awaiting hook]. rewrite Haw. cbn [app nth_error].
    unfold startRecordingGranted, analyzeAudioLevel. world_fields.
    cbn [negb]. world_fields. rewrite Hs, Ht, Hst.
    unfold recordingWith. world_fields.
    repeat split; try reflexivity. discriminate. }
  destruct H2 as [E2 [R2 [A2 [S2 [O2 D2]]]]]. rewrite E2.
  (* ticks and frames *)
  rewrite proceed_app. cbn [fst snd].
  destruct (whileRecording_keeps o r during w2 Hall R2) as [E3 [R3 O3]].
  set (w3 := fst (proceed o during w2)) in *. rewrite E3.
  (* the call of [stopRecording] *)
  cbn [app]. rewrite proceed_cons. cbn [fst snd].
  set (w4 := fst (advance o CallStopRecording w3)).
  assert (H4 : snd (advance o CallStopRecording w3)
               = [RecorderStop; ClearInterval; CancelAnimationFrame]
               /\ streamRef (hook w4) = true
               /\ audioContextRef (hook w4) = true
               /\ animationFrameRef (hook w4) = false
               /\ recordingTimerRef (hook w4) = None
               /\ sameOutside w3 w4).
  { subst w4. destruct R3 as [K1 [K2 [K3 [K4 [K5 K6]]]]].
    open_world. rewrite K1, K5. cbn [recording r].
    destruct (recordingTimerRef (hook w3)); [ | contradiction ].
    world_fields. repeat split; assumption. }
  destruct H4 as [E4 [K2 [K3 [K5 [K6 O4]]]]]. rewrite E4.
  (* the chunks *)
  rewrite proceed_app. cbn [fst snd].
  destruct (chunks_keep o sizes w4) as [E5 [O5 [C2 [C3 [C5 C6]]]]].
  set (w5 := fst (proceed o (map DataAvailable sizes) w4)) in *.
  rewrite E5.
  (* the [stop] event *)
  rewrite proceed_one.
  assert (Hout : awaiting w5 = [] /\ started w5 = [r]
                 /\ obtained w5 = S (obtained w) /\ dropped w5 = dropped w).
  { destruct O3 as [a3 [b3 [_ [c3 d3]]]]. destruct O4 as [a4 [b4 [_ [c4 d4]]]].
    destruct O5 as [a5 [b5 [_ [c5 d5]]]].
    repeat split; congruence. }
  destruct Hout as [A5 [S5 [B5 D5]]].
  cbn [advance]. rewrite S5. cbn [nth_error].
  unfold onstop. cbv zeta.
  assert (Hshort : (seenRecordingTime (closure r) * 1000
                    <? minRecordingDuration o) = true).
  { apply Z.ltb_lt. exact Hstale. }
  rewrite Hshort. unfold cleanupResources. world_fields.
  rewrite C2, C3, C5, C6, K2, K3, K5, K6, A5, B5, D5.
  unfold released. world_fields. cbn [app without firstn skipn].
  repeat split; reflexivity.
Qed.

(** X20 at the mount, with three ticks, a frame and one chunk. *)
Lemma first_recording_is_too_short_witness :
  snd (proceed defaultOptions
         ([CallStartRecording; MicAnswers 0 (Granted true) [10; 20]]
          ++ [TimerTicks; FrameComes [30]; TimerTicks; TimerTicks]
          ++ [CallStopRecording]
          ++ map DataAvailable [5] ++ [RecorderStops 0])
         atMount)
  = [GetUserMedia; RecorderStart; SetTimeout AutoStop 10000;
     RecorderStop; ClearInterval; CancelAnimationFrame;
     StopTracks; CloseAudioContext; SetTimeout BackToIdle 3000].
Proof.
  assert (Hrel : released (hook atMount))
    by (unfold released; repeat split; reflexivity).
  assert (Hstale : recordingTime (hook atMount) * 1000
                   < minRecordingDuration defaultOptions)
    by (vm_compute; reflexivity).
  exact (proj1 (first_recording_is_too_short defaultOptions true [10; 20]
                  [TimerTicks; FrameComes [30]; TimerTicks; TimerTicks] [5]
                  atMount eq_refl Hrel eq_refl eq_refl Hstale eq_refl)).
Defined.

(** ** The streams *)


(** ** While the hook reports [isRecording] *)

(** X22: after any run from the mount, while the hook reports
    [isRecording] it holds a stream, an audio context, an analyser and a
    recorder whose [stop] event is still to come.  [stopRecording] then
    leaves the hook in [listening] with the stream held: it stops the
    recorder when it records and stops nothing when it was stopped
    before, and it stops no track.  It is the [stop] event of a recorder
    that stops the tracks, closes the audio context, clears the refs and
    takes the hook to [processing] or to [error]. *)
Theorem listening_holds_a_recorder o ms :
  let w := fst (proceed o ms atMount) in
  isRecording (hook w) = true ->
  (exists r,
      mediaRecorderRef (hook w) = Some r
      /\ In (mkRecorder (mimeType r) true (closure r)) (started w)
      /\ isRecording (hook (fst (advance o CallStopRecording w))) = true
      /\ mediaRecorderRef (hook (fst (advance o CallStopRecording w)))
         = Some (mkRecorder (mimeType r) false (closure r))
      /\ (recording r = true ->
          In RecorderStop (snd (advance o CallStopRecording w)))
      /\ (recording r = false ->
          ~ In RecorderStop (snd (advance o CallStopRecording w)))
      /\ ~ In StopTracks (snd (advance o CallStopRecording w))
      /\ streamRef (hook (fst (advance o CallStopRecording w))) = true)
  /\ streamRef (hook w) = true
  /\ audioContextRef (hook w) = true
  /\ analyserRef (hook w) = true
  /\ (forall k r,
        nth_error (started w) k = Some r ->
        In StopTracks (snd (advance o (RecorderStops k) w))
        /\ In CloseAudioContext (snd (advance o (RecorderStops k) w))
        /\ released (hook (fst (advance o (RecorderStops k) w)))
        /\ (state (hook (fst (advance o (RecorderStops k) w))) = processing
            \/ state (hook (fst (advance o (RecorderStops k) w)))
               = Types.error)).
Proof.
  intros w Hrec.
  assert (Hl : state (hook w) = listening).
  { unfold isRecording in Hrec. destruct (state (hook w)); try discriminate.
    reflexivity. }
  destruct (proceed_sound o ms atMount atMount_sound)
    as [_ [_ [_ [Hlis [Hx [Ha Hk]]]]]].
  fold w in Hlis, Hx, Ha, Hk.
  destruct (Hlis Hl) as [Hsome Hs]. rewrite Hs in Hx, Ha.
  destruct (mediaRecorderRef (hook w)) as [r|] eqn:Hr; [ | contradiction ].
  split;
    [ | split; [ exact Hs | split; [ exact Hx | split; [ exact Ha | ] ] ] ].
  - exists r. split; [ reflexivity | split; [ apply Hk; reflexivity | ] ].
    open_world. rewrite Hr. unfold isRecording.
    destruct (recording r) eqn:Hon; destruct (recordingTimerRef (hook w));
      destruct (animationFrameRef (hook w)); world_fields; rewrite Hl;
      (split; [ reflexivity | ]);
      (split; [ try reflexivity; destruct r as [mt rc cl]; cbn in *;
                subst rc; reflexivity | ]);
      (split; [ first [ intros _; left; reflexivity | discriminate ] | ]);
      (split; [ first [ discriminate
                      | intros _ Hin; cbn in Hin; intuition discriminate ] | ]);
      (split; [ intro Hin; cbn in Hin; intuition discriminate | exact Hs ]).
  - intros k r' Hnth. cbn [advance]. rewrite Hnth.
    unfold onstop. cbv zeta.
    destruct (seenRecordingTime (closure r') * 1000 <? minRecordingDuration o).
    + unfold cleanupResources. world_fields. rewrite Hs, Hx.
      unfold released. world_fields.
      split; [ left; reflexivity | ].
      split; [ right; left; reflexivity | ].
      split; [ repeat split; reflexivity | right; reflexivity ].
    + unfold processAudioBlobBegin, cleanupResources. world_fields.
      rewrite Hs, Hx. unfold released. world_fields.
      split; [ right; left; reflexivity | ].
      split; [ right; right; left; reflexivity | ].
      split; [ repeat split; reflexivity | left; reflexivity ].
Qed.

(** X22 at a recording that was stopped: the hook still reports
    [isRecording], and the [stop] event of the recorder stops the tracks. *)
Lemma listening_holds_a_recorder_witness :
  isRecording
    (hook (fst (proceed defaultOptions MoreExamples.stopping atMount)))
  = true
  /\ streamRef
       (hook (fst (proceed defaultOptions MoreExamples.stopping atMount)))
     = true
  /\ In StopTracks
        (snd (advance defaultOptions (RecorderStops 0)
                (fst (proceed defaultOptions MoreExamples.stopping
                        atMount)))).
Proof.
  assert (H : isRecording
                (hook (fst (proceed defaultOptions MoreExamples.stopping
                              atMount))) = true)
    by (vm_compute; reflexivity).
  destruct (listening_holds_a_recorder defaultOptions MoreExamples.stopping H)
    as [_ [Hs [_ [_ Hstop]]]].
  split; [ exact H | split; [ exact Hs | ] ].
  exact (proj1 (Hstop 0%nat (newRecorder (seen initial) true) eq_refl)).
Defined.

(** ** The states *)

(** X23: after any run from the mount the hook is in none of [confirming]
    and [executing], which no code of the hook sets; and it is in
    [requesting], which the call of [startRecording] sets, only while a
    call awaits the answer of [getUserMedia]. *)
Theorem states_of_the_hook o ms :
  let w := fst (proceed o ms atMount) in
  state (hook w) <> confirming /\ state (hook w) <> executing
  /\ (state (hook w) = requesting -> awaiting w <> [])
  /\ state (hook (fst (advance o CallStartRecording atMount)))
     = requesting.
Proof.
  intro w.
  destruct (proceed_sound o ms atMount atMount_sound)
    as [Hc [He [Hr _]]].
  split; [ exact Hc | split; [ exact He | split; [ exact Hr | reflexivity ] ] ].
Qed.

End SegmentFacts.

(* ================================================================== *)
(** * The page: [pages/index.tsx]                                      *)
(* ================================================================== *)

Module PageFacts.
Import JSNumber Types Home HomePage.

Lemma orString_nonempty (a : option string) (b : string) :
  b <> "" -> Validation.orString a b <> "".
Proof.
  intro Hb. destruct a as [[|c s]|]; simpl; try exact Hb. discriminate.
Qed.

(** The messages of [handleSendTransaction] are not empty. *)
Lemma send_messages env svc bal i :
  match Home.handleSendTransaction env svc bal i with
  | Refused m | Aborted m => m <> ""
  | Submitted _ _ => svc <> None
  end.
Proof.
  unfold Home.handleSendTransaction.
  destruct svc as [svc|]; [ | discriminate ].
  destruct (recipient i) as [[|c r]|]; try discriminate.
  destruct (negb (truthy (amount i)) || PrimFloat.leb (amount i) 0)%bool;
    [ discriminate | ].
  destruct (serviceValidateAmount env svc (toString (amount i))) as [e|].
  - apply orString_nonempty. discriminate.
  - cbv zeta. destruct (PrimFloat.ltb (parseFloat bal) (amount i));
      discriminate.
Qed.

(** X25: the voice callback of the page, which is memoised with no
    dependency and so works with the state of the first render, never
    reaches the ledger.  Whatever the page holds by then, a balance query
    answers "Your balance is 0 USDC", a [send] that needs no confirmation is
    refused with "Wallet not initialized", and neither the balance nor the
    list of transactions changes; a [send] that needs confirmation opens
    the confirmation with the command. *)
Theorem voice_callback_sees_first_render (env : ProcessEnv) (l : Ledger)
  (transcript : string) (i : PaymentIntent) (p : Page) :
  let r := handleVoiceCommandProcessed env firstRender l transcript i p in
  snd r = []
  /\ balanceUsdc (fst r) = balanceUsdc p
  /\ transactions (fst r) = transactions p
  /\ (action i = "check_balance" ->
      HomePage.success (fst r) = "Your balance is 0 USDC")
  /\ (action i = "send" -> confirmationRequired i = false ->
      HomePage.error (fst r) = "Wallet not initialized"
      /\ showConfirmation (fst r) = showConfirmation p)
  /\ (action i = "send" -> confirmationRequired i = true ->
      showConfirmation (fst r) = true
      /\ currentCommand (fst r) = Some (transcript, i)
      /\ HomePage.error (fst r) = "").
Proof.
  intro r. subst r. unfold handleVoiceCommandProcessed. cbv zeta.
  destruct (String.eqb (action i) "check_balance") eqn:Hb.
  { apply String.eqb_eq in Hb. rewrite Hb.
    repeat split; try reflexivity; discriminate. }
  destruct (String.eqb (action i) "view_history") eqn:Hh.
  { apply String.eqb_eq in Hh. rewrite Hh.
    repeat split; try reflexivity; discriminate. }
  destruct (String.eqb (action i) "send") eqn:Hs.
  { destruct (confirmationRequired i) eqn:Hc.
    - repeat split; try reflexivity; try discriminate.
      intro Ha. rewrite Ha in Hb. discriminate.
    - repeat split; try reflexivity; try discriminate.
      intro Ha. rewrite Ha in Hb. discriminate. }
  apply String.eqb_neq in Hs.
  destruct (String.eqb (action i) "split");
    [ | destruct (String.eqb (action i) "pay_bill") ];
    (split; [ reflexivity | ]; split; [ reflexivity | ];
     split; [ reflexivity | ];
     split; [ intro Ha; rewrite Ha in Hb; discriminate | ];
     split; intro Ha; contradiction).
Qed.

Lemma voice_callback_sees_first_render_witness :
  HomePage.success
    (fst (handleVoiceCommandProcessed Examples.noEnv firstRender
            MoreExamples.confirming Examples.balanceCommand
            (Nlp.extractIntentFallback Examples.balanceCommand)
            MoreExamples.funded))
  = "Your balance is 0 USDC"
  /\ HomePage.error
       (fst (handleVoiceCommandProcessed Examples.noEnv firstRender
               MoreExamples.confirming "Send 5" MoreExamples.quickSend
               MoreExamples.funded))
     = "Wallet not initialized".
Proof.
  split.
  - apply (voice_callback_sees_first_render Examples.noEnv
             MoreExamples.confirming Examples.balanceCommand
             (Nlp.extractIntentFallback Examples.balanceCommand)).
    vm_compute. reflexivity.
  - apply (voice_callback_sees_first_render Examples.noEnv
             MoreExamples.confirming "Send 5" MoreExamples.quickSend);
      reflexivity.
Defined.

(** X26: how [handleSendTransaction] ends.  Either it changes neither the
    balance nor the list of transactions, reports an error that is not
    empty, and has not asked for the balance; or the transfer was
    submitted and confirmed: then the calls were [sendUSDC],
    [waitForTransaction] and [getWalletBalance] in this order, one
    confirmed transaction was put at the head of the list, the success
    message names the amount, and the confirmation is closed, the command
    dropped and the loading flag cleared. *)
Theorem send_outcome (env : ProcessEnv) (seen : Page) (l : Ledger)
  (i : PaymentIntent) (p : Page) :
  let r := handleSendTransaction env seen l i p in
  (transactions (fst r) = transactions p
   /\ balanceUsdc (fst r) = balanceUsdc p
   /\ HomePage.error (fst r) <> ""
   /\ ~ In CallGetWalletBalance (snd r))
  \/ (exists to amt hash,
        Home.handleSendTransaction env (arcService seen) (balanceUsdc seen) i
        = Submitted to amt
        /\ sendRun l = Confirmed hash
        /\ snd r = [CallSendUSDC to amt; CallWaitForTransaction hash;
                    CallGetWalletBalance]
        /\ transactions (fst r)
           = mkTransaction (hash ++ "-0") hash (walletAddress seen) to amt
                           "confirmed" :: transactions p
        /\ HomePage.success (fst r)
           = "Successfully sent " ++ amt ++ " USDC to "
             ++ UtilsMore.slice to 0 6 ++ "..." ++ UtilsMore.sliceFrom to (-4)
        /\ loadingTransaction (fst r) = false
        /\ currentCommand (fst r) = None
        /\ showConfirmation (fst r) = false).
Proof.
  intro r. subst r. unfold handleSendTransaction.
  pose proof (send_messages env (arcService seen) (balanceUsdc seen) i) as Hm.
  destruct (Home.handleSendTransaction env (arcService seen)
              (balanceUsdc seen) i) as [m|m|to amt].
  - left. page_fields. repeat split; auto.
  - left. cbv zeta. page_fields. repeat split; auto.
  - cbv zeta. destruct (sendRun l) as [m|hash m|hash].
    + left. page_fields. repeat split.
      * apply orString_nonempty. discriminate.
      * simpl. intuition discriminate.
    + left. page_fields. repeat split.
      * apply orString_nonempty. discriminate.
      * simpl. intuition discriminate.
    + right. exists to, amt, hash.
      split; [ reflexivity | ]. split; [ reflexivity | ].
      unfold loadBalance.
      destruct (arcService seen) as [svc|]; [ | contradiction ].
      destruct (balanceReply l); page_fields; repeat split; reflexivity.
Qed.

(** X27: a voice [send] that needs confirmation is sent, once it is
    confirmed, by the handler of the current render: the wallet, the
    balance and the address are the ones the page holds by then, and the
    intent is the one of the command.  Once the confirmation was
    cancelled, or a voice error came, confirming does nothing. *)
Theorem confirmation_uses_current_state (env : ProcessEnv) (l : Ledger)
  (transcript : string) (i : PaymentIntent) (p : Page) :
  action i = "send" -> confirmationRequired i = true ->
  let p1 :=
    fst (handleVoiceCommandProcessed env firstRender l transcript i p) in
  handleConfirmTransaction env l p1 = handleSendTransaction env p1 l i p1
  /\ arcService p1 = arcService p
  /\ balanceUsdc p1 = balanceUsdc p
  /\ walletAddress p1 = walletAddress p
  /\ handleConfirmTransaction env l (handleCancelConfirmation p1)
     = (handleCancelConfirmation p1, [])
  /\ (forall message,
        handleConfirmTransaction env l (handleVoiceError message p1)
        = (handleVoiceError message p1, [])).
Proof.
  intros Ha Hc p1. subst p1. unfold handleVoiceCommandProcessed. cbv zeta.
  rewrite Ha, Hc.
  change (String.eqb "send" "check_balance") with false.
  change (String.eqb "send" "view_history") with false.
  change (String.eqb "send" "send") with true.
  cbv iota. cbn [fst].
  repeat split; reflexivity.
Qed.

Lemma confirmation_uses_current_state_witness :
  arcService
    (fst (handleVoiceCommandProcessed Examples.noEnv firstRender
            MoreExamples.confirming "Send 5"
            (Examples.sendIntent 5%float (Some Examples.someAddress))
            MoreExamples.funded))
  = Some RealArcService.
Proof.
  exact (proj1 (proj2 (confirmation_uses_current_state Examples.noEnv
                         MoreExamples.confirming "Send 5"
                         (Examples.sendIntent 5%float
                            (Some Examples.someAddress))
                         MoreExamples.funded eq_refl eq_refl))).
Defined.

End PageFacts.

(* ================================================================== *)
(** * Filters and pages: [lib/hooks/useTransactions.ts]                *)
(* ================================================================== *)

Module TransactionFacts.
Import JSNumber UseTransactions.

Lemma filter_filter {A : Type} (p q : A -> bool) (l : list A) :
  filter q (filter p l) = filter (fun x => (p x && q x)%bool) l.
Proof.
  induction l as [|x l IH]; simpl; [ reflexivity | ].
  destruct (p x); simpl; [ | exact IH ].
  destruct (q x); [ rewrite IH; reflexivity | exact IH ].
Qed.

Lemma filter_true {A : Type} (l : list A) : filter (fun _ => true) l = l.
Proof. induction l as [|x l IH]; simpl; [ | rewrite IH ]; reflexivity. Qed.

Lemma filter_idempotent {A : Type} (p : A -> bool) (l : list A) :
  filter p (filter p l) = filter p l.
Proof.
  rewrite filter_filter. apply filter_ext. intro x. destruct (p x); reflexivity.
Qed.

Lemma filter_and_true {A : Type} (p : A -> bool) (l : list A) :
  filter (fun x => (p x && true)%bool) l = filter p l.
Proof. apply filter_ext. intro x. apply andb_true_r. Qed.

(** The six filters of [applyFilters] amount to one. *)
Lemma applyFilters_passes address txs f :
  applyFilters address txs f = filter (passes address f) txs.
Proof.
  unfold applyFilters, passes. cbv zeta.
  destruct (filterStatus f) as [[|c w]|], (minAmount f), (maxAmount f),
    (startDate f), (endDate f), (filterType f) as [[|c' t]|],
    address as [[|c'' a]|];
    try destruct (negb (String.eqb (String c' t) "all"));
    try destruct (String.eqb (String c' t) "sent");
    try destruct (String.eqb (String c' t) "received");
    rewrite ?filter_filter;
    first [ apply filter_ext; intro tx;
            rewrite ?andb_true_r, ?andb_true_l, ?andb_assoc; reflexivity
          | symmetry; apply filter_true ].
Qed.

(** X29: [applyFilters] only narrows.  It keeps, in their order, the
    transactions that pass every condition of the filter; so applying the
    same filter to its own result changes nothing, the empty filter keeps
    everything, and a filter by "sent" or "received" keeps everything
    when the hook was given no address. *)
Theorem applyFilters_narrows address txs f :
  applyFilters address txs f = filter (passes address f) txs
  /\ (forall tx, In tx (applyFilters address txs f) ->
        In tx txs /\ passes address f tx = true)
  /\ (List.length (applyFilters address txs f) <= List.length txs)%nat
  /\ applyFilters address (applyFilters address txs f) f
     = applyFilters address txs f
  /\ applyFilters address txs noFilter = txs
  /\ (forall t, applyFilters None txs
                  (mkFilter None None None None None (Some t)) = txs).
Proof.
  split; [ apply applyFilters_passes | ].
  split; [ | split; [ | split; [ | split ] ] ].
  - intros tx Hin. rewrite applyFilters_passes in Hin.
    apply filter_In in Hin. exact Hin.
  - rewrite applyFilters_passes. apply filter_length_le.
  - rewrite !applyFilters_passes. apply filter_idempotent.
  - rewrite applyFilters_passes. apply filter_true.
  - intro t. rewrite applyFilters_passes.
    rewrite <- (filter_true txs) at 2. apply filter_ext. intro tx.
    unfold passes. cbn [filterStatus minAmount maxAmount startDate endDate
                        filterType andb].
    destruct t; reflexivity.
Qed.

Lemma applyFilters_narrows_witness :
  In (mkTransaction "0xaa" Examples.someAddress "0xbb" "50" "confirmed" 1000)
     MoreExamples.twoTransfers
  /\ passes None MoreExamples.confirmedFromTen
       (mkTransaction "0xaa" Examples.someAddress "0xbb" "50" "confirmed" 1000)
     = true.
Proof.
  apply (proj1 (proj2 (applyFilters_narrows None MoreExamples.twoTransfers
                         MoreExamples.confirmedFromTen))).
  vm_compute. left. reflexivity.
Defined.

(** ** Pages *)

Lemma sliceTo_firstn {A : Type} (xs : list A) (e : Z) :
  0 <= e -> sliceTo xs e = firstn (Z.to_nat e) xs.
Proof.
  intro He. unfold sliceTo, UtilsMore.clampIndex. cbv zeta.
  destruct (e <? 0) eqn:Hneg; [ apply Z.ltb_lt in Hneg; lia | ].
  destruct (Z.le_gt_cases e (Z.of_nat (List.length xs))) as [Hle|Hgt].
  - rewrite Z.min_l by lia. reflexivity.
  - rewrite Z.min_r by lia. rewrite Nat2Z.id.
    rewrite firstn_all. symmetry. apply firstn_all2. lia.
Qed.

Lemma totalPages_spec (length pageSize currentPage : Z) :
  0 < pageSize ->
  (currentPage < totalPages length pageSize <-> currentPage * pageSize < length).
Proof.
  intro Hps. unfold totalPages. split; intro H.
  - assert (Hq : pageSize * ((length + pageSize - 1) / pageSize)
                 <= length + pageSize - 1)
      by (apply Z.mul_div_le; lia).
    nia.
  - assert (currentPage + 1 <= (length + pageSize - 1) / pageSize)
      by (apply Z.div_le_lower_bound; [ lia | nia ]).
    lia.
Qed.

(** X30: the pages of the transaction list, for a positive page size.
    What is shown are the first [currentPage * pageSize] transactions;
    [hasMore] is unset exactly when all of them are shown; and [loadMore]
    shows more when [hasMore] is set, and nothing new, although the page
    number still grows, when it is not. *)
Theorem pagination {A : Type} (filtered : list A) (currentPage pageSize : Z) :
  0 < pageSize -> 1 <= currentPage ->
  let shown := paginatedTransactions filtered currentPage pageSize in
  let more := paginatedTransactions filtered (loadMore currentPage) pageSize in
  shown = firstn (Z.to_nat (currentPage * pageSize)) filtered
  /\ Z.of_nat (List.length shown)
     = Z.min (Z.of_nat (List.length filtered)) (currentPage * pageSize)
  /\ (hasMore currentPage (Z.of_nat (List.length filtered)) pageSize = false
      <-> shown = filtered)
  /\ (hasMore currentPage (Z.of_nat (List.length filtered)) pageSize = true ->
      (List.length shown < List.length more)%nat)
  /\ (hasMore currentPage (Z.of_nat (List.length filtered)) pageSize = false ->
      more = shown).
Proof.
  intros Hps Hcp shown more. subst shown more.
  unfold paginatedTransactions, loadMore.
  rewrite !sliceTo_firstn by nia.
  pose proof (totalPages_spec (Z.of_nat (List.length filtered)) pageSize
                currentPage Hps) as Hspec.
  unfold hasMore.
  split; [ reflexivity | ].
  split; [ rewrite length_firstn; lia | ].
  split; [ | split ].
  - split; intro H.
    + apply Z.ltb_ge in H. apply firstn_all2. 
      assert (~ currentPage * pageSize < Z.of_nat (List.length filtered))
        by (intro Hlt; apply Hspec in Hlt; lia).
      lia.
    + apply Z.ltb_ge.
      assert (Hlen : List.length
                       (firstn (Z.to_nat (currentPage * pageSize)) filtered)
                     = List.length filtered) by (rewrite H; reflexivity).
      rewrite length_firstn in Hlen.
      assert (~ currentPage * pageSize < Z.of_nat (List.length filtered))
        by lia.
      destruct (Z.lt_ge_cases currentPage
                  (totalPages (Z.of_nat (List.length filtered)) pageSize))
        as [Hlt|Hge]; [ apply Hspec in Hlt; contradiction | exact Hge ].
  - intro H. apply Z.ltb_lt in H. apply Hspec in H.
    rewrite !length_firstn. nia.
  - intro H. apply Z.ltb_ge in H.
    assert (~ currentPage * pageSize < Z.of_nat (List.length filtered))
      by (intro Hlt; apply Hspec in Hlt; lia).
    rewrite !firstn_all2 by nia. reflexivity.
Qed.

Lemma pagination_witness :
  paginatedTransactions MoreExamples.twentyFive 2 10
  = firstn 20 MoreExamples.twentyFive
  /\ paginatedTransactions MoreExamples.twentyFive 3 10
     = MoreExamples.twentyFive.
Proof.
  split.
  - exact (proj1 (pagination MoreExamples.twentyFive 2 10 eq_refl
                    ltac:(discriminate))).
  - apply (proj1 (proj2 (proj2 (pagination MoreExamples.twentyFive 3 10
                                   eq_refl ltac:(discriminate))))).
    reflexivity.
Defined.

End TransactionFacts.
